(** * goodreads-to-skylight: the import script, embedded and verified

    A shallow embedding of [import.py]: the nested-field getter, the request
    wrapper, the Open Library key resolver, record construction, read-count
    validation, the row loop and the report writer.

    Python values are modelled as follows.
    - [str] is [string]; characters are code points below 256, which is where
      every character class the script tests for lives.
    - [int] is [Z] (Python integers are unbounded).
    - A decoded JSON document is the inductive [json]; Python's [None] and
      JSON's null are the same constructor [JNull], as they are the same
      object in Python.
    - A csv.DictReader row is an insertion-ordered list of entries: a
      column name with its cell, which is a string or [None], or the
      surplus fields of a long line, which the reader keeps under the key
      [None].
    - Exceptions are the inductive [exn]; a computation that can raise
      returns a [result].
    - The network and the clock are an [environment]; code that talks to
      them runs in the state-and-exception monad [M]. *)

From Stdlib Require Import String Ascii List ZArith Lia Bool Arith.
From Stdlib Require Import Floats.SpecFloat.
Import ListNotations.

Open Scope string_scope.
Open Scope Z_scope.

(** ** Characters and strings *)

Module PyStr.

Definition dquote : ascii := ascii_of_nat 34.
Definition newline : ascii := ascii_of_nat 10.

(** [str.isspace] on one code point below 256. *)
Definition is_space (c : ascii) : bool :=
  let n := nat_of_ascii c in
  ((9 <=? n) && (n <=? 13) || (28 <=? n) && (n <=? 32)
   || (n =? 133) || (n =? 160))%nat.

Definition is_digit (c : ascii) : bool :=
  let n := nat_of_ascii c in ((48 <=? n) && (n <=? 57))%nat.

Definition is_empty (s : string) : bool :=
  match s with EmptyString => true | String _ _ => false end.

Definition mem (cs : list ascii) (c : ascii) : bool :=
  existsb (Ascii.eqb c) cs.

(** [s.lstrip(chars)], with the character set given as a predicate. *)
Fixpoint lstrip_by (p : ascii -> bool) (s : string) : string :=
  match s with
  | EmptyString => EmptyString
  | String c r => if p c then lstrip_by p r else s
  end.

(** [s.rstrip(chars)]. *)
Fixpoint rstrip_by (p : ascii -> bool) (s : string) : string :=
  match s with
  | EmptyString => EmptyString
  | String c r =>
      match rstrip_by p r with
      | EmptyString => if p c then EmptyString else String c EmptyString
      | r' => String c r'
      end
  end.

(** [s.strip()]. *)
Definition strip (s : string) : string :=
  rstrip_by is_space (lstrip_by is_space s).

(** [s.split(sep)] for a one-character separator: every occurrence
    splits, and the result is never empty. *)
Fixpoint split (sep : ascii) (s : string) : list string :=
  match s with
  | EmptyString => [EmptyString]
  | String c r =>
      if Ascii.eqb c sep then EmptyString :: split sep r
      else match split sep r with
           | h :: t => String c h :: t
           | [] => [String c EmptyString]
           end
  end.

(** [xs[-1]] on a list of strings that [split] produced. *)
Definition last_segment (s : string) : string :=
  List.last (split "/" s) EmptyString.

(** [s.replace(a, b)] for one-character [a] and [b]. *)
Fixpoint replace (a b : ascii) (s : string) : string :=
  match s with
  | EmptyString => EmptyString
  | String c r => String (if Ascii.eqb c a then b else c) (replace a b r)
  end.

(** [s[:-n]]. *)
Definition drop_last (n : nat) (s : string) : string :=
  substring 0 (String.length s - n) s.

Definition upper_char (c : ascii) : ascii :=
  let n := nat_of_ascii c in
  if ((97 <=? n) && (n <=? 122))%nat then ascii_of_nat (n - 32) else c.

(** [s.upper()] on ASCII letters. *)
Fixpoint upper (s : string) : string :=
  match s with
  | EmptyString => EmptyString
  | String c r => String (upper_char c) (upper r)
  end.

(** *** [int(s)]

    Surrounding whitespace is dropped, one sign is allowed, digits may be
    separated by single underscores, and a literal of more than
    [max_str_digits] digits is refused (the interpreter's default limit).
    [None] stands for [ValueError].

    The whitespace [int] drops is not that of [str.strip]: the parser
    skips the six ASCII blanks (tab to carriage return, and the space), and
    of the characters from 128 on the two that are spaces, which reach it
    as blanks; the separators U+001C to U+001F are left where they are,
    and with them the literal is refused. *)

Definition is_int_space (c : ascii) : bool :=
  let n := nat_of_ascii c in
  ((9 <=? n) && (n <=? 13) || (n =? 32) || (n =? 133) || (n =? 160))%nat.

Definition max_str_digits : nat := 4300.

Definition digit_val (c : ascii) : option Z :=
  if is_digit c then Some (Z.of_nat (nat_of_ascii c - 48)) else None.

Fixpoint parse_digits (acc : Z) (count : nat) (after_digit : bool)
         (s : string) : option (Z * nat) :=
  match s with
  | EmptyString => if after_digit then Some (acc, count) else None
  | String c r =>
      match digit_val c with
      | Some d => parse_digits (10 * acc + d) (S count) true r
      | None =>
          if Ascii.eqb c "_" && after_digit
          then parse_digits acc count false r
          else None
      end
  end.

Definition parse_nat (s : string) : option Z :=
  match parse_digits 0 0%nat false s with
  | Some (v, count) =>
      if (max_str_digits <? count)%nat then None else Some v
  | None => None
  end.

Definition int (s : string) : option Z :=
  match rstrip_by is_int_space (lstrip_by is_int_space s) with
  | String "+" r => parse_nat r
  | String "-" r => option_map Z.opp (parse_nat r)
  | t => parse_nat t
  end.

(** *** [re.sub(r'[\[\(].*?[\]\)]', '', s)]

    A match starts at an opening bracket or parenthesis and runs, lazily,
    to the nearest closing bracket or parenthesis; [.] does not cross a
    newline, so an opener with a newline (or the end of the string) before
    any closer matches nothing and is kept.  Matches are taken leftmost
    first and do not overlap. *)

Definition is_open (c : ascii) : bool := mem ["["; "("]%char c.
Definition is_close (c : ascii) : bool := mem ["]"; ")"]%char c.

(** Length of what [.*?[\]\)]] matches at the start of [s], if it
    matches. *)
Fixpoint match_len (s : string) : option nat :=
  match s with
  | EmptyString => None
  | String c r =>
      if is_close c then Some 1%nat
      else if Ascii.eqb c newline then None
      else option_map S (match_len r)
  end.

(** The scan of [re.sub]: [skip] characters of a match in progress are
    still to be dropped. *)
Fixpoint sub_from (skip : nat) (s : string) : string :=
  match s with
  | EmptyString => EmptyString
  | String c r =>
      match skip with
      | S k => sub_from k r
      | O =>
          if is_open c then
            match match_len r with
            | Some n => sub_from n r
            | None => String c (sub_from 0 r)
            end
          else String c (sub_from 0 r)
      end
  end.

Definition remove_brackets (s : string) : string := sub_from 0 s.

End PyStr.

(** ** Exceptions and results *)

Inductive exn : Type :=
| KeyError (k : string)
| ValueError
| TypeError
| AttributeError
| IndexError
| JSONDecodeError.

Inductive result (A : Type) : Type :=
| Ok (a : A)
| Raise (e : exn).

Arguments Ok {A} a.
Arguments Raise {A} e.

(** ** JSON values *)

#[local] Set Warnings "-register-all".

Inductive json : Type :=
| JNull
| JBool (b : bool)
| JInt (n : Z)
| JFloat (f : spec_float)
| JStr (s : string)
| JList (l : list json)
| JDict (d : list (string * json)).

(** A key handed to [safe_get]: the script passes strings and integers. *)
Inductive key : Type :=
| KStr (s : string)
| KInt (i : Z).

Module Py.

(** Truth value of an object, as [not x] and [if x] test it. *)
Definition truthy (j : json) : bool :=
  match j with
  | JNull => false
  | JBool b => b
  | JInt n => negb (n =? 0)
  | JFloat (S754_zero _) => false
  | JFloat _ => true
  | JStr s => negb (PyStr.is_empty s)
  | JList l => match l with [] => false | _ => true end
  | JDict d => match d with [] => false | _ => true end
  end.

(** [x == 0]. *)
Definition eq_zero (j : json) : bool :=
  match j with
  | JInt n => n =? 0
  | JBool b => negb b
  | JFloat (S754_zero _) => true
  | _ => false
  end.

(** Lookup in an insertion-ordered mapping with string keys. *)
Fixpoint lookup {A : Type} (d : list (string * A)) (k : string) : option A :=
  match d with
  | [] => None
  | (k', v) :: rest => if String.eqb k' k then Some v else lookup rest k
  end.

(** [d[k] = v]: overwrite in place, or append. *)
Fixpoint set {A : Type} (d : list (string * A)) (k : string) (v : A)
  : list (string * A) :=
  match d with
  | [] => [(k, v)]
  | (k', v') :: rest =>
      if String.eqb k' k then (k', v) :: rest else (k', v') :: set rest k v
  end.

(** [d.get(k)] on a decoded JSON object, whose keys are all strings: an
    integer key is never found. *)
Definition dict_get (d : list (string * json)) (k : key) : json :=
  match k with
  | KStr s => match lookup d s with Some v => v | None => JNull end
  | KInt _ => JNull
  end.

(** [x.get(k)] on any object: only a dict has the method. *)
Definition get (x : json) (k : string) : result json :=
  match x with
  | JDict d => Ok (dict_get d (KStr k))
  | _ => Raise AttributeError
  end.

(** [l[i]]: a negative index counts from the end. *)
Definition index (l : list json) (i : Z) : result json :=
  let n := Z.of_nat (List.length l) in
  let j := if i <? 0 then n + i else i in
  if (0 <=? j) && (j <? n)
  then match nth_error l (Z.to_nat j) with
       | Some v => Ok v
       | None => Raise IndexError
       end
  else Raise IndexError.

End Py.

(** ** [safe_get] *)

Fixpoint safe_get (obj : json) (keys : list key) : result json :=
  match keys with
  | [] => Ok obj
  | key :: rest =>
      match obj with
      | JDict d => safe_get (Py.dict_get d key) rest
      | JList l =>
          match key with
          | KInt i =>
              if i <? Z.of_nat (List.length l)
              then match Py.index l i with
                   | Ok v => safe_get v rest
                   | Raise e => Raise e
                   end
              else Ok JNull
          | KStr _ => Raise TypeError
          end
      | _ => Ok JNull
      end
  end.

(** ** Rows

    A row is what csv.DictReader yields for one line: a dict from the
    column names of the header to the fields of the line, in column order.
    A line shorter than the header gets [None] for the fields it lacks, and
    the surplus fields of a line longer than the header are kept as a list
    under the key [None]. *)

(** A cell: the text of a field, or [None]. *)
Definition cell : Type := option string.

Inductive entry : Type :=
| Field (column : string) (value : cell)
| Surplus (fields : list string).

Definition row : Type := list entry.

Module Row.

(** The key of an entry: a column name, or [None]. *)
Definition key_of (e : entry) : option string :=
  match e with
  | Field column _ => Some column
  | Surplus _ => None
  end.

(** [row.keys()]. *)
Definition keys (r : row) : list (option string) := map key_of r.

(** Lookup of a column name; the key [None] is no column name. *)
Fixpoint lookup (r : row) (k : string) : option cell :=
  match r with
  | [] => None
  | Field column value :: rest =>
      if String.eqb column k then Some value else lookup rest k
  | Surplus _ :: rest => lookup rest k
  end.

(** [row[k] = v]: overwrite in place, or append. *)
Fixpoint set (r : row) (k : string) (v : cell) : row :=
  match r with
  | [] => [Field k v]
  | Field column value :: rest =>
      if String.eqb column k then Field column v :: rest
      else Field column value :: set rest k v
  | Surplus fields :: rest => Surplus fields :: set rest k v
  end.

(** The row of a line that has exactly the fields of the header. *)
Definition of_texts (fields : list (string * string)) : row :=
  map (fun kv => Field (fst kv) (Some (snd kv))) fields.

(** Truth value of a cell: [None] and the empty string are falsy. *)
Definition truthy (c : cell) : bool :=
  match c with
  | Some s => negb (PyStr.is_empty s)
  | None => false
  end.

(** The receiver of a string method such as [lstrip]: [None] has no such
    attribute. *)
Definition receiver (c : cell) : result string :=
  match c with
  | Some s => Ok s
  | None => Raise AttributeError
  end.

(** The subject of [re.sub]: it must be a string. *)
Definition subject (c : cell) : result string :=
  match c with
  | Some s => Ok s
  | None => Raise TypeError
  end.

(** A cell as a JSON value. *)
Definition to_json (c : cell) : json :=
  match c with
  | Some s => JStr s
  | None => JNull
  end.

End Row.

(** [row[k]]. *)
Definition row_get (r : row) (k : string) : result cell :=
  match Row.lookup r k with
  | Some v => Ok v
  | None => Raise (KeyError k)
  end.

Definition rbind {A B : Type} (m : result A) (k : A -> result B) : result B :=
  match m with
  | Ok a => k a
  | Raise e => Raise e
  end.

Notation "'let?' x ':=' m 'in' k" := (rbind m (fun x => k))
  (at level 10, x name, m at level 100, k at level 200).

(** [int(x)] as a computation: [ValueError] when [x] is a string that is no
    integer literal, [TypeError] when [x] is [None]. *)
Definition py_int (x : cell) : result Z :=
  match x with
  | Some s =>
      match PyStr.int s with
      | Some n => Ok n
      | None => Raise ValueError
      end
  | None => Raise TypeError
  end.

(** ** [valid_read_count] *)

(** [count in texts]: [None] equals no string. *)
Definition cell_in (count : cell) (texts : list string) : bool :=
  match count with
  | Some s => existsb (String.eqb s) texts
  | None => false
  end.

(** The [except] clause catches [ValueError] and nothing else. *)
Definition valid_read_count (count : cell) : result bool :=
  if cell_in count ["0"; EmptyString] then Ok false
  else match py_int count with
       | Ok _ => Ok true
       | Raise ValueError => Ok false
       | Raise e => Raise e
       end.

(** ** Record construction (the pure part of [create_record])

    [timestamp] is the creation time already formatted; the record is the
    dict that the script serialises into the request body. *)

Definition stored_rating (my_rating : Z) : Z :=
  if my_rating * 2 <? 1 then 1 else my_rating * 2.

Definition finish_date_of (timestamp : string) (finish_date : cell) : string :=
  match finish_date with
  | Some date =>
      if PyStr.is_empty date then timestamp
      else PyStr.replace "/" "-" date ++ "T00:00:00.000Z"
  | None => timestamp
  end.

Definition build_record (timestamp : string) (r : row) (open_lib_key : string)
  : result json :=
  let? my_rating := row_get r "My Rating" in
  let? n := py_int my_rating in
  let rating := stored_rating n in
  let? date_read := row_get r "Date Read" in
  let? finish_date :=
    (if Row.truthy date_read then Ok date_read
     else row_get r "Date Added") in
  let finish_date := finish_date_of timestamp finish_date in
  let? review := row_get r "My Review" in
  let? read_count := row_get r "Read Count" in
  let? count := py_int read_count in
  Ok (JDict
        [("$type", JStr "my.skylights.rel");
         ("item", JDict [("ref", JStr "open-library");
                         ("value", JStr open_lib_key)]);
         ("note", JDict [("value", Row.to_json review);
                         ("createdAt", JStr timestamp);
                         ("updatedAt", JStr timestamp)]);
         ("rating", JDict [("value", JInt rating);
                           ("createdAt", JStr timestamp)]);
         ("finishedAt", JList (repeat (JStr finish_date) (Z.to_nat count)))]).

(** [datetime.now(timezone.utc).isoformat()[:-9] + "Z"], from the clock's
    ISO string. *)
Definition timestamp_of (iso : string) : string :=
  PyStr.drop_last 9 iso ++ "Z".

(** ** The outside world *)

Inductive method : Type := GET | POST.

(** One HTTP request as [safe_request] issues it.  [auth] is the token the
    caller interpolates into the Authorization header (the other headers the
    script sends are constants); [data] is the request body before
    [json.dumps]. *)
Record request : Type := mkRequest {
  meth : method;
  url : string;
  params : option (list (string * string));
  json_body : option json;
  auth : option json;
  data : option json
}.

(** What comes back inside [safe_request].
    - [Failed]: the call or [raise_for_status] raised (connection error,
      timeout, HTTP error status);
    - [Undecodable]: a response whose body is not JSON;
    - [Body j]: a response whose body decodes to [j]. *)
Inductive response : Type :=
| Failed
| Undecodable
| Body (j : json).

(** The network answers a request knowing everything sent before it; the
    clock is read the same way. *)
Record environment : Type := mkEnv {
  respond : list request -> request -> response;
  utc_now_iso : list request -> string
}.

(** What the report writer hands to the csv writer for one field of a
    line: a string, [None] (which the writer leaves empty), or the list of
    surplus fields. *)
Inductive value : Type :=
| Text (s : string)
| Nothing
| Listed (fields : list string).

(** What the script accumulates: the requests sent so far, the [results]
    list, and the lines written to the report file ([None] until it is
    opened). *)
Record state : Type := mkState {
  sent : list request;
  results : list row;
  report_file : option (list (list value))
}.

Definition initial : state := mkState [] [] None.

(** ** The monad of the script: state and exceptions *)

Definition M (A : Type) : Type := state -> result A * state.

Definition ret {A : Type} (a : A) : M A := fun st => (Ok a, st).

Definition raise {A : Type} (e : exn) : M A := fun st => (Raise e, st).

Definition bind {A B : Type} (m : M A) (k : A -> M B) : M B :=
  fun st =>
    match m st with
    | (Ok a, st') => k a st'
    | (Raise e, st') => (Raise e, st')
    end.

Definition lift {A : Type} (r : result A) : M A := fun st => (r, st).

Declare Scope script_scope.
Delimit Scope script_scope with script.
Notation "x <- m ;; k" := (bind m (fun x => k))
  (at level 61, m at next level, right associativity) : script_scope.
Notation "m ;; k" := (bind m (fun _ => k))
  (at level 61, right associativity) : script_scope.
Open Scope script_scope.

(** Evaluation of the column lookups inside a printed f-string. *)
Definition print_row (r : row) : M unit :=
  _ <- lift (row_get r "Title") ;;
  _ <- lift (row_get r "Author") ;;
  ret tt.

(** [results.append(row)]. *)
Definition append_result (r : row) : M unit :=
  fun st => (Ok tt, mkState (sent st) (results st ++ [r])%list (report_file st)).

(** How one turn of a [for] loop ends: [continue] (or falling off the end
    of the body), or [return v] from the enclosing function. *)
Inductive flow (A : Type) : Type :=
| Continue
| Return (v : A).

Arguments Continue {A}.
Arguments Return {A} v.

(** ** Talking to the network *)

Section Script.

Variable env : environment.

(** Send one request and receive the answer of the network. *)
Definition send (rq : request) : M response :=
  fun st =>
    (Ok (respond env (sent st) rq),
     mkState (sent st ++ [rq])%list (results st) (report_file st)).

(** Read the clock: [datetime.now(timezone.utc).isoformat()]. *)
Definition now : M string :=
  fun st => (Ok (utc_now_iso env (sent st)), st).

(** The part of [safe_request] after the request has been made: anything
    raised inside the [try] gives [None]; [res.json()] is outside the
    [try], so an undecodable body raises. *)
Definition receive (rs : response) : M json :=
  match rs with
  | Failed => ret JNull
  | Undecodable => raise JSONDecodeError
  | Body j => ret j
  end.

Definition safe_request (mode url : string)
           (params : option (list (string * string)))
           (json_body auth data : option json) : M json :=
  if String.eqb (PyStr.upper mode) "GET" then
    rs <- send (mkRequest GET url params None auth None) ;;
    receive rs
  else if String.eqb (PyStr.upper mode) "POST" then
    rs <- send (mkRequest POST url None json_body auth data) ;;
    receive rs
  else ret JNull.

Definition open_lib_url (cat : string) (val : option string) : string :=
  "https://openlibrary.org/" ++ cat
    ++ match val with
       | Some v => if PyStr.is_empty v then EmptyString else "/" ++ v
       | None => EmptyString
       end
    ++ ".json".

Definition query_open_lib (cat : string) (val : option string)
           (params : option (list (string * string))) : M json :=
  safe_request "get" (open_lib_url cat val) params None None None.

(** ** [retrieve_key] *)

(** [key.split("/")[-1] if isinstance(key, str) else None]. *)
Definition edition_key (key : json) : option string :=
  match key with
  | JStr k => Some (PyStr.last_segment k)
  | _ => None
  end.

(** [row[isbn_key].lstrip('="').rstrip('"')]. *)
Definition clean_isbn (text : string) : string :=
  PyStr.rstrip_by (PyStr.mem [PyStr.dquote])
    (PyStr.lstrip_by (PyStr.mem ["="%char; PyStr.dquote]) text).

(** The body of the loop over the two ISBN columns. *)
Definition isbn_lookup (r : row) (isbn_key : string)
  : M (flow (option string)) :=
  cell <- lift (row_get r isbn_key) ;;
  text <- lift (Row.receiver cell) ;;
  let isbn := clean_isbn text in
  if PyStr.is_empty isbn then ret Continue
  else
    res <- query_open_lib "isbn" (Some isbn) None ;;
    if negb (Py.truthy res) then ret Continue
    else
      key <- lift (Py.get res "key") ;;
      if negb (Py.truthy key) then ret Continue
      else ret (Return (edition_key key)).

Fixpoint isbn_loop (r : row) (isbn_keys : list string)
  : M (flow (option string)) :=
  match isbn_keys with
  | [] => ret Continue
  | isbn_key :: rest =>
      f <- isbn_lookup r isbn_key ;;
      match f with
      | Continue => isbn_loop r rest
      | Return v => ret (Return v)
      end
  end.

(** The title and subtitle sent to the search endpoint. *)
Definition title_segments (title : string) : list string :=
  PyStr.split ":" (PyStr.remove_brackets title).

Definition query_title (title : string) : string :=
  PyStr.strip (nth 0 (title_segments title) EmptyString).

Definition query_subtitle (title : string) : string :=
  let segments := title_segments title in
  if (1 <? List.length segments)%nat
  then PyStr.strip (nth 1 segments EmptyString)
  else EmptyString.

(** [{key: value for key, value in params.items() if value}]: the
    entries whose value is a non-empty string. *)
Definition truthy_params (params : list (string * cell))
  : list (string * string) :=
  flat_map (fun kv => match snd kv with
                      | Some v => if PyStr.is_empty v then []
                                  else [(fst kv, v)]
                      | None => []
                      end) params.

(** The [params] dict of the strict search, after the falsy values have
    been filtered out. *)
Definition strict_params (r : row) : result (list (string * string)) :=
  let? title := row_get r "Title" in
  let? title := Row.subject title in
  let? author := row_get r "Author" in
  let? book_id := row_get r "Book Id" in
  let? publisher := row_get r "Publisher" in
  let? year := row_get r "Year Published" in
  let? original_year := row_get r "Original Publication Year" in
  Ok (truthy_params
        [("title", Some (query_title title));
         ("subtitle", Some (query_subtitle title));
         ("author", author);
         ("id_goodreads", book_id);
         ("publisher", publisher);
         ("publish_year", year);
         ("first_publish_year", original_year);
         ("q", Some "language:eng");
         ("fields", Some "key,editions,editions.key")]).

(** The [params] dict of the loose search, cut out of the strict one. *)
Definition loose_params (strict : list (string * string))
  : list (string * string) :=
  flat_map (fun param =>
              match Py.lookup strict param with
              | Some v => [(param, v)]
              | None => []
              end)
           ["title"; "author"; "q"; "fields"].

(** [not res or (res.get('num_found') == 0)]. *)
Definition no_match (res : json) : result bool :=
  if negb (Py.truthy res) then Ok true
  else let? n := Py.get res "num_found" in Ok (Py.eq_zero n).

Definition edition_path : list key :=
  [KStr "docs"; KInt 0; KStr "editions"; KStr "docs"; KInt 0; KStr "key"].

(** The last two lines of [retrieve_key]. *)
Definition first_edition (res : json) : result (option string) :=
  let? key := safe_get res edition_path in Ok (edition_key key).

(** [retrieve_key] after the ISBN loop. *)
Definition search (r : row) : M (option string) :=
  strict <- lift (strict_params r) ;;
  res <- query_open_lib "search" None (Some strict) ;;
  none <- lift (no_match res) ;;
  if none then
    res <- query_open_lib "search" None (Some (loose_params strict)) ;;
    none <- lift (no_match res) ;;
    if none then ret None
    else lift (first_edition res)
  else lift (first_edition res).

Definition retrieve_key (r : row) : M (option string) :=
  f <- isbn_loop r ["ISBN13"; "ISBN"] ;;
  match f with
  | Return v => ret v
  | Continue => search r
  end.

(** ** [create_record] *)

Definition create_record (did endpoint : string) (session : json)
           (r : row) (open_lib_key : string) : M unit :=
  iso <- now ;;
  let timestamp := timestamp_of iso in
  record <- lift (build_record timestamp r open_lib_key) ;;
  let payload := JDict [("repo", JStr did);
                        ("collection", JStr "my.skylights.rel");
                        ("record", record)] in
  token <- lift (Py.get session "accessJwt") ;;
  res <- safe_request "post"
           (endpoint ++ "/xrpc/com.atproto.repo.createRecord")
           None None (Some token) (Some payload) ;;
  if negb (Py.truthy res) then ret tt
  else
    uri <- lift (Py.get res "uri") ;;
    match uri with
    | JStr _ => ret tt
    | _ => raise AttributeError
    end.

(** ** The main script, from the listing of the existing records on *)

(** [[safe_get(record, 'value', 'item', 'value') for record in records]]. *)
Fixpoint used_keys_of (records : list json) : result (list json) :=
  match records with
  | [] => Ok []
  | record :: rest =>
      let? k := safe_get record [KStr "value"; KStr "item"; KStr "value"] in
      let? ks := used_keys_of rest in
      Ok (k :: ks)
  end.

(** [open_lib_key in used_keys]: a string equals only a string. *)
Definition key_in (open_lib_key : string) (used_keys : list json) : bool :=
  existsb (fun k => match k with
                    | JStr s => String.eqb open_lib_key s
                    | _ => false
                    end) used_keys.

Definition annotate (r : row) (outcome : string) : row :=
  Row.set r "Import Result" (Some outcome).

(** [not open_lib_key]. *)
Definition no_key (open_lib_key : option string) : bool :=
  match open_lib_key with
  | None => true
  | Some k => PyStr.is_empty k
  end.

(** The body of the loop over the rows. *)
Definition process_row (did endpoint : string) (session : json)
           (used_keys : list json) (r : row) : M unit :=
  count <- lift (row_get r "Read Count") ;;
  valid <- lift (valid_read_count count) ;;
  if negb valid then
    print_row r ;;
    append_result (annotate r "Excluded: Read count invalid")
  else
    open_lib_key <- retrieve_key r ;;
    match open_lib_key with
    | None =>
        print_row r ;;
        append_result (annotate r "Failure: No open library key found")
    | Some k =>
        if PyStr.is_empty k then
          print_row r ;;
          append_result (annotate r "Failure: No open library key found")
        else if key_in k used_keys then
          print_row r ;;
          append_result (annotate r "Skipped: Already had a record")
        else
          print_row r ;;
          append_result (annotate r "Success") ;;
          create_record did endpoint session (annotate r "Success") k
    end.

Fixpoint process_rows (did endpoint : string) (session : json)
         (used_keys : list json) (rows : list row) : M unit :=
  match rows with
  | [] => ret tt
  | r :: rest =>
      process_row did endpoint session used_keys r ;;
      process_rows did endpoint session used_keys rest
  end.

(** *** Writing the report *)

(** A field name as the header line holds it. *)
Definition name_value (fieldname : option string) : value :=
  match fieldname with
  | Some column => Text column
  | None => Nothing
  end.

(** The value of an entry. *)
Definition entry_value (e : entry) : value :=
  match e with
  | Field _ (Some s) => Text s
  | Field _ None => Nothing
  | Surplus fields => Listed fields
  end.

Definition same_key (a b : option string) : bool :=
  match a, b with
  | Some x, Some y => String.eqb x y
  | None, None => true
  | _, _ => false
  end.

(** [rowdict.get(key, '')]. *)
Fixpoint value_at (r : row) (fieldname : option string) : value :=
  match r with
  | [] => Text EmptyString
  | e :: rest =>
      if same_key (Row.key_of e) fieldname then entry_value e
      else value_at rest fieldname
  end.

(** What csv.DictWriter does with one row: a key outside [fieldnames]
    raises; a missing field is written empty. *)
Definition dict_to_list (fieldnames : list (option string)) (r : row)
  : result (list value) :=
  if forallb (fun k => existsb (same_key k) fieldnames) (Row.keys r)
  then Ok (map (value_at r) fieldnames)
  else Raise ValueError.

Definition write_line (line : list value) : M unit :=
  fun st =>
    (Ok tt,
     mkState (sent st) (results st)
       (Some (match report_file st with
              | Some ls => (ls ++ [line])%list
              | None => [line]
              end))).

Fixpoint writerows (fieldnames : list (option string)) (rows : list row)
  : M unit :=
  match rows with
  | [] => ret tt
  | r :: rest =>
      line <- lift (dict_to_list fieldnames r) ;;
      write_line line ;;
      writerows fieldnames rest
  end.

(** [open(output_file, mode='w')] creates or truncates the file. *)
Definition open_report : M unit :=
  fun st => (Ok tt, mkState (sent st) (results st) (Some [])).

(** [results[0].keys()]. *)
Definition first_keys : M (list (option string)) :=
  fun st =>
    match results st with
    | [] => (Raise IndexError, st)
    | first :: _ => (Ok (Row.keys first), st)
    end.

(** [writeheader] writes the field names as a line of their own. *)
Definition write_report : M unit :=
  open_report ;;
  fieldnames <- first_keys ;;
  write_line (map name_value fieldnames) ;;
  rows <- (fun st => (Ok (results st), st)) ;;
  writerows fieldnames rows.

(** The script from [used_keys = ...] to the end; [records] is what
    [list_records] returned and [data] what the CSV reader produced. *)
Definition main (did endpoint : string) (session : json)
           (records : list json) (data : list row) : M unit :=
  used_keys <- lift (used_keys_of records) ;;
  process_rows did endpoint session used_keys data ;;
  write_report.

End Script.

(** ** Vocabulary of the statements *)

(** The state after one more request has been sent. *)
Definition after (st : state) (rq : request) : state :=
  mkState (sent st ++ [rq])%list (results st) (report_file st).

(** The state after several more requests have been sent. *)
Definition after_all (st : state) (l : list request) : state :=
  mkState (sent st ++ l)%list (results st) (report_file st).

(** The state after one more row has been appended to [results]. *)
Definition reported (st : state) (r : row) : state :=
  mkState (sent st) (results st ++ [r])%list (report_file st).

(** The requests the script issues. *)
Definition isbn_request (isbn : string) : request :=
  mkRequest GET (open_lib_url "isbn" (Some isbn)) None None None None.

Definition search_request (query : list (string * string)) : request :=
  mkRequest GET (open_lib_url "search" None) (Some query) None None None.

Definition create_request (did endpoint : string) (token record : json)
  : request :=
  mkRequest POST (endpoint ++ "/xrpc/com.atproto.repo.createRecord")
    None None (Some token)
    (Some (JDict [("repo", JStr did);
                  ("collection", JStr "my.skylights.rel");
                  ("record", record)])).

(** A request to one of the catalog's search endpoints. *)
Definition is_search (rq : request) : bool :=
  String.eqb (url rq) "https://openlibrary.org/search.json".

(** The catalog key a record-creation request submits, if it is one. *)
Definition submitted_key (rq : request) : option string :=
  match meth rq, data rq with
  | POST, Some body =>
      match safe_get body [KStr "record"; KStr "item"; KStr "value"] with
      | Ok (JStr k) => Some k
      | _ => None
      end
  | _, _ => None
  end.

Definition submits (k : string) (rq : request) : bool :=
  match submitted_key rq with
  | Some k' => String.eqb k k'
  | None => false
  end.

(** An ISBN lookup that succeeds: a truthy response with a truthy [key]. *)
Definition isbn_hit (rs : response) (key : json) : Prop :=
  exists res,
    rs = Body res /\ Py.truthy res = true /\
    Py.get res "key" = Ok key /\ Py.truthy key = true.

(** An ISBN lookup that finds nothing: no response, a falsy one, or an
    object without a truthy [key]. *)
Definition isbn_miss (rs : response) : Prop :=
  rs = Failed
  \/ exists res,
      rs = Body res
      /\ (Py.truthy res = false
          \/ exists key, Py.get res "key" = Ok key /\ Py.truthy key = false).

(** The requests of the turn of the ISBN loop for a cell that holds
    [text]: none when nothing is left of the cell after cleaning, else the
    lookup of what is left. *)
Definition isbn_requests (text : string) : list request :=
  if PyStr.is_empty (clean_isbn text) then []
  else [isbn_request (clean_isbn text)].

(** The turn of the ISBN loop for a cell that holds [text], begun when
    [history] had been sent, leads on to the next strategy: nothing is left
    of the cell after cleaning, or the lookup finds nothing. *)
Definition isbn_passes (env : environment) (history : list request)
           (text : string) : Prop :=
  PyStr.is_empty (clean_isbn text) = true
  \/ isbn_miss (respond env history (isbn_request (clean_isbn text))).

(** A search that reports nothing: no response, a falsy one, or one whose
    [num_found] equals zero. *)
Definition search_miss (rs : response) : Prop :=
  rs = Failed \/ exists res, rs = Body res /\ no_match res = Ok true.

(** A search that returns a match whose first edition key is the string
    [k]. *)
Definition search_hit (rs : response) (k : string) : Prop :=
  exists res,
    rs = Body res /\ no_match res = Ok false /\
    safe_get res edition_path = Ok (JStr k).

(** A catalog lookup by ISBN: a GET that is no search. *)
Definition is_isbn_lookup (rq : request) : Prop :=
  meth rq = GET /\ is_search rq = false.

(** What [create_record] returns once the answer to its request is in. *)
Definition creation_outcome (rs : response) : result unit :=
  match rs with
  | Failed => Ok tt
  | Undecodable => Raise JSONDecodeError
  | Body res =>
      if negb (Py.truthy res) then Ok tt
      else match Py.get res "uri" with
           | Ok (JStr _) => Ok tt
           | Ok _ => Raise AttributeError
           | Raise e => Raise e
           end
  end.

(** [m] only ever adds requests that satisfy [P] to the log, and touches
    neither [results] nor the report file. *)
Definition sends_only (P : request -> Prop) {A : Type} (m : M A) : Prop :=
  forall st x st',
    m st = (x, st') ->
    exists l, sent st' = (sent st ++ l)%list /\ Forall P l /\
              results st' = results st /\ report_file st' = report_file st.

(** Every character of [s] satisfies [p]. *)
Fixpoint all_chars (p : ascii -> bool) (s : string) : bool :=
  match s with
  | EmptyString => true
  | String c r => p c && all_chars p r
  end.

(** A character that [.*?] may consume before the closing bracket. *)
Definition inside_span (c : ascii) : bool :=
  negb (PyStr.is_close c) && negb (Ascii.eqb c PyStr.newline).

Definition no_colon (s : string) : bool :=
  all_chars (fun c => negb (Ascii.eqb c ":")) s.






(** A date-only value [YYYY/MM/DD]. *)
Definition date_only (s : string) : bool :=
  match s with
  | String y1 (String y2 (String y3 (String y4 (String sep1
      (String m1 (String m2 (String sep2
        (String d1 (String d2 EmptyString))))))))) =>
      all_chars PyStr.is_digit
        (String y1 (String y2 (String y3 (String y4
          (String m1 (String m2 (String d1 (String d2 EmptyString))))))))
      && Ascii.eqb sep1 "/" && Ascii.eqb sep2 "/"
  | _ => false
  end.

(** [YYYY-MM-DDT00:00:00.000Z] for the date [YYYY/MM/DD]. *)
Definition midnight_of (s : string) : string :=
  substring 0 4 s ++ "-" ++ substring 5 2 s ++ "-" ++ substring 8 2 s
    ++ "T00:00:00.000Z".

(** A field that starts with one of the digits 1 to 9. *)
Definition starts_with_nonzero_digit (s : string) : bool :=
  match s with
  | String c _ => PyStr.is_digit c && negb (Ascii.eqb c "0")
  | EmptyString => false
  end.

Definition has_columns (cols : list string) (r : row) : bool :=
  forallb (fun c => match Row.lookup r c with
                    | Some _ => true
                    | None => false
                    end) cols.

(** The row holds a string, not [None], in each of the columns. *)
Definition has_texts (cols : list string) (r : row) : bool :=
  forallb (fun c => match Row.lookup r c with
                    | Some (Some _) => true
                    | _ => false
                    end) cols.

(** The columns the row loop can read of a row, and those of them whose
    cell it needs as a string. *)
Definition read_columns : list string :=
  ["Read Count"; "Title"; "Author"; "ISBN13"; "ISBN"; "Book Id";
   "Publisher"; "Year Published"; "Original Publication Year";
   "My Rating"; "Date Read"; "Date Added"; "My Review"].

Definition text_columns : list string :=
  ["Read Count"; "ISBN13"; "ISBN"; "Title"].

(** A row on which the loop itself does not raise: it has the columns the
    loop reads, strings where the loop needs strings, and, if its read
    count is valid, an integer in My Rating. *)
Definition readable (r : row) : Prop :=
  has_columns read_columns r = true
  /\ has_texts text_columns r = true
  /\ (forall count,
        row_get r "Read Count" = Ok count ->
        valid_read_count count = Ok true ->
        exists rating n,
          row_get r "My Rating" = Ok rating /\ py_int rating = Ok n).

(** A response body the resolver can digest: a falsy one, or an object
    in which [safe_get] can follow the path to the first edition key. *)
Definition resolvable (res : json) : Prop :=
  Py.truthy res = false
  \/ exists d key, res = JDict d /\ safe_get res edition_path = Ok key.

(** An answer the resolver can digest: no response, or a body it can
    digest. *)
Definition digestible (rs : response) : Prop :=
  match rs with
  | Failed => True
  | Undecodable => False
  | Body res => resolvable res
  end.

(** A response body [create_record] can digest: a falsy one, or an object
    with a string under [uri]. *)
Definition confirming (res : json) : Prop :=
  Py.truthy res = false
  \/ exists d uri, res = JDict d /\ Py.dict_get d (KStr "uri") = JStr uri.

Definition acknowledged (rs : response) : Prop :=
  match rs with
  | Failed => True
  | Undecodable => False
  | Body res => confirming res
  end.

(** A network whose answers the row loop can digest, at any time. *)
Definition orderly (env : environment) : Prop :=
  forall history rq,
    (meth rq = GET -> digestible (respond env history rq))
    /\ (meth rq = POST -> acknowledged (respond env history rq)).

(** ** The title split as the specification words it

    Follows the spec's words, not the code: the cleaned title is split once
    on the first colon; segment 0 is the title and segment 1, everything
    after that colon, is the subtitle. *)



(** ** Sample inputs *)

Module Sample.

Definition clock : string := "2024-01-02T03:04:05.123456+00:00".

(** A network that answers the n-th request of the run with the n-th
    entry of [answers], and fails every later one. *)
Definition scripted (answers : list response) : environment :=
  mkEnv (fun history _ => nth (List.length history) answers Failed)
        (fun _ => clock).

(** A network on which every request fails. *)
Definition offline : environment := scripted [].

(** A row of a Goodreads export, with the columns the script reads. *)
Definition book (isbn13 isbn title author rating read_count date_read : string)
  : row :=
  Row.of_texts
    [("Book Id", "42"); ("Title", title); ("Author", author);
     ("ISBN", isbn); ("ISBN13", isbn13); ("My Rating", rating);
     ("Publisher", "Ace"); ("Year Published", "1990");
     ("Original Publication Year", "1965"); ("Date Read", date_read);
     ("Date Added", "2020/01/01"); ("My Review", EmptyString);
     ("Read Count", read_count)].

Definition dune : row :=
  book EmptyString EmptyString "Dune (Deluxe Edition)" "Frank Herbert"
       "4" "1" "2021/06/15".

Definition dune_isbn : row :=
  book "=9780441172719" EmptyString "Dune" "Frank Herbert" "5" "3"
       "2020/05/01".

Definition dune_isbn10 : row :=
  book EmptyString "0441172717" "Dune" "Frank Herbert" "5" "1" "2020/05/01".

Definition unrated : row :=
  book EmptyString EmptyString "Dune" "Frank Herbert" "abc" "1" "2020/05/01".

Definition unread : row :=
  book EmptyString EmptyString "Dune" "Frank Herbert" "4" "0" EmptyString.

(** A row with both ISBN cells filled in, the way the export writes
    them. *)
Definition dune_both : row :=
  book "=9780441172719" "=0441172717" "Dune" "Frank Herbert" "5" "1"
       "2020/05/01".

(** The row of a line cut short after Date Read: the fields it lacks are
    [None]. *)
Definition cut_short : row :=
  [Field "Book Id" (Some "42"); Field "Title" (Some "Dune");
   Field "Author" (Some "Frank Herbert"); Field "ISBN" (Some EmptyString);
   Field "ISBN13" (Some EmptyString); Field "My Rating" (Some "4");
   Field "Publisher" (Some "Ace"); Field "Year Published" (Some "1990");
   Field "Original Publication Year" (Some "1965");
   Field "Date Read" (Some "2021/06/15");
   Field "Date Added" None; Field "My Review" None;
   Field "Read Count" None].

(** The row of a line with two fields more than the header. *)
Definition overlong : row :=
  (unread ++ [Surplus ["x"; "y"]])%list.

(** A search response with one document whose first edition has [key]. *)
Definition found (key : string) : json :=
  JDict [("num_found", JInt 1);
         ("docs",
          JList [JDict [("editions",
                         JDict [("docs", JList [JDict [("key", JStr key)]])])]])].

Definition nothing_found : json := JDict [("num_found", JInt 0)].

(** An ISBN lookup response. *)
Definition edition (key : string) : json := JDict [("key", JStr key)].

Definition created : json := JDict [("uri", JStr "at://did:plc:abc/my.skylights.rel/1")].

Definition session : json := JDict [("accessJwt", JStr "token")].

Definition did : string := "did:plc:abc".
Definition endpoint : string := "https://pds.example".

(** A catalog that finds the same edition for two rows, and a record store
    that accepts both records. *)
Definition twice_found : environment :=
  scripted [Body (found "/books/OL456M"); Body created;
            Body (found "/books/OL456M"); Body created].

(** A network that fails the first three requests of a run and answers
    every later one: a search with a match, a record creation with the
    record's URI. *)
Definition recovering : environment :=
  mkEnv (fun history rq =>
           if (List.length history <? 3)%nat then Failed
           else match meth rq with
                | GET => Body (found "/books/OL456M")
                | POST => Body created
                end)
        (fun _ => clock).

(** The record [build_record] makes, or [JNull] when it raises. *)
Definition record_of (timestamp : string) (r : row) (k : string) : json :=
  match build_record timestamp r k with
  | Ok record => record
  | Raise _ => JNull
  end.

End Sample.

(** ** The rest of the script: identity, endpoint, session and listing *)

(** [s.startswith(prefix)]. *)
Fixpoint starts_with (s prefix : string) {struct prefix} : bool :=
  match prefix with
  | EmptyString => true
  | String p prefix' =>
      match s with
      | EmptyString => false
      | String c s' => Ascii.eqb c p && starts_with s' prefix'
      end
  end.

(** [s[1:]]. *)
Definition drop_first (s : string) : string :=
  match s with
  | EmptyString => EmptyString
  | String _ r => r
  end.

(** What a [for] loop, a comprehension or [list.extend] draws from a
    value: the elements of a list, the characters of a string, the keys of
    a dict; anything else is not iterable. *)
Definition iterate (x : json) : result (list json) :=
  match x with
  | JList l => Ok l
  | JStr s =>
      Ok (map (fun c => JStr (String c EmptyString)) (list_ascii_of_string s))
  | JDict d => Ok (map (fun kv => JStr (fst kv)) d)
  | _ => Raise TypeError
  end.

(** [x == text] for a string literal [text]. *)
Definition is_text (x : json) (text : string) : bool :=
  match x with
  | JStr s => String.eqb s text
  | _ => false
  end.

(** The loop of [get_service_endpoint] over the services of a DID
    document. *)
Fixpoint find_endpoint (services : list json) : result json :=
  match services with
  | [] => Ok (JStr "https://bsky.social")
  | service :: rest =>
      let? type := Py.get service "type" in
      if is_text type "AtprotoPersonalDataServer"
      then Py.get service "serviceEndpoint"
      else find_endpoint rest
  end.

(** [output.extend(more)]. *)
Definition extend (output more : json) : result json :=
  match output with
  | JList l => let? items := iterate more in Ok (JList (l ++ items)%list)
  | _ => Raise AttributeError
  end.

(** The URL [get_did_doc] asks for the document of a DID. *)
Definition did_doc_url (did : string) : string :=
  if starts_with did "did:web:"
  then "https://" ++ List.last (PyStr.split ":" did) EmptyString
         ++ "/.well-known/did.json"
  else "https://plc.directory/" ++ did.

(** How the script can end without an exception: [exit()] after one of its
    three messages, or the end of the file. *)
Inductive ending : Type :=
| Exited (message : string)
| Finished.

Section Session.

Variable env : environment.

(** The text of a cursor in the query string of the next request.  The
    script hands the cursor to the HTTP library as it came; on a string,
    which is what a cursor is, the text is the string itself. *)
Variable param_text : json -> string.

(** The text an f-string puts for a value: [str(x)]; on a string, the
    string itself. *)
Variable str_of : json -> string.

Definition resolve_handle (handle : string) : M json :=
  if starts_with handle "did:" then ret (JStr handle)
  else
    let handle := if starts_with handle "@" then drop_first handle
                  else handle in
    if PyStr.is_empty handle then ret JNull
    else
      res <- safe_request env "get"
               ("https://public.api.bsky.app/xrpc/com.atproto.identity.resolveHandle?handle="
                  ++ handle) None None None None ;;
      lift (Py.get res "did").

(** [did] is whatever the caller holds: only a string has
    [startswith]. *)
Definition get_did_doc (did : json) : M json :=
  match did with
  | JStr d =>
      did <- (if negb (starts_with d "did:") then resolve_handle d
              else ret (JStr d)) ;;
      match did with
      | JStr d => safe_request env "get" (did_doc_url d) None None None None
      | _ => raise AttributeError
      end
  | _ => raise AttributeError
  end.

Definition get_service_endpoint (did : json) : M json :=
  doc <- get_did_doc did ;;
  services <- lift (Py.get doc "service") ;;
  services <- lift (iterate (if Py.truthy services then services
                             else JList [])) ;;
  lift (find_endpoint services).

Definition get_session (actor password service_endpoint : string) : M json :=
  safe_request env "post"
    (service_endpoint ++ "/xrpc/com.atproto.server.createSession")
    None
    (Some (JDict [("identifier", JStr actor); ("password", JStr password)]))
    None None.

(** The [while] loop of [list_records].  [fuel] bounds the number of turns;
    [None] is returned when it runs out before the cursor does. *)
Fixpoint list_records_loop (fuel : nat) (api : string)
         (params : list (string * string)) (res output : json)
  : M (option json) :=
  cursor <- lift (Py.get res "cursor") ;;
  if Py.truthy cursor then
    match fuel with
    | O => ret None
    | S fuel =>
        res <- safe_request env "get" api
                 (Some (params ++ [("cursor", param_text cursor)])%list)
                 None None None ;;
        more <- lift (Py.get res "records") ;;
        output <- lift (extend output more) ;;
        list_records_loop fuel api params res output
    end
  else ret (Some output).

Definition list_records (fuel : nat) (did service_endpoint nsid : string)
  : M (option json) :=
  let api := service_endpoint ++ "/xrpc/com.atproto.repo.listRecords" in
  let params := [("repo", did); ("collection", nsid); ("limit", "100")] in
  res <- safe_request env "get" api (Some params) None None None ;;
  output <- lift (Py.get res "records") ;;
  list_records_loop fuel api params res output.

(** The script from its first line to its last.  [handle] and [password]
    are what the user typed, [data] what the CSV reader gives.  The result
    is [None] when [fuel] does not suffice for the listing. *)
Definition script (fuel : nat) (handle password : string) (data : list row)
  : M (option ending) :=
  did <- resolve_handle handle ;;
  if negb (Py.truthy did) then ret (Some (Exited "No DID found."))
  else
    endpoint <- get_service_endpoint did ;;
    if negb (Py.truthy endpoint)
    then ret (Some (Exited "No service endpoint found."))
    else
      (* [get_service_endpoint] has raised unless [did] is a string *)
      did <- lift (match did with
                   | JStr d => Ok d
                   | _ => Raise AttributeError
                   end) ;;
      session <- get_session handle password (str_of endpoint) ;;
      if negb (Py.truthy session)
      then ret (Some (Exited "Session creation unsuccessful."))
      else
        listed <- list_records fuel did (str_of endpoint) "my.skylights.rel" ;;
        match listed with
        | None => ret None
        | Some records =>
            records <- lift (iterate records) ;;
            main env did (str_of endpoint) session records data ;;
            ret (Some Finished)
        end.

End Session.

(** ** Vocabulary of the further properties *)

(** A key that can make [safe_get] raise: a negative index, or a string. *)
Definition is_negative_index (k : key) : Prop :=
  exists i, k = KInt i /\ i < 0.

Definition is_string_key (k : key) : Prop :=
  exists s, k = KStr s.

(** A value that is neither a dict nor a list. *)
Definition is_scalar (j : json) : bool :=
  match j with
  | JDict _ | JList _ => false
  | _ => true
  end.

(** A character that [clean_isbn] strips from neither end. *)
Definition isbn_char (c : ascii) : bool :=
  negb (PyStr.mem ["="%char; PyStr.dquote] c).

(** The form in which a spreadsheet export writes an ISBN cell: an equals
    sign and the value between double quotes. *)
Definition spreadsheet_cell (s : string) : string :=
  String "=" (String PyStr.dquote (s ++ String PyStr.dquote EmptyString)).

Definition no_slash (s : string) : bool :=
  all_chars (fun c => negb (Ascii.eqb c "/")) s.

(** A title on which the bracket removal changes nothing. *)
Definition bracket_free (s : string) : Prop := PyStr.remove_brackets s = s.

(** Every value [m] returns normally satisfies [Q]. *)
Definition yields {A : Type} (Q : A -> Prop) (m : M A) : Prop :=
  forall st x st', m st = (Ok x, st') -> Q x.

(** [m] adds at most [n] requests to the log. *)
Definition sends_at_most (n : nat) {A : Type} (m : M A) : Prop :=
  forall st x st',
    m st = (x, st') ->
    exists l, sent st' = (sent st ++ l)%list /\ (List.length l <= n)%nat.

(** No query parameter of the request is empty. *)
Definition params_nonempty (rq : request) : Prop :=
  match params rq with
  | Some query =>
      forallb (fun kv => negb (PyStr.is_empty (snd kv))) query = true
  | None => True
  end.

(** A resolved key without a slash in it. *)
Definition bare_key (key : option string) : Prop :=
  match key with
  | Some k => no_slash k = true
  | None => True
  end.

(** What a turn of the ISBN loop may return from the function. *)
Definition bare_return (f : flow (option string)) : Prop :=
  match f with
  | Return v => bare_key v
  | Continue => True
  end.

(** The four annotations the row loop writes. *)
Definition outcome_texts : list string :=
  ["Excluded: Read count invalid"; "Failure: No open library key found";
   "Skipped: Already had a record"; "Success"].

(** The first rows of [rows], each annotated with its outcome. *)
Definition annotated (rows : list row) (outcomes : list string) : list row :=
  map (fun ro => annotate (fst ro) (snd ro)) (combine rows outcomes).

(** The keys of a row, in order: [row.keys()]. *)
Definition columns (r : row) : list (option string) := Row.keys r.

(** The values of a row, in order: [row.values()]. *)
Definition cells (r : row) : list value := map entry_value r.

(** The header line for the given keys. *)
Definition header_line (keys : list (option string)) : list value :=
  map name_value keys.

(** The columns of a report: those of the input, with Import Result added
    at the end unless the input has such a column already. *)
Definition report_columns (header : list (option string))
  : list (option string) :=
  if existsb (same_key (Some "Import Result")) header then header
  else (header ++ [Some "Import Result"])%list.

(** What one turn of the row loop does to [results]: it leaves the report
    file alone, and either appends the row with one of the four
    annotations, or appends nothing and raises. *)
Definition reports_row (r : row) (m : M unit) : Prop :=
  forall st x st',
    m st = (x, st') ->
    report_file st' = report_file st
    /\ ((results st' = results st /\ x <> Ok tt)
        \/ exists o, In o outcome_texts
                     /\ results st' = (results st ++ [annotate r o])%list).

(** The state once the report has been written out in full. *)
Definition written (st : state) (lines : list (list value)) : state :=
  mkState (sent st) (results st) (Some lines).

(** ** Vocabulary for the start of the script *)

(** The requests the script issues before the row loop. *)
Definition handle_request (handle : string) : request :=
  mkRequest GET
    ("https://public.api.bsky.app/xrpc/com.atproto.identity.resolveHandle?handle="
       ++ handle) None None None None.

Definition did_doc_request (did : string) : request :=
  mkRequest GET (did_doc_url did) None None None None.

Definition session_request (actor password endpoint : string) : request :=
  mkRequest POST (endpoint ++ "/xrpc/com.atproto.server.createSession") None
    (Some (JDict [("identifier", JStr actor); ("password", JStr password)]))
    None None.

Definition records_request (did endpoint nsid : string)
           (cursor : option string) : request :=
  mkRequest GET (endpoint ++ "/xrpc/com.atproto.repo.listRecords")
    (Some ([("repo", did); ("collection", nsid); ("limit", "100")]
             ++ match cursor with
                | Some c => [("cursor", c)]
                | None => []
                end)%list)
    None None None.

(** A service entry of a DID document that names the personal data
    server, and one that names something else. *)
Definition is_pds (service : json) : bool :=
  match service with
  | JDict d => is_text (Py.dict_get d (KStr "type")) "AtprotoPersonalDataServer"
  | _ => false
  end.

Definition other_service (service : json) : bool :=
  match service with
  | JDict d =>
      negb (is_text (Py.dict_get d (KStr "type")) "AtprotoPersonalDataServer")
  | _ => false
  end.

(** The pages the record store serves after the response [res], received
    when [history] had been sent: each page is asked for with the cursor of
    the response before it and holds a list of records; the last response
    has no cursor. *)
Inductive serves (env : environment) (param_text : json -> string)
          (did endpoint nsid : string)
  : list request -> json -> list (list json) -> Prop :=
| serves_end (history : list request) (res cursor : json) :
    Py.get res "cursor" = Ok cursor -> Py.truthy cursor = false ->
    serves env param_text did endpoint nsid history res []
| serves_page (history : list request) (res cursor res' : json)
              (records : list json) (pages : list (list json)) :
    Py.get res "cursor" = Ok cursor -> Py.truthy cursor = true ->
    respond env history
      (records_request did endpoint nsid (Some (param_text cursor)))
    = Body res' ->
    Py.get res' "records" = Ok (JList records) ->
    serves env param_text did endpoint nsid
      (history ++ [records_request did endpoint nsid
                     (Some (param_text cursor))])%list res' pages ->
    serves env param_text did endpoint nsid history res (records :: pages).

(** A request that creates nothing in the repository: a GET, or the
    login. *)
Definition creates_nothing (rq : request) : Prop :=
  meth rq = GET
  \/ exists actor password endpoint,
       rq = session_request actor password endpoint.


(** Whenever [m] ends in [exit()], it has sent only requests that create
    nothing and has left [results] and the report file as they were. *)
Definition exits_without_trace (m : M (option ending)) : Prop :=
  forall st message st',
    m st = (Ok (Some (Exited message)), st') ->
    exists l, sent st' = (sent st ++ l)%list /\ Forall creates_nothing l /\
              results st' = results st /\ report_file st' = report_file st.

Module Identity.

(** The text of a string, and nothing for anything else. *)
Definition text (j : json) : string :=
  match j with
  | JStr s => s
  | _ => EmptyString
  end.

Definition resolved : json := JDict [("did", JStr Sample.did)].

Definition did_doc : json :=
  JDict [("id", JStr Sample.did);
         ("service",
          JList [JDict [("id", JStr "#labeler");
                        ("type", JStr "AtprotoLabeler");
                        ("serviceEndpoint", JStr "https://labels.example")];
                 JDict [("id", JStr "#atproto_pds");
                        ("type", JStr "AtprotoPersonalDataServer");
                        ("serviceEndpoint", JStr Sample.endpoint)]])].

(** A record of the repository that points at the catalog key [k]. *)
Definition record (k : string) : json :=
  JDict [("uri", JStr "at://did:plc:abc/my.skylights.rel/1");
         ("value", JDict [("item", JDict [("ref", JStr "open-library");
                                          ("value", JStr k)])])].

Definition first_page : json :=
  JDict [("records", JList [record "OL1M"; record "OL2M"]);
         ("cursor", JStr "c1")].

Definition last_page : json :=
  JDict [("records", JList [record "OL3M"])].

End Identity.

(** * Properties *)

(** ** Strings *)

Lemma split_not_nil (sep : ascii) (s : string) : PyStr.split sep s <> [].
Proof.
  destruct s as [|c r]; simpl; [discriminate|].
  destruct (Ascii.eqb c sep); [discriminate|].
  destruct (PyStr.split sep r); discriminate.
Qed.

Lemma split_without_sep (sep : ascii) (a : string) :
  all_chars (fun c => negb (Ascii.eqb c sep)) a = true ->
  PyStr.split sep a = [a].
Proof.
  induction a as [|c a IH]; simpl; intros H; [reflexivity|].
  apply andb_prop in H as [Hc Ha].
  apply negb_true_iff in Hc. rewrite Hc, (IH Ha). reflexivity.
Qed.


Lemma sub_from_plain_prefix (pre s : string) :
  all_chars (fun c => negb (PyStr.is_open c)) pre = true ->
  PyStr.sub_from 0 (pre ++ s) = pre ++ PyStr.sub_from 0 s.
Proof.
  induction pre as [|c pre IH]; simpl; intros H; [reflexivity|].
  apply andb_prop in H as [Hc Hpre].
  apply negb_true_iff in Hc. rewrite Hc, (IH Hpre). reflexivity.
Qed.

Lemma match_len_to_closer (mid : string) (c : ascii) (post : string) :
  all_chars inside_span mid = true ->
  PyStr.is_close c = true ->
  PyStr.match_len (mid ++ String c post) = Some (S (String.length mid)).
Proof.
  intros Hmid Hc. induction mid as [|m mid IH]; simpl.
  - rewrite Hc. reflexivity.
  - simpl in Hmid. apply andb_prop in Hmid as [Hm Hmid].
    unfold inside_span in Hm. apply andb_prop in Hm as [Hm1 Hm2].
    apply negb_true_iff in Hm1, Hm2.
    rewrite Hm1, Hm2, (IH Hmid). reflexivity.
Qed.

Lemma sub_from_skips (mid : string) (c : ascii) (post : string) :
  PyStr.sub_from (S (String.length mid)) (mid ++ String c post)
  = PyStr.sub_from 0 post.
Proof.
  induction mid as [|m mid IH]; simpl; [reflexivity|exact IH].
Qed.

Lemma remove_brackets_span (pre : string) (o : ascii) (mid : string)
      (c : ascii) (post : string) :
  all_chars (fun c => negb (PyStr.is_open c)) pre = true ->
  PyStr.is_open o = true ->
  all_chars inside_span mid = true ->
  PyStr.is_close c = true ->
  PyStr.remove_brackets (pre ++ String o (mid ++ String c post))
  = pre ++ PyStr.remove_brackets post.
Proof.
  intros Hpre Ho Hmid Hc. unfold PyStr.remove_brackets.
  rewrite (sub_from_plain_prefix _ _ Hpre). f_equal.
  simpl. rewrite Ho, (match_len_to_closer _ _ _ Hmid Hc).
  apply sub_from_skips.
Qed.












Lemma digit_is_not_slash (c : ascii) :
  PyStr.is_digit c = true -> Ascii.eqb c "/" = false.
Proof.
  intros H. destruct (Ascii.eqb_spec c "/") as [->|]; [discriminate H|reflexivity].
Qed.

Lemma date_only_rewritten (timestamp s : string) :
  date_only s = true ->
  finish_date_of timestamp (Some s) = midnight_of s.
Proof.
  intros H.
  do 10 (destruct s as [|? s]; [discriminate H|]).
  destruct s; [|discriminate H].
  cbn [date_only all_chars] in H.
  repeat match goal with
         | E : (_ && _)%bool = true |- _ => apply andb_prop in E as [? ?]
         end.
  repeat match goal with
         | E : Ascii.eqb _ "/" = true |- _ => apply Ascii.eqb_eq in E; subst
         | E : PyStr.is_digit _ = true |- _ => apply digit_is_not_slash in E
         end.
  unfold finish_date_of, midnight_of. cbn -[Ascii.eqb].
  repeat match goal with E : Ascii.eqb _ "/" = false |- _ => rewrite E; clear E end.
  reflexivity.
Qed.


(** ** Integer literals *)

Lemma digit_val_nonneg (c : ascii) (d : Z) :
  PyStr.digit_val c = Some d -> 0 <= d.
Proof.
  unfold PyStr.digit_val. destruct (PyStr.is_digit c); [|discriminate].
  intros [= <-]. lia.
Qed.

Lemma parse_digits_grows (s : string) :
  forall acc count after_digit v n,
    0 <= acc ->
    PyStr.parse_digits acc count after_digit s = Some (v, n) ->
    acc <= v.
Proof.
  induction s as [|c s IH]; cbn [PyStr.parse_digits];
    intros acc count after_digit v n Hacc H.
  - destruct after_digit; [|discriminate]. injection H as <- _. lia.
  - destruct (PyStr.digit_val c) as [d|] eqn:Hd.
    + apply digit_val_nonneg in Hd. apply IH in H; lia.
    + destruct (Ascii.eqb c "_" && after_digit)%bool; [|discriminate].
      apply IH in H; lia.
Qed.

Lemma int_of_nonzero_start (s : string) (n : Z) :
  starts_with_nonzero_digit s = true ->
  PyStr.int s = Some n ->
  1 <= n.
Proof.
  destruct s as [|c r]; [discriminate|].
  unfold PyStr.int. intros Hc.
  assert (Hstrip : exists r',
             PyStr.rstrip_by PyStr.is_int_space
               (PyStr.lstrip_by PyStr.is_int_space (String c r)) = String c r').
  { destruct c as [[] [] [] [] [] [] [] []]; try discriminate Hc;
      cbn [PyStr.lstrip_by PyStr.is_int_space nat_of_ascii];
      simpl PyStr.rstrip_by;
      destruct (PyStr.rstrip_by PyStr.is_int_space r); eauto. }
  destruct Hstrip as [r' ->].
  destruct c as [[] [] [] [] [] [] [] []]; try discriminate Hc;
    unfold PyStr.parse_nat; simpl;
    match goal with
    | |- context [PyStr.parse_digits ?a ?k true r'] =>
        destruct (PyStr.parse_digits a k true r') as [[v m]|] eqn:E; [|discriminate];
        apply parse_digits_grows in E; [|lia];
        destruct (PyStr.max_str_digits <? m)%nat; [discriminate|];
        intros [= <-]; lia
    end.
Qed.


(** ** Dicts, rows and read counts *)

Lemma row_lookup_set_same (r : row) (k : string) (v : cell) :
  Row.lookup (Row.set r k v) k = Some v.
Proof.
  induction r as [|[column value|fields] r IH]; cbn [Row.set Row.lookup].
  - rewrite String.eqb_refl. reflexivity.
  - destruct (String.eqb column k) eqn:E; cbn [Row.lookup]; rewrite E;
      [reflexivity|exact IH].
  - exact IH.
Qed.

Lemma row_lookup_set_other (r : row) (k c : string) (v : cell) :
  c <> k -> Row.lookup (Row.set r k v) c = Row.lookup r c.
Proof.
  intros Hc. apply String.eqb_neq in Hc.
  induction r as [|[column value|fields] r IH]; cbn [Row.set Row.lookup].
  - rewrite String.eqb_sym, Hc. reflexivity.
  - destruct (String.eqb_spec column k) as [->|Hk]; cbn [Row.lookup].
    + rewrite String.eqb_sym, Hc. reflexivity.
    + destruct (String.eqb column c); [reflexivity|exact IH].
  - exact IH.
Qed.

Lemma row_set_keys (r : row) (k : string) (v : cell) :
  Row.keys (Row.set r k v)
  = if existsb (same_key (Some k)) (Row.keys r) then Row.keys r
    else (Row.keys r ++ [Some k])%list.
Proof.
  unfold Row.keys.
  induction r as [|[column value|fields] r IH]; [reflexivity| |].
  - cbn [Row.set map Row.key_of existsb same_key].
    rewrite (String.eqb_sym k column).
    destruct (String.eqb column k) eqn:E; [reflexivity|].
    cbn [map Row.key_of orb]. rewrite IH.
    destruct (existsb (same_key (Some k)) (map Row.key_of r)); reflexivity.
  - cbn [Row.set map Row.key_of existsb same_key orb]. rewrite IH.
    destruct (existsb (same_key (Some k)) (map Row.key_of r)); reflexivity.
Qed.

Lemma annotation_keeps_columns (r : row) (outcome c : string) :
  c <> "Import Result" -> row_get (annotate r outcome) c = row_get r c.
Proof.
  intros Hc. unfold row_get, annotate.
  rewrite (row_lookup_set_other _ _ _ _ Hc). reflexivity.
Qed.

Lemma annotation_is_read_back (r : row) (outcome : string) :
  row_get (annotate r outcome) "Import Result" = Ok (Some outcome).
Proof.
  unfold row_get, annotate. rewrite row_lookup_set_same. reflexivity.
Qed.

Lemma has_column (cols : list string) (r : row) (c : string) :
  has_columns cols r = true -> In c cols -> exists v, row_get r c = Ok v.
Proof.
  unfold has_columns, row_get. rewrite forallb_forall. intros H Hc.
  specialize (H c Hc). destruct (Row.lookup r c); [eauto|discriminate].
Qed.

Lemma has_text (cols : list string) (r : row) (c : string) :
  has_texts cols r = true -> In c cols -> exists s, row_get r c = Ok (Some s).
Proof.
  unfold has_texts, row_get. rewrite forallb_forall. intros H Hc.
  specialize (H c Hc). destruct (Row.lookup r c) as [[s|]|];
    [eauto|discriminate|discriminate].
Qed.

Lemma valid_read_count_parses (count : cell) :
  valid_read_count count = Ok true -> exists n, py_int count = Ok n.
Proof.
  unfold valid_read_count.
  destruct (cell_in count ["0"; EmptyString]); [discriminate|].
  destruct (py_int count) as [n|[]]; try discriminate. eauto.
Qed.

Lemma valid_read_count_is_text (count : cell) (b : bool) :
  valid_read_count count = Ok b -> exists s, count = Some s.
Proof.
  destruct count as [s|]; [eauto|discriminate].
Qed.


Lemma key_in_iff (k : string) (used_keys : list json) :
  key_in k used_keys = true <-> In (JStr k) used_keys.
Proof.
  unfold key_in. rewrite existsb_exists. split.
  - intros ([] & Hin & H); try discriminate H.
    apply String.eqb_eq in H. subst. exact Hin.
  - intros H. exists (JStr k). split; [exact H|apply String.eqb_refl].
Qed.


(** ** Record construction *)

Lemma build_record_inv (timestamp : string) (r : row) (k : string)
      (record : json) :
  build_record timestamp r k = Ok record ->
  exists my_rating n date_read finish review read_count count,
    row_get r "My Rating" = Ok my_rating /\
    py_int my_rating = Ok n /\
    row_get r "Date Read" = Ok date_read /\
    (if Row.truthy date_read then Ok date_read
     else row_get r "Date Added") = Ok finish /\
    row_get r "My Review" = Ok review /\
    row_get r "Read Count" = Ok read_count /\
    py_int read_count = Ok count /\
    record =
      JDict
        [("$type", JStr "my.skylights.rel");
         ("item", JDict [("ref", JStr "open-library"); ("value", JStr k)]);
         ("note", JDict [("value", Row.to_json review);
                         ("createdAt", JStr timestamp);
                         ("updatedAt", JStr timestamp)]);
         ("rating", JDict [("value", JInt (stored_rating n));
                           ("createdAt", JStr timestamp)]);
         ("finishedAt",
          JList (repeat (JStr (finish_date_of timestamp finish))
                        (Z.to_nat count)))].
Proof.
  unfold build_record, rbind. intros H.
  destruct (row_get r "My Rating") as [my_rating|] eqn:E1; [|discriminate].
  destruct (py_int my_rating) as [n|] eqn:E2; [|discriminate].
  destruct (row_get r "Date Read") as [date_read|] eqn:E3; [|discriminate].
  destruct (if Row.truthy date_read then Ok date_read
            else row_get r "Date Added") as [finish|] eqn:E4; [|discriminate].
  destruct (row_get r "My Review") as [review|] eqn:E5; [|discriminate].
  destruct (row_get r "Read Count") as [read_count|] eqn:E6; [|discriminate].
  destruct (py_int read_count) as [count|] eqn:E7; [|discriminate].
  injection H as <-.
  exists my_rating, n, date_read, finish, review, read_count, count.
  repeat split; assumption.
Qed.

Lemma stored_rating_max (n : Z) : stored_rating n = Z.max 1 (2 * n).
Proof. unfold stored_rating. destruct (Z.ltb_spec (n * 2) 1); lia. Qed.


(** ** The monad *)

Lemma bind_ok {A B : Type} (m : M A) (k : A -> M B) (st st' : state) (a : A) :
  m st = (Ok a, st') -> bind m k st = k a st'.
Proof. intros H. unfold bind. rewrite H. reflexivity. Qed.

Lemma bind_raise {A B : Type} (m : M A) (k : A -> M B) (st st' : state)
      (e : exn) :
  m st = (Raise e, st') -> bind m k st = (Raise e, st').
Proof. intros H. unfold bind. rewrite H. reflexivity. Qed.

Lemma bind_lift_ok {A B : Type} (r : result A) (k : A -> M B) (st : state)
      (a : A) :
  r = Ok a -> bind (lift r) k st = k a st.
Proof. intros ->. reflexivity. Qed.

Lemma print_row_ok (r : row) (title author : cell) (st : state) :
  row_get r "Title" = Ok title -> row_get r "Author" = Ok author ->
  print_row r st = (Ok tt, st).
Proof.
  intros Ht Ha. unfold print_row.
  rewrite (bind_lift_ok _ _ _ _ Ht), (bind_lift_ok _ _ _ _ Ha). reflexivity.
Qed.


(** ** What a computation adds to the request log *)

Section Frames.

Variable env : environment.
Variable P : request -> Prop.

Lemma sends_only_ret {A : Type} (a : A) : sends_only P (ret a).
Proof.
  intros st x st' [= <- <-]. exists []. rewrite app_nil_r. auto.
Qed.

Lemma sends_only_raise {A : Type} (e : exn) : sends_only P (@raise A e).
Proof.
  intros st x st' [= <- <-]. exists []. rewrite app_nil_r. auto.
Qed.

Lemma sends_only_lift {A : Type} (r : result A) : sends_only P (lift r).
Proof.
  intros st x st' [= <- <-]. exists []. rewrite app_nil_r. auto.
Qed.

Lemma sends_only_bind {A B : Type} (m : M A) (k : A -> M B) :
  sends_only P m -> (forall a, sends_only P (k a)) -> sends_only P (bind m k).
Proof.
  intros Hm Hk st x st'. unfold bind.
  destruct (m st) as [[a|e] st1] eqn:E; intros H.
  - destruct (Hm _ _ _ E) as (l1 & S1 & F1 & R1 & T1).
    destruct (Hk a _ _ _ H) as (l2 & S2 & F2 & R2 & T2).
    exists (l1 ++ l2)%list. rewrite S2, S1, app_assoc, R2, R1, T2, T1.
    repeat split; auto. apply Forall_app; auto.
  - injection H as <- <-. exact (Hm _ _ _ E).
Qed.

Lemma sends_only_send (rq : request) : P rq -> sends_only P (send env rq).
Proof.
  intros H st x st' [= <- <-]. exists [rq]. simpl. auto.
Qed.

Lemma sends_only_receive (rs : response) : sends_only P (receive rs).
Proof.
  destruct rs; [apply sends_only_ret|apply sends_only_raise|apply sends_only_ret].
Qed.

Lemma sends_only_now : sends_only P (now env).
Proof.
  intros st x st' [= <- <-]. exists []. rewrite app_nil_r. auto.
Qed.


End Frames.

Ltac frame_step :=
  first [ apply sends_only_ret
        | apply sends_only_raise
        | apply sends_only_lift
        | apply sends_only_receive
        | apply sends_only_now
        | apply sends_only_bind; [|intros ?]
        | match goal with
          | |- sends_only _ (if ?b then _ else _) => destruct b
          | |- sends_only _ (match ?x with _ => _ end) => destruct x
          end ].

Lemma sends_only_weaken {A : Type} (P Q : request -> Prop) (m : M A) :
  (forall rq, P rq -> Q rq) -> sends_only P m -> sends_only Q m.
Proof.
  intros HPQ Hm st x st' H.
  destruct (Hm _ _ _ H) as (l & S1 & F1 & R1 & T1).
  exists l. repeat split; auto. revert F1. apply Forall_impl. exact HPQ.
Qed.

Lemma sends_only_print_row (P : request -> Prop) (r : row) :
  sends_only P (print_row r).
Proof. unfold print_row. repeat frame_step. Qed.

Lemma query_open_lib_sends_get (env : environment) (cat : string)
      (val : option string) (params : option (list (string * string))) :
  sends_only
    (fun rq => rq = mkRequest GET (open_lib_url cat val) params None None None)
    (query_open_lib env cat val params).
Proof.
  unfold query_open_lib, safe_request. simpl.
  apply sends_only_bind; [apply sends_only_send; reflexivity|].
  intros rs. apply sends_only_receive.
Qed.

Lemma isbn_lookup_sends_lookups (env : environment) (r : row) (isbn_key : string) :
  sends_only is_isbn_lookup (isbn_lookup env r isbn_key).
Proof.
  unfold isbn_lookup.
  apply sends_only_bind; [apply sends_only_lift|intros cell].
  apply sends_only_bind; [apply sends_only_lift|intros text].
  destruct (PyStr.is_empty (clean_isbn text)) eqn:E; [apply sends_only_ret|].
  apply sends_only_bind.
  - eapply sends_only_weaken; [|apply query_open_lib_sends_get].
    intros rq ->. split; [reflexivity|].
    destruct (clean_isbn text); [discriminate E|reflexivity].
  - intros res. repeat frame_step.
Qed.

Lemma isbn_loop_sends_lookups (env : environment) (r : row)
      (isbn_keys : list string) :
  sends_only is_isbn_lookup (isbn_loop env r isbn_keys).
Proof.
  induction isbn_keys as [|k ks IH]; simpl; [apply sends_only_ret|].
  apply sends_only_bind; [apply isbn_lookup_sends_lookups|].
  intros [|v]; [exact IH|apply sends_only_ret].
Qed.

Lemma search_sends_gets (env : environment) (r : row) :
  sends_only (fun rq => meth rq = GET) (search env r).
Proof.
  unfold search.
  repeat first
    [ eapply sends_only_weaken;
      [|apply query_open_lib_sends_get]; [intros rq ->; reflexivity]
    | frame_step ].
Qed.

Lemma retrieve_key_sends_gets (env : environment) (r : row) :
  sends_only (fun rq => meth rq = GET) (retrieve_key env r).
Proof.
  unfold retrieve_key.
  apply sends_only_bind.
  - eapply sends_only_weaken; [|apply isbn_loop_sends_lookups].
    intros rq [H _]. exact H.
  - intros [|v]; [apply search_sends_gets|apply sends_only_ret].
Qed.

Lemma create_record_sends_posts (env : environment) (did endpoint : string)
      (session : json) (r : row) (k : string) :
  sends_only (fun rq => meth rq = POST)
             (create_record env did endpoint session r k).
Proof.
  unfold create_record.
  apply sends_only_bind; [apply sends_only_now|intros iso].
  apply sends_only_bind; [apply sends_only_lift|intros record].
  apply sends_only_bind; [apply sends_only_lift|intros token].
  apply sends_only_bind.
  - unfold safe_request. simpl.
    apply sends_only_bind; [apply sends_only_send; reflexivity|].
    intros rs. apply sends_only_receive.
  - intros res. repeat frame_step.
Qed.


(** ** The resolver, step by step *)

Lemma isbn_query_run (env : environment) (isbn : string) (st : state) :
  PyStr.is_empty isbn = false ->
  query_open_lib env "isbn" (Some isbn) None st
  = receive (respond env (sent st) (isbn_request isbn))
            (after st (isbn_request isbn)).
Proof. intros _. reflexivity. Qed.

Lemma search_query_run (env : environment) (query : list (string * string))
      (st : state) :
  query_open_lib env "search" None (Some query) st
  = receive (respond env (sent st) (search_request query))
            (after st (search_request query)).
Proof. reflexivity. Qed.

Lemma isbn_request_is_no_search (isbn : string) :
  PyStr.is_empty isbn = false -> is_search (isbn_request isbn) = false.
Proof. destruct isbn; [discriminate|reflexivity]. Qed.

Lemma after_all_nil (st : state) : after_all st [] = st.
Proof. destruct st. unfold after_all. cbn. rewrite app_nil_r. reflexivity. Qed.

Lemma after_all_cons (st : state) (rq : request) (l : list request) :
  after_all (after st rq) l = after_all st (rq :: l).
Proof. unfold after_all, after. cbn. rewrite <- app_assoc. reflexivity. Qed.

Lemma after_all_app (st : state) (l1 l2 : list request) :
  after_all (after_all st l1) l2 = after_all st (l1 ++ l2).
Proof. unfold after_all. cbn. rewrite <- app_assoc. reflexivity. Qed.

Lemma after_all_snoc (st : state) (l : list request) (rq : request) :
  after (after_all st l) rq = after_all st (l ++ [rq]).
Proof. unfold after_all, after. cbn. rewrite <- app_assoc. reflexivity. Qed.

Lemma after_after (st : state) (a b : request) :
  after (after st a) b = after_all st [a; b].
Proof. unfold after_all, after. cbn. rewrite <- app_assoc. reflexivity. Qed.

Lemma isbn_lookup_hit (env : environment) (r : row) (isbn_key text : string)
      (key : json) (st : state) :
  row_get r isbn_key = Ok (Some text) ->
  PyStr.is_empty (clean_isbn text) = false ->
  isbn_hit (respond env (sent st) (isbn_request (clean_isbn text))) key ->
  isbn_lookup env r isbn_key st
  = (Ok (Return (edition_key key)), after st (isbn_request (clean_isbn text))).
Proof.
  intros Hcell Hne (res & Hrs & Hres & Hkey & Htrue).
  unfold isbn_lookup. rewrite (bind_lift_ok _ _ _ _ Hcell).
  rewrite (bind_lift_ok (Row.receiver (Some text)) _ _ text eq_refl), Hne.
  unfold bind at 1. rewrite (isbn_query_run _ _ _ Hne), Hrs.
  cbn [receive ret]. rewrite Hres. cbn [negb].
  rewrite (bind_lift_ok _ _ _ _ Hkey), Htrue. reflexivity.
Qed.

Lemma isbn_lookup_passes (env : environment) (r : row) (isbn_key text : string)
      (st : state) :
  row_get r isbn_key = Ok (Some text) ->
  isbn_passes env (sent st) text ->
  isbn_lookup env r isbn_key st
  = (Ok Continue, after_all st (isbn_requests text)).
Proof.
  intros Hcell Hpass. unfold isbn_lookup, isbn_requests.
  rewrite (bind_lift_ok _ _ _ _ Hcell).
  rewrite (bind_lift_ok (Row.receiver (Some text)) _ _ text eq_refl).
  destruct (PyStr.is_empty (clean_isbn text)) eqn:Hne.
  - rewrite after_all_nil. reflexivity.
  - destruct Hpass as [He|Hmiss]; [rewrite He in Hne; discriminate Hne|].
    unfold bind at 1. rewrite (isbn_query_run _ _ _ Hne).
    destruct Hmiss as [->|(res & -> & [Hres|(key & Hkey & Hfalse)])];
      cbn [receive ret].
    + reflexivity.
    + rewrite Hres. reflexivity.
    + destruct (Py.truthy res); cbn [negb]; [|reflexivity].
      rewrite (bind_lift_ok _ _ _ _ Hkey), Hfalse. reflexivity.
Qed.

Lemma isbn_loop_return (env : environment) (r : row) (isbn_key : string)
      (rest : list string) (v : option string) (st st1 : state) :
  isbn_lookup env r isbn_key st = (Ok (Return v), st1) ->
  isbn_loop env r (isbn_key :: rest) st = (Ok (Return v), st1).
Proof. intros H. cbn [isbn_loop]. rewrite (bind_ok _ _ _ _ _ H). reflexivity. Qed.

Lemma isbn_loop_continue (env : environment) (r : row) (isbn_key : string)
      (rest : list string) (st st1 : state) :
  isbn_lookup env r isbn_key st = (Ok Continue, st1) ->
  isbn_loop env r (isbn_key :: rest) st = isbn_loop env r rest st1.
Proof. intros H. cbn [isbn_loop]. rewrite (bind_ok _ _ _ _ _ H). reflexivity. Qed.

Lemma retrieve_key_returns (env : environment) (r : row) (v : option string)
      (st st1 : state) :
  isbn_loop env r ["ISBN13"; "ISBN"] st = (Ok (Return v), st1) ->
  retrieve_key env r st = (Ok v, st1).
Proof. intros H. unfold retrieve_key. rewrite (bind_ok _ _ _ _ _ H). reflexivity. Qed.

Lemma search_miss_run (env : environment) (query : list (string * string))
      (st : state) :
  search_miss (respond env (sent st) (search_request query)) ->
  exists res,
    query_open_lib env "search" None (Some query) st
    = (Ok res, after st (search_request query))
    /\ no_match res = Ok true.
Proof.
  rewrite search_query_run. intros [->|(res & -> & H)].
  - exists JNull. split; reflexivity.
  - exists res. split; [reflexivity|exact H].
Qed.

Lemma search_hit_run (env : environment) (query : list (string * string))
      (st : state) (k : string) :
  search_hit (respond env (sent st) (search_request query)) k ->
  exists res,
    query_open_lib env "search" None (Some query) st
    = (Ok res, after st (search_request query))
    /\ no_match res = Ok false
    /\ first_edition res = Ok (Some (PyStr.last_segment k)).
Proof.
  rewrite search_query_run. intros (res & -> & Hn & Hk).
  exists res. repeat split; auto.
  unfold first_edition. rewrite Hk. reflexivity.
Qed.

Lemma isbn_loop_passes (env : environment) (r : row) (isbn13 isbn : string)
      (st : state) :
  row_get r "ISBN13" = Ok (Some isbn13) ->
  row_get r "ISBN" = Ok (Some isbn) ->
  isbn_passes env (sent st) isbn13 ->
  isbn_passes env (sent st ++ isbn_requests isbn13) isbn ->
  isbn_loop env r ["ISBN13"; "ISBN"] st
  = (Ok Continue, after_all st (isbn_requests isbn13 ++ isbn_requests isbn)).
Proof.
  intros H13 H10 P13 P10.
  rewrite (isbn_loop_continue _ _ _ _ _ _
             (isbn_lookup_passes _ _ _ _ _ H13 P13)).
  rewrite (isbn_loop_continue _ _ _ _ _ _
             (isbn_lookup_passes env r "ISBN" isbn
                (after_all st (isbn_requests isbn13)) H10 P10)).
  rewrite after_all_app. reflexivity.
Qed.

Lemma retrieve_key_searches (env : environment) (r : row) (st st1 : state) :
  isbn_loop env r ["ISBN13"; "ISBN"] st = (Ok Continue, st1) ->
  retrieve_key env r st = search env r st1.
Proof. intros H. unfold retrieve_key. rewrite (bind_ok _ _ _ _ _ H). reflexivity. Qed.

Lemma search_strict_hit (env : environment) (r : row)
      (strict : list (string * string)) (k : string) (st : state) :
  strict_params r = Ok strict ->
  search_hit (respond env (sent st) (search_request strict)) k ->
  search env r st
  = (Ok (Some (PyStr.last_segment k)), after st (search_request strict)).
Proof.
  intros Hstrict Hhit.
  destruct (search_hit_run _ _ _ _ Hhit) as (res & Hq & Hn & Hk).
  unfold search. rewrite (bind_lift_ok _ _ _ _ Hstrict).
  rewrite (bind_ok _ _ _ _ _ Hq), (bind_lift_ok _ _ _ _ Hn).
  unfold lift. rewrite Hk. reflexivity.
Qed.

Lemma search_loose_hit (env : environment) (r : row)
      (strict : list (string * string)) (k : string) (st : state) :
  strict_params r = Ok strict ->
  search_miss (respond env (sent st) (search_request strict)) ->
  search_hit (respond env (sent st ++ [search_request strict])
                (search_request (loose_params strict))) k ->
  search env r st
  = (Ok (Some (PyStr.last_segment k)),
     after_all st [search_request strict;
                   search_request (loose_params strict)]).
Proof.
  intros Hstrict Hmiss Hhit.
  destruct (search_miss_run _ _ _ Hmiss) as (res1 & Hq1 & Hn1).
  destruct (search_hit_run env (loose_params strict)
              (after st (search_request strict)) k Hhit)
    as (res2 & Hq2 & Hn2 & Hk).
  unfold search. rewrite (bind_lift_ok _ _ _ _ Hstrict).
  rewrite (bind_ok _ _ _ _ _ Hq1), (bind_lift_ok _ _ _ _ Hn1).
  rewrite (bind_ok _ _ _ _ _ Hq2), (bind_lift_ok _ _ _ _ Hn2).
  unfold lift. rewrite Hk, after_after. reflexivity.
Qed.

Lemma search_finds_nothing (env : environment) (r : row)
      (strict : list (string * string)) (st : state) :
  strict_params r = Ok strict ->
  search_miss (respond env (sent st) (search_request strict)) ->
  search_miss (respond env (sent st ++ [search_request strict])
                 (search_request (loose_params strict))) ->
  search env r st
  = (Ok None,
     after_all st [search_request strict;
                   search_request (loose_params strict)]).
Proof.
  intros Hstrict Hmiss1 Hmiss2.
  destruct (search_miss_run _ _ _ Hmiss1) as (res1 & Hq1 & Hn1).
  destruct (search_miss_run env (loose_params strict)
              (after st (search_request strict)) Hmiss2)
    as (res2 & Hq2 & Hn2).
  unfold search. rewrite (bind_lift_ok _ _ _ _ Hstrict).
  rewrite (bind_ok _ _ _ _ _ Hq1), (bind_lift_ok _ _ _ _ Hn1).
  rewrite (bind_ok _ _ _ _ _ Hq2), (bind_lift_ok _ _ _ _ Hn2).
  rewrite after_after. reflexivity.
Qed.

Lemma isbn_requests_are_lookups (text : string) :
  Forall is_isbn_lookup (isbn_requests text).
Proof.
  unfold isbn_requests.
  destruct (PyStr.is_empty (clean_isbn text)) eqn:E; constructor; [|constructor].
  split; [reflexivity|apply isbn_request_is_no_search, E].
Qed.

Lemma retrieve_key_second_lookup (env : environment) (r : row)
      (isbn13 isbn : string) (key : json) (st : state) :
  row_get r "ISBN13" = Ok (Some isbn13) ->
  row_get r "ISBN" = Ok (Some isbn) ->
  isbn_passes env (sent st) isbn13 ->
  PyStr.is_empty (clean_isbn isbn) = false ->
  isbn_hit (respond env (sent st ++ isbn_requests isbn13)
              (isbn_request (clean_isbn isbn))) key ->
  retrieve_key env r st
  = (Ok (edition_key key),
     after_all st (isbn_requests isbn13 ++ [isbn_request (clean_isbn isbn)])).
Proof.
  intros H13 H10 P13 Hne Hhit. apply retrieve_key_returns.
  rewrite (isbn_loop_continue _ _ _ _ _ _
             (isbn_lookup_passes _ _ _ _ _ H13 P13)).
  apply isbn_loop_return.
  rewrite (isbn_lookup_hit env r "ISBN" isbn key
             (after_all st (isbn_requests isbn13)) H10 Hne Hhit).
  rewrite after_all_snoc. reflexivity.
Qed.

Lemma retrieve_key_strict_search (env : environment) (r : row)
      (isbn13 isbn : string) (strict : list (string * string)) (k : string)
      (st : state) :
  row_get r "ISBN13" = Ok (Some isbn13) ->
  row_get r "ISBN" = Ok (Some isbn) ->
  isbn_passes env (sent st) isbn13 ->
  isbn_passes env (sent st ++ isbn_requests isbn13) isbn ->
  strict_params r = Ok strict ->
  search_hit (respond env (sent st ++ isbn_requests isbn13 ++ isbn_requests isbn)
                (search_request strict)) k ->
  retrieve_key env r st
  = (Ok (Some (PyStr.last_segment k)),
     after_all st (isbn_requests isbn13 ++ isbn_requests isbn
                     ++ [search_request strict])).
Proof.
  intros H13 H10 P13 P10 Hstrict Hhit.
  rewrite (retrieve_key_searches _ _ _ _ (isbn_loop_passes _ _ _ _ _ H13 H10 P13 P10)).
  rewrite (search_strict_hit env r strict k).
  - rewrite after_all_snoc, <- app_assoc. reflexivity.
  - exact Hstrict.
  - cbn [after_all sent]. exact Hhit.
Qed.

Lemma retrieve_key_loose_search (env : environment) (r : row)
      (isbn13 isbn : string) (strict : list (string * string)) (k : string)
      (st : state) :
  row_get r "ISBN13" = Ok (Some isbn13) ->
  row_get r "ISBN" = Ok (Some isbn) ->
  isbn_passes env (sent st) isbn13 ->
  isbn_passes env (sent st ++ isbn_requests isbn13) isbn ->
  strict_params r = Ok strict ->
  search_miss (respond env (sent st ++ isbn_requests isbn13 ++ isbn_requests isbn)
                 (search_request strict)) ->
  search_hit (respond env (sent st ++ isbn_requests isbn13 ++ isbn_requests isbn
                             ++ [search_request strict])
                (search_request (loose_params strict))) k ->
  retrieve_key env r st
  = (Ok (Some (PyStr.last_segment k)),
     after_all st (isbn_requests isbn13 ++ isbn_requests isbn
                     ++ [search_request strict;
                         search_request (loose_params strict)])).
Proof.
  intros H13 H10 P13 P10 Hstrict Hmiss Hhit.
  rewrite (retrieve_key_searches _ _ _ _ (isbn_loop_passes _ _ _ _ _ H13 H10 P13 P10)).
  rewrite (search_loose_hit env r strict k).
  - rewrite after_all_app, <- app_assoc. reflexivity.
  - exact Hstrict.
  - cbn [after_all sent]. exact Hmiss.
  - cbn [after_all sent]. rewrite <- ?app_assoc. exact Hhit.
Qed.

Lemma retrieve_key_unresolved (env : environment) (r : row)
      (isbn13 isbn : string) (strict : list (string * string)) (st : state) :
  row_get r "ISBN13" = Ok (Some isbn13) ->
  row_get r "ISBN" = Ok (Some isbn) ->
  isbn_passes env (sent st) isbn13 ->
  isbn_passes env (sent st ++ isbn_requests isbn13) isbn ->
  strict_params r = Ok strict ->
  search_miss (respond env (sent st ++ isbn_requests isbn13 ++ isbn_requests isbn)
                 (search_request strict)) ->
  search_miss (respond env (sent st ++ isbn_requests isbn13 ++ isbn_requests isbn
                              ++ [search_request strict])
                 (search_request (loose_params strict))) ->
  retrieve_key env r st
  = (Ok None,
     after_all st (isbn_requests isbn13 ++ isbn_requests isbn
                     ++ [search_request strict;
                         search_request (loose_params strict)])).
Proof.
  intros H13 H10 P13 P10 Hstrict Hmiss1 Hmiss2.
  rewrite (retrieve_key_searches _ _ _ _ (isbn_loop_passes _ _ _ _ _ H13 H10 P13 P10)).
  rewrite (search_finds_nothing env r strict).
  - rewrite after_all_app, <- app_assoc. reflexivity.
  - exact Hstrict.
  - cbn [after_all sent]. exact Hmiss1.
  - cbn [after_all sent]. rewrite <- ?app_assoc. exact Hmiss2.
Qed.

Lemma loose_params_are_title_author (strict : list (string * string))
      (name value : string) :
  In (name, value) (loose_params strict) ->
  In name ["title"; "author"; "q"; "fields"]
  /\ Py.lookup strict name = Some value.
Proof.
  unfold loose_params. cbn [flat_map]. rewrite app_nil_r.
  rewrite !in_app_iff.
  intros H.
  repeat match goal with
         | H : _ \/ _ |- _ => destruct H as [H|H]
         end;
    match type of H with
    | In _ (match Py.lookup strict ?n with _ => _ end) =>
        destruct (Py.lookup strict n) eqn:E; [|contradiction];
        destruct H as [[= <- <-]|[]]; split; [simpl; tauto|exact E]
    end.
Qed.


(** ** Record creation, step by step *)

Lemma create_record_run (env : environment) (did endpoint : string)
      (session : json) (r : row) (k : string) (st : state)
      (token record : json) :
  build_record (timestamp_of (utc_now_iso env (sent st))) r k = Ok record ->
  Py.get session "accessJwt" = Ok token ->
  create_record env did endpoint session r k st
  = (creation_outcome
       (respond env (sent st) (create_request did endpoint token record)),
     after st (create_request did endpoint token record)).
Proof.
  intros Hrec Htok. unfold create_record.
  unfold bind at 1. cbn [now].
  rewrite (bind_lift_ok _ _ _ _ Hrec), (bind_lift_ok _ _ _ _ Htok).
  unfold bind at 1.
  change (safe_request env "post"
            (endpoint ++ "/xrpc/com.atproto.repo.createRecord") None None
            (Some token)
            (Some (JDict [("repo", JStr did);
                          ("collection", JStr "my.skylights.rel");
                          ("record", record)])) st)
    with (receive (respond env (sent st)
                     (create_request did endpoint token record))
            (after st (create_request did endpoint token record))).
  destruct (respond env (sent st) (create_request did endpoint token record))
    as [| |res]; cbn [receive ret raise creation_outcome]; try reflexivity.
  destruct (Py.truthy res); cbn [negb]; [|reflexivity].
  unfold bind, lift.
  destruct (Py.get res "uri") as [[]|]; reflexivity.
Qed.

Lemma create_record_ok_inv (env : environment) (did endpoint : string)
      (session : json) (r : row) (k : string) (st st' : state) :
  create_record env did endpoint session r k st = (Ok tt, st') ->
  exists token record,
    build_record (timestamp_of (utc_now_iso env (sent st))) r k = Ok record
    /\ Py.get session "accessJwt" = Ok token
    /\ st' = after st (create_request did endpoint token record).
Proof.
  intros H.
  destruct (build_record (timestamp_of (utc_now_iso env (sent st))) r k)
    as [record|e] eqn:Hrec.
  - destruct (Py.get session "accessJwt") as [token|e] eqn:Htok.
    + rewrite (create_record_run _ _ _ _ _ _ _ _ _ Hrec Htok) in H.
      injection H as _ <-. eauto.
    + unfold create_record in H. unfold bind at 1 in H. cbn [now] in H.
      rewrite (bind_lift_ok _ _ _ _ Hrec) in H.
      unfold bind, lift in H. rewrite Htok in H. discriminate H.
  - unfold create_record in H. unfold bind at 1 in H. cbn [now] in H.
    unfold bind, lift in H. rewrite Hrec in H. discriminate H.
Qed.

Lemma submits_built_record (timestamp : string) (r : row) (k : string)
      (record : json) (did endpoint : string) (token : json) :
  build_record timestamp r k = Ok record ->
  submits k (create_request did endpoint token record) = true.
Proof.
  intros H.
  destruct (build_record_inv _ _ _ _ H)
    as (my_rating & n & date_read & finish & review & read_count & count
        & _ & _ & _ & _ & _ & _ & _ & ->).
  unfold submits, submitted_key. simpl. apply String.eqb_refl.
Qed.

Lemma get_submits_nothing (k : string) (rq : request) :
  meth rq = GET -> submits k rq = false.
Proof. intros H. unfold submits, submitted_key. rewrite H. reflexivity. Qed.

Lemma no_submission_among_gets (k : string) (l : list request) :
  Forall (fun rq => meth rq = GET) l -> filter (submits k) l = [].
Proof.
  induction 1 as [|rq l H _ IH]; simpl; [reflexivity|].
  rewrite (get_submits_nothing _ _ H). exact IH.
Qed.

Lemma safe_request_absorbs_failure (env : environment) (mode url : string)
      (params : option (list (string * string)))
      (json_body auth data : option json) (st : state) :
  (forall rq, respond env (sent st) rq = Failed) ->
  exists st',
    safe_request env mode url params json_body auth data st = (Ok JNull, st').
Proof.
  intros Hdown. unfold safe_request.
  destruct (String.eqb (PyStr.upper mode) "GET");
    [|destruct (String.eqb (PyStr.upper mode) "POST")];
    unfold bind, send; rewrite ?Hdown; eexists; reflexivity.
Qed.


(** ** The row loop, step by step *)

Lemma process_row_excluded (env : environment) (did endpoint : string)
      (session : json) (used_keys : list json) (r : row) (st : state)
      (count title author : cell) :
  row_get r "Read Count" = Ok count ->
  valid_read_count count = Ok false ->
  row_get r "Title" = Ok title ->
  row_get r "Author" = Ok author ->
  process_row env did endpoint session used_keys r st
  = (Ok tt, reported st (annotate r "Excluded: Read count invalid")).
Proof.
  intros Hcount Hbad Ht Ha. unfold process_row.
  rewrite (bind_lift_ok _ _ _ _ Hcount), (bind_lift_ok _ _ _ _ Hbad).
  cbn [negb].
  rewrite (bind_ok _ _ _ _ _ (print_row_ok _ _ _ _ Ht Ha)). reflexivity.
Qed.

Lemma process_row_resolved (env : environment) (did endpoint : string)
      (session : json) (used_keys : list json) (r : row) (st st1 : state)
      (count title author : cell) (k : string) :
  row_get r "Read Count" = Ok count ->
  valid_read_count count = Ok true ->
  row_get r "Title" = Ok title ->
  row_get r "Author" = Ok author ->
  retrieve_key env r st = (Ok (Some k), st1) ->
  PyStr.is_empty k = false ->
  process_row env did endpoint session used_keys r st
  = if key_in k used_keys
    then (Ok tt, reported st1 (annotate r "Skipped: Already had a record"))
    else create_record env did endpoint session (annotate r "Success") k
           (reported st1 (annotate r "Success")).
Proof.
  intros Hcount Hvalid Ht Ha Hkey Hk. unfold process_row.
  rewrite (bind_lift_ok _ _ _ _ Hcount), (bind_lift_ok _ _ _ _ Hvalid).
  cbn [negb].
  rewrite (bind_ok _ _ _ _ _ Hkey), Hk.
  destruct (key_in k used_keys);
    rewrite (bind_ok _ _ _ _ _ (print_row_ok _ _ _ _ Ht Ha)); reflexivity.
Qed.

Lemma process_row_unresolved (env : environment) (did endpoint : string)
      (session : json) (used_keys : list json) (r : row) (st st1 : state)
      (count title author : cell) (key : option string) :
  row_get r "Read Count" = Ok count ->
  valid_read_count count = Ok true ->
  row_get r "Title" = Ok title ->
  row_get r "Author" = Ok author ->
  retrieve_key env r st = (Ok key, st1) ->
  no_key key = true ->
  process_row env did endpoint session used_keys r st
  = (Ok tt, reported st1 (annotate r "Failure: No open library key found")).
Proof.
  intros Hcount Hvalid Ht Ha Hkey Hk. unfold process_row.
  rewrite (bind_lift_ok _ _ _ _ Hcount), (bind_lift_ok _ _ _ _ Hvalid).
  cbn [negb].
  rewrite (bind_ok _ _ _ _ _ Hkey).
  destruct key as [k|]; [cbn [no_key] in Hk; rewrite Hk|];
    rewrite (bind_ok _ _ _ _ _ (print_row_ok _ _ _ _ Ht Ha)); reflexivity.
Qed.

Lemma process_rows_cons (env : environment) (did endpoint : string)
      (session : json) (used_keys : list json) (r : row) (rest : list row)
      (st st1 : state) :
  process_row env did endpoint session used_keys r st = (Ok tt, st1) ->
  process_rows env did endpoint session used_keys (r :: rest) st
  = process_rows env did endpoint session used_keys rest st1.
Proof.
  intros H. cbn [process_rows]. rewrite (bind_ok _ _ _ _ _ H). reflexivity.
Qed.

Lemma process_rows_raises (env : environment) (did endpoint : string)
      (session : json) (used_keys : list json) (r : row) (rest : list row)
      (st st1 : state) (e : exn) :
  process_row env did endpoint session used_keys r st = (Raise e, st1) ->
  process_rows env did endpoint session used_keys (r :: rest) st
  = (Raise e, st1).
Proof.
  intros H. cbn [process_rows]. rewrite (bind_raise _ _ _ _ _ H). reflexivity.
Qed.

(** ** What the loop appends to the results *)

Lemma reports_row_quiet_then {A : Type} (r : row) (m : M A) (k : A -> M unit) :
  sends_only (fun _ => True) m ->
  (forall a, reports_row r (k a)) ->
  reports_row r (bind m k).
Proof.
  intros Hm Hk st x st'. unfold bind.
  destruct (m st) as [[a|e] st1] eqn:E; intros H.
  - destruct (Hm _ _ _ E) as (l & _ & _ & R1 & T1).
    destruct (Hk a _ _ _ H) as [T2 R2]. rewrite T2, T1. split; [reflexivity|].
    rewrite R1 in R2. exact R2.
  - injection H as <- <-.
    destruct (Hm _ _ _ E) as (l & _ & _ & R1 & T1).
    split; [exact T1|]. left. split; [exact R1|discriminate].
Qed.

Lemma reports_row_append (r : row) (o : string) :
  In o outcome_texts -> reports_row r (append_result (annotate r o)).
Proof.
  intros Ho st x st' [= <- <-]. split; [reflexivity|]. right. eauto.
Qed.

Lemma reports_row_append_then (r : row) (o : string) (m : M unit) :
  In o outcome_texts ->
  sends_only (fun _ => True) m ->
  reports_row r (bind (append_result (annotate r o)) (fun _ => m)).
Proof.
  intros Ho Hm st x st' H. unfold bind, append_result in H.
  destruct (Hm _ _ _ H) as (l & _ & _ & R1 & T1).
  split; [exact T1|]. right. exists o. split; [exact Ho|exact R1].
Qed.

Lemma sends_only_anything {A : Type} (P : request -> Prop) (m : M A) :
  sends_only P m -> sends_only (fun _ => True) m.
Proof. apply sends_only_weaken. trivial. Qed.

Lemma process_row_reports_row (env : environment) (did endpoint : string)
      (session : json) (used_keys : list json) (r : row) :
  reports_row r (process_row env did endpoint session used_keys r).
Proof.
  assert (Hprint : forall o, In o outcome_texts ->
            reports_row r (bind (print_row r)
                                (fun _ => append_result (annotate r o)))).
  { intros o Ho. apply reports_row_quiet_then; [apply sends_only_print_row|].
    intros _. apply reports_row_append, Ho. }
  unfold process_row.
  apply reports_row_quiet_then; [apply sends_only_lift|intros count].
  apply reports_row_quiet_then; [apply sends_only_lift|intros valid].
  destruct (negb valid); [apply Hprint; cbn; tauto|].
  apply reports_row_quiet_then;
    [exact (sends_only_anything _ _ (retrieve_key_sends_gets env r))|].
  intros [k|]; [|apply Hprint; cbn; tauto].
  destruct (PyStr.is_empty k); [apply Hprint; cbn; tauto|].
  destruct (key_in k used_keys); [apply Hprint; cbn; tauto|].
  apply reports_row_quiet_then; [apply sends_only_print_row|intros _].
  apply reports_row_append_then; [cbn; tauto|].
  exact (sends_only_anything _ _
           (create_record_sends_posts env did endpoint session _ k)).
Qed.

Lemma process_rows_appends_in_order (env : environment)
        (did endpoint : string) (session : json) (used_keys : list json)
        (rows : list row) (st st' : state) (x : result unit) :
  process_rows env did endpoint session used_keys rows st = (x, st') ->
  exists outcomes,
    results st' = (results st ++ annotated rows outcomes)%list
    /\ Forall (fun o => In o outcome_texts) outcomes
    /\ (List.length outcomes <= List.length rows)%nat
    /\ (x = Ok tt -> List.length outcomes = List.length rows)
    /\ report_file st' = report_file st.
Proof.
  revert st. induction rows as [|r rows IH]; intros st H.
  - injection H as <- <-. exists []. unfold annotated. cbn [combine map].
    rewrite app_nil_r. cbn [List.length].
    split; [reflexivity|]. split; [constructor|]. split; [lia|].
    split; [reflexivity|reflexivity].
  - cbn [process_rows] in H. unfold bind in H.
    destruct (process_row env did endpoint session used_keys r st)
      as [[[]|e] st1] eqn:E.
    + destruct (process_row_reports_row _ _ _ _ _ _ _ _ _ E)
        as [T1 [[_ Hx]|(o & Ho & R1)]]; [contradiction Hx; reflexivity|].
      destruct (IH _ H) as (os & R2 & F2 & L2 & X2 & T2).
      exists (o :: os). unfold annotated in *. cbn [combine map fst snd].
      rewrite R2, R1, <- app_assoc. cbn [app List.length].
      split; [reflexivity|]. split; [constructor; assumption|].
      split; [lia|]. split.
      * intros Hx. rewrite (X2 Hx). reflexivity.
      * rewrite T2, T1. reflexivity.
    + injection H as <- <-.
      destruct (process_row_reports_row _ _ _ _ _ _ _ _ _ E)
        as [T1 [[R1 _]|(o & Ho & R1)]].
      * exists []. unfold annotated. cbn [combine map List.length].
        rewrite app_nil_r.
        split; [exact R1|]. split; [constructor|]. split; [lia|].
        split; [discriminate|exact T1].
      * exists [o]. unfold annotated. cbn [combine]. rewrite combine_nil.
        cbn [map fst snd List.length].
        split; [exact R1|]. split; [constructor; [assumption|constructor]|].
        split; [lia|]. split; [discriminate|exact T1].
Qed.

(** ** Runs that do not raise *)

Lemma valid_read_count_of_text (s : string) :
  exists b, valid_read_count (Some s) = Ok b.
Proof.
  unfold valid_read_count.
  destruct (cell_in (Some s) ["0"; EmptyString]); [eauto|].
  cbn [py_int]. destruct (PyStr.int s); eauto.
Qed.

Lemma strict_params_defined (r : row) :
  has_columns read_columns r = true ->
  has_texts text_columns r = true ->
  exists strict, strict_params r = Ok strict.
Proof.
  intros H Ht. unfold strict_params, rbind.
  destruct (has_text _ _ "Title" Ht) as [title ->]; [simpl; tauto|].
  cbn [Row.subject].
  destruct (has_column _ _ "Author" H) as [v2 ->]; [simpl; tauto|].
  destruct (has_column _ _ "Book Id" H) as [v3 ->]; [simpl; tauto|].
  destruct (has_column _ _ "Publisher" H) as [v4 ->]; [simpl; tauto|].
  destruct (has_column _ _ "Year Published" H) as [v5 ->]; [simpl; tauto|].
  destruct (has_column _ _ "Original Publication Year" H) as [v6 ->];
    [simpl; tauto|].
  eexists. reflexivity.
Qed.

Lemma build_record_annotated (timestamp : string) (r : row)
      (outcome k : string) :
  build_record timestamp (annotate r outcome) k = build_record timestamp r k.
Proof.
  unfold build_record.
  rewrite !annotation_keeps_columns by discriminate. reflexivity.
Qed.

Lemma build_record_defined (timestamp : string) (r : row) (k : string)
      (rating count : cell) (n m : Z) :
  has_columns read_columns r = true ->
  row_get r "My Rating" = Ok rating -> py_int rating = Ok n ->
  row_get r "Read Count" = Ok count -> py_int count = Ok m ->
  exists record, build_record timestamp r k = Ok record.
Proof.
  intros H Hr Hn Hc Hm. unfold build_record, rbind.
  rewrite Hr, Hn.
  destruct (has_column _ _ "Date Read" H) as [date_read ->]; [simpl; tauto|].
  destruct (has_column _ _ "Date Added" H) as [date_added ->]; [simpl; tauto|].
  destruct (has_column _ _ "My Review" H) as [review ->]; [simpl; tauto|].
  rewrite Hc, Hm.
  destruct (Row.truthy date_read); eexists; reflexivity.
Qed.

Lemma no_match_of_resolvable (res : json) :
  resolvable res ->
  no_match res = Ok true
  \/ (no_match res = Ok false /\ exists key, first_edition res = Ok key).
Proof.
  unfold no_match. intros [H|(d & key & -> & Hkey)].
  - rewrite H. left. reflexivity.
  - destruct (Py.truthy (JDict d)); cbn [negb]; [|left; reflexivity].
    cbn [Py.get rbind].
    destruct (Py.eq_zero (Py.dict_get d (KStr "num_found")));
      [left; reflexivity|right].
    split; [reflexivity|]. unfold first_edition. rewrite Hkey.
    eexists. reflexivity.
Qed.

Section Orderly.

Variable env : environment.
Hypothesis answers : orderly env.

Lemma get_is_digested (url : string)
      (params : option (list (string * string))) (st : state) :
  exists res,
    safe_request env "get" url params None None None st
    = (Ok res, after st (mkRequest GET url params None None None))
    /\ resolvable res.
Proof.
  change (safe_request env "get" url params None None None st)
    with (receive (respond env (sent st)
                     (mkRequest GET url params None None None))
            (after st (mkRequest GET url params None None None))).
  destruct (answers (sent st) (mkRequest GET url params None None None))
    as [Hget _]. specialize (Hget eq_refl).
  destruct (respond env (sent st) (mkRequest GET url params None None None))
    as [| |res]; cbn [digestible] in Hget; [|contradiction|].
  - exists JNull. split; [reflexivity|left; reflexivity].
  - exists res. split; [reflexivity|exact Hget].
Qed.

Lemma isbn_lookup_never_raises (r : row) (isbn_key text : string)
      (st : state) :
  row_get r isbn_key = Ok (Some text) ->
  exists f st1, isbn_lookup env r isbn_key st = (Ok f, st1).
Proof.
  intros Hcell. unfold isbn_lookup. rewrite (bind_lift_ok _ _ _ _ Hcell).
  rewrite (bind_lift_ok (Row.receiver (Some text)) _ _ text eq_refl).
  destruct (PyStr.is_empty (clean_isbn text));
    [do 2 eexists; reflexivity|].
  destruct (get_is_digested (open_lib_url "isbn" (Some (clean_isbn text)))
              None st) as (res & E & Hres).
  unfold query_open_lib. cbv iota. rewrite (bind_ok _ _ _ _ _ E).
  destruct Hres as [H|(d & key & -> & _)].
  - rewrite H. do 2 eexists. reflexivity.
  - destruct (Py.truthy (JDict d)); cbn [negb];
      [|do 2 eexists; reflexivity].
    rewrite (bind_lift_ok (Py.get (JDict d) "key") _ _ _ eq_refl).
    destruct (Py.truthy (Py.dict_get d (KStr "key")));
      do 2 eexists; reflexivity.
Qed.

Lemma search_never_raises (r : row) (strict : list (string * string))
      (st : state) :
  strict_params r = Ok strict ->
  exists key st1, search env r st = (Ok key, st1).
Proof.
  intros Hstrict. unfold search. rewrite (bind_lift_ok _ _ _ _ Hstrict).
  destruct (get_is_digested (open_lib_url "search" None) (Some strict) st)
    as (res1 & E1 & H1).
  unfold query_open_lib. rewrite (bind_ok _ _ _ _ _ E1).
  destruct (no_match_of_resolvable _ H1) as [N1|(N1 & key1 & K1)];
    rewrite (bind_lift_ok _ _ _ _ N1).
  - destruct (get_is_digested (open_lib_url "search" None)
                (Some (loose_params strict))
                (after st (mkRequest GET (open_lib_url "search" None)
                             (Some strict) None None None)))
      as (res2 & E2 & H2).
    rewrite (bind_ok _ _ _ _ _ E2).
    destruct (no_match_of_resolvable _ H2) as [N2|(N2 & key2 & K2)];
      rewrite (bind_lift_ok _ _ _ _ N2).
    + do 2 eexists. reflexivity.
    + unfold lift. rewrite K2. do 2 eexists. reflexivity.
  - unfold lift. rewrite K1. do 2 eexists. reflexivity.
Qed.

Lemma retrieve_key_never_raises (r : row) (st : state) :
  has_columns read_columns r = true ->
  has_texts text_columns r = true ->
  exists key st1, retrieve_key env r st = (Ok key, st1).
Proof.
  intros H Ht.
  destruct (has_text _ _ "ISBN13" Ht) as [isbn13 H13]; [simpl; tauto|].
  destruct (has_text _ _ "ISBN" Ht) as [isbn H10]; [simpl; tauto|].
  destruct (strict_params_defined _ H Ht) as [strict Hstrict].
  destruct (isbn_lookup_never_raises r "ISBN13" isbn13 st H13)
    as ([|v] & st1 & E1).
  - destruct (isbn_lookup_never_raises r "ISBN" isbn st1 H10)
      as ([|v] & st2 & E2).
    + assert (Hloop : isbn_loop env r ["ISBN13"; "ISBN"] st
                      = (Ok Continue, st2)).
      { rewrite (isbn_loop_continue _ _ _ _ _ _ E1).
        rewrite (isbn_loop_continue _ _ _ _ _ _ E2). reflexivity. }
      rewrite (retrieve_key_searches _ _ _ _ Hloop).
      apply (search_never_raises r strict st2 Hstrict).
    + exists v, st2. apply retrieve_key_returns.
      rewrite (isbn_loop_continue _ _ _ _ _ _ E1).
      apply isbn_loop_return, E2.
  - exists v, st1. apply retrieve_key_returns, isbn_loop_return, E1.
Qed.

Lemma create_record_never_raises (did endpoint : string)
      (session : list (string * json)) (r : row) (k : string)
      (rating count : cell) (n m : Z) (st : state) :
  has_columns read_columns r = true ->
  row_get r "My Rating" = Ok rating -> py_int rating = Ok n ->
  row_get r "Read Count" = Ok count -> py_int count = Ok m ->
  exists st1,
    create_record env did endpoint (JDict session) (annotate r "Success") k st
    = (Ok tt, st1).
Proof.
  intros H Hr Hn Hc Hm.
  destruct (build_record_defined (timestamp_of (utc_now_iso env (sent st)))
              r k rating count n m H Hr Hn Hc Hm) as [record Hrec].
  rewrite <- (build_record_annotated _ r "Success" k) in Hrec.
  rewrite (create_record_run env did endpoint (JDict session) _ k st
             (Py.dict_get session (KStr "accessJwt")) record Hrec eq_refl).
  destruct (answers (sent st)
              (create_request did endpoint
                 (Py.dict_get session (KStr "accessJwt")) record))
    as [_ Hpost]. specialize (Hpost eq_refl).
  destruct (respond env (sent st)
              (create_request did endpoint
                 (Py.dict_get session (KStr "accessJwt")) record))
    as [| |res]; cbn [acknowledged] in Hpost; [|contradiction|];
    cbn [creation_outcome].
  - eexists. reflexivity.
  - destruct Hpost as [Hfalse|(d & uri & -> & Huri)].
    + rewrite Hfalse. eexists. reflexivity.
    + destruct (Py.truthy (JDict d)); cbn [negb Py.get];
        [|eexists; reflexivity].
      rewrite Huri. eexists. reflexivity.
Qed.

Lemma process_row_never_raises (did endpoint : string)
      (session : list (string * json)) (used_keys : list json) (r : row)
      (st : state) :
  readable r ->
  exists st1,
    process_row env did endpoint (JDict session) used_keys r st = (Ok tt, st1).
Proof.
  intros (H & Ht & Hrated).
  destruct (has_text _ _ "Read Count" Ht) as [count Hc]; [simpl; tauto|].
  destruct (has_column _ _ "Title" H) as [title Hti]; [simpl; tauto|].
  destruct (has_column _ _ "Author" H) as [author Ha]; [simpl; tauto|].
  destruct (valid_read_count_of_text count) as [[|] Hv].
  - destruct (retrieve_key_never_raises r st H Ht) as (key & st1 & Hkey).
    destruct (no_key key) eqn:Hno.
    + rewrite (process_row_unresolved env did endpoint (JDict session)
                 used_keys _ _ _ _ _ _ _ Hc Hv Hti Ha Hkey Hno).
      eexists. reflexivity.
    + destruct key as [k|]; [|discriminate Hno]. cbn [no_key] in Hno.
      rewrite (process_row_resolved env did endpoint (JDict session)
                 used_keys _ _ _ _ _ _ _ Hc Hv Hti Ha Hkey Hno).
      destruct (key_in k used_keys); [eexists; reflexivity|].
      destruct (Hrated _ Hc Hv) as (rating & n & Hr & Hn).
      destruct (valid_read_count_parses _ Hv) as [m Hm].
      exact (create_record_never_raises did endpoint session r k
               rating (Some count) n m _ H Hr Hn Hc Hm).
  - rewrite (process_row_excluded env did endpoint (JDict session)
               used_keys _ _ _ _ _ Hc Hv Hti Ha).
    eexists. reflexivity.
Qed.

Lemma process_rows_never_raise (did endpoint : string)
      (session : list (string * json)) (used_keys : list json)
      (rows : list row) :
  Forall readable rows ->
  forall st,
  exists st',
    process_rows env did endpoint (JDict session) used_keys rows st
    = (Ok tt, st').
Proof.
  induction 1 as [|r rows Hr _ IH]; intros st; [eexists; reflexivity|].
  destruct (process_row_never_raises did endpoint session used_keys r st Hr)
    as [st1 E].
  rewrite (process_rows_cons _ _ _ _ _ _ _ _ _ E). apply IH.
Qed.

End Orderly.


(** * The claims *)

(** C1. The resolver tries the ISBN-13 lookup, then the ISBN-10 lookup,
    then the strict search, then the loose search, and stops at the first
    one that succeeds.  Every case is stated on the answers of the
    network; a lookup leads on to the next strategy when nothing is left of
    the cell after cleaning (then nothing is asked) or when it finds
    nothing (no response, a falsy one, or one without a key).
    - When the ISBN-13 cell is not empty and its lookup succeeds (a truthy
      response with a truthy key), [retrieve_key] returns from that one
      request, which is no search.
    - When the ISBN-13 lookup leads on and the ISBN-10 lookup succeeds, the
      ISBN-10 lookup is the next request and [retrieve_key] returns from
      it; no request sent is a search.
    - When both lookups lead on, the strict search is the next request;
      when it returns a match, the key is the last path segment of that
      match's first edition key, and the loose search is not sent.
    - When the strict search reports nothing (no response, or num_found
      equal to zero), the loose search is the next request; when it returns
      a match, the key is taken from the loose result; the loose query
      holds only the title, author, q and fields entries of the strict one.
    - When the loose search reports nothing either, there is no key, after
      these requests and no other. *)
Theorem resolver_tries_strategies_in_order (env : environment) (r : row)
        (st : state) :
  (forall isbn13 key,
      row_get r "ISBN13" = Ok (Some isbn13) ->
      PyStr.is_empty (clean_isbn isbn13) = false ->
      isbn_hit (respond env (sent st) (isbn_request (clean_isbn isbn13))) key ->
      retrieve_key env r st
      = (Ok (edition_key key), after st (isbn_request (clean_isbn isbn13)))
      /\ is_search (isbn_request (clean_isbn isbn13)) = false)
  /\ (forall isbn13 isbn key,
         row_get r "ISBN13" = Ok (Some isbn13) ->
         row_get r "ISBN" = Ok (Some isbn) ->
         isbn_passes env (sent st) isbn13 ->
         PyStr.is_empty (clean_isbn isbn) = false ->
         isbn_hit (respond env (sent st ++ isbn_requests isbn13)
                     (isbn_request (clean_isbn isbn))) key ->
         retrieve_key env r st
         = (Ok (edition_key key),
            after_all st (isbn_requests isbn13
                            ++ [isbn_request (clean_isbn isbn)]))
         /\ Forall (fun rq => is_search rq = false)
                   (isbn_requests isbn13 ++ [isbn_request (clean_isbn isbn)]))
  /\ (forall isbn13 isbn strict k,
         row_get r "ISBN13" = Ok (Some isbn13) ->
         row_get r "ISBN" = Ok (Some isbn) ->
         isbn_passes env (sent st) isbn13 ->
         isbn_passes env (sent st ++ isbn_requests isbn13) isbn ->
         strict_params r = Ok strict ->
         search_hit (respond env
                       (sent st ++ isbn_requests isbn13 ++ isbn_requests isbn)
                       (search_request strict)) k ->
         retrieve_key env r st
         = (Ok (Some (PyStr.last_segment k)),
            after_all st (isbn_requests isbn13 ++ isbn_requests isbn
                            ++ [search_request strict]))
         /\ Forall is_isbn_lookup (isbn_requests isbn13 ++ isbn_requests isbn))
  /\ (forall isbn13 isbn strict k,
         row_get r "ISBN13" = Ok (Some isbn13) ->
         row_get r "ISBN" = Ok (Some isbn) ->
         isbn_passes env (sent st) isbn13 ->
         isbn_passes env (sent st ++ isbn_requests isbn13) isbn ->
         strict_params r = Ok strict ->
         search_miss (respond env
                        (sent st ++ isbn_requests isbn13 ++ isbn_requests isbn)
                        (search_request strict)) ->
         search_hit (respond env
                       (sent st ++ isbn_requests isbn13 ++ isbn_requests isbn
                          ++ [search_request strict])
                       (search_request (loose_params strict))) k ->
         retrieve_key env r st
         = (Ok (Some (PyStr.last_segment k)),
            after_all st (isbn_requests isbn13 ++ isbn_requests isbn
                            ++ [search_request strict;
                                search_request (loose_params strict)]))
         /\ Forall is_isbn_lookup (isbn_requests isbn13 ++ isbn_requests isbn)
         /\ (forall name value,
                In (name, value) (loose_params strict) ->
                In name ["title"; "author"; "q"; "fields"]
                /\ Py.lookup strict name = Some value))
  /\ (forall isbn13 isbn strict,
         row_get r "ISBN13" = Ok (Some isbn13) ->
         row_get r "ISBN" = Ok (Some isbn) ->
         isbn_passes env (sent st) isbn13 ->
         isbn_passes env (sent st ++ isbn_requests isbn13) isbn ->
         strict_params r = Ok strict ->
         search_miss (respond env
                        (sent st ++ isbn_requests isbn13 ++ isbn_requests isbn)
                        (search_request strict)) ->
         search_miss (respond env
                        (sent st ++ isbn_requests isbn13 ++ isbn_requests isbn
                           ++ [search_request strict])
                        (search_request (loose_params strict))) ->
         retrieve_key env r st
         = (Ok None,
            after_all st (isbn_requests isbn13 ++ isbn_requests isbn
                            ++ [search_request strict;
                                search_request (loose_params strict)]))).
Proof.
  split; [|split; [|split; [|split]]].
  - intros isbn13 key Hcell Hne Hhit. split.
    + apply retrieve_key_returns, isbn_loop_return.
      exact (isbn_lookup_hit _ _ _ _ _ _ Hcell Hne Hhit).
    + apply isbn_request_is_no_search, Hne.
  - intros isbn13 isbn key H13 H10 P13 Hne Hhit. split.
    + exact (retrieve_key_second_lookup _ _ _ _ _ _ H13 H10 P13 Hne Hhit).
    + apply Forall_app. split.
      * generalize (isbn_requests_are_lookups isbn13).
        apply Forall_impl. intros rq [_ H]. exact H.
      * constructor; [|constructor].
        apply isbn_request_is_no_search, Hne.
  - intros isbn13 isbn strict k H13 H10 P13 P10 Hstrict Hhit. split.
    + exact (retrieve_key_strict_search _ _ _ _ _ _ _ H13 H10 P13 P10
               Hstrict Hhit).
    + apply Forall_app. split; apply isbn_requests_are_lookups.
  - intros isbn13 isbn strict k H13 H10 P13 P10 Hstrict Hmiss Hhit.
    split; [|split].
    + exact (retrieve_key_loose_search _ _ _ _ _ _ _ H13 H10 P13 P10
               Hstrict Hmiss Hhit).
    + apply Forall_app. split; apply isbn_requests_are_lookups.
    + apply loose_params_are_title_author.
  - intros isbn13 isbn strict H13 H10 P13 P10 Hstrict Hmiss1 Hmiss2.
    exact (retrieve_key_unresolved _ _ _ _ _ _ H13 H10 P13 P10
             Hstrict Hmiss1 Hmiss2).
Qed.

(** The cases of C1 on a row with both ISBN cells filled in: the first
    lookup succeeds; it fails and the second succeeds; both find nothing
    and the strict search has a match; the strict search has none and the
    loose one has; nothing is found at all. *)
Lemma resolver_order_witness :
  retrieve_key (Sample.scripted [Body (Sample.edition "/books/OL1M")])
               Sample.dune_both initial
  = (Ok (Some "OL1M"), after initial (isbn_request "9780441172719"))
  /\ retrieve_key (Sample.scripted [Failed; Body (Sample.edition "/books/OL2M")])
                  Sample.dune_both initial
     = (Ok (Some "OL2M"),
        after_all initial
          [isbn_request "9780441172719"; isbn_request "0441172717"])
  /\ retrieve_key (Sample.scripted [Failed; Body (JDict [("error", JStr "notfound")]);
                                    Body (Sample.found "/books/OL999M")])
                  Sample.dune_both initial
     = (Ok (Some "OL999M"),
        after_all initial
          [isbn_request "9780441172719"; isbn_request "0441172717";
           search_request
             [("title", "Dune"); ("author", "Frank Herbert");
              ("id_goodreads", "42"); ("publisher", "Ace");
              ("publish_year", "1990"); ("first_publish_year", "1965");
              ("q", "language:eng"); ("fields", "key,editions,editions.key")]])
  /\ retrieve_key (Sample.scripted [Failed; Failed; Body Sample.nothing_found;
                                    Body (Sample.found "/books/OL999M")])
                  Sample.dune_both initial
     = (Ok (Some "OL999M"),
        after_all initial
          [isbn_request "9780441172719"; isbn_request "0441172717";
           search_request
             [("title", "Dune"); ("author", "Frank Herbert");
              ("id_goodreads", "42"); ("publisher", "Ace");
              ("publish_year", "1990"); ("first_publish_year", "1965");
              ("q", "language:eng"); ("fields", "key,editions,editions.key")];
           search_request
             [("title", "Dune"); ("author", "Frank Herbert");
              ("q", "language:eng"); ("fields", "key,editions,editions.key")]])
  /\ retrieve_key Sample.offline Sample.dune_both initial
     = (Ok None,
        after_all initial
          [isbn_request "9780441172719"; isbn_request "0441172717";
           search_request
             [("title", "Dune"); ("author", "Frank Herbert");
              ("id_goodreads", "42"); ("publisher", "Ace");
              ("publish_year", "1990"); ("first_publish_year", "1965");
              ("q", "language:eng"); ("fields", "key,editions,editions.key")];
           search_request
             [("title", "Dune"); ("author", "Frank Herbert");
              ("q", "language:eng"); ("fields", "key,editions,editions.key")]]).
Proof.
  split; [|split; [|split; [|split]]].
  - destruct (resolver_tries_strategies_in_order
                (Sample.scripted [Body (Sample.edition "/books/OL1M")])
                Sample.dune_both initial) as (H & _).
    refine (proj1 (H "=9780441172719" (JStr "/books/OL1M") _ _ _));
      [reflexivity|reflexivity|].
    exists (Sample.edition "/books/OL1M"). repeat split; reflexivity.
  - destruct (resolver_tries_strategies_in_order
                (Sample.scripted [Failed; Body (Sample.edition "/books/OL2M")])
                Sample.dune_both initial) as (_ & H & _).
    refine (proj1 (H "=9780441172719" "=0441172717" (JStr "/books/OL2M")
                     _ _ _ _ _));
      [reflexivity|reflexivity| |reflexivity|].
    + right. left. reflexivity.
    + exists (Sample.edition "/books/OL2M"). repeat split; reflexivity.
  - destruct (resolver_tries_strategies_in_order
                (Sample.scripted [Failed; Body (JDict [("error", JStr "notfound")]);
                                  Body (Sample.found "/books/OL999M")])
                Sample.dune_both initial) as (_ & _ & H & _).
    refine (proj1 (H "=9780441172719" "=0441172717" _ "/books/OL999M"
                     _ _ _ _ _ _));
      [reflexivity|reflexivity| | |reflexivity|].
    + right. left. reflexivity.
    + right. right. exists (JDict [("error", JStr "notfound")]).
      split; [reflexivity|]. right. exists JNull. split; reflexivity.
    + exists (Sample.found "/books/OL999M"). repeat split; reflexivity.
  - destruct (resolver_tries_strategies_in_order
                (Sample.scripted [Failed; Failed; Body Sample.nothing_found;
                                  Body (Sample.found "/books/OL999M")])
                Sample.dune_both initial) as (_ & _ & _ & H & _).
    refine (proj1 (H "=9780441172719" "=0441172717" _ "/books/OL999M"
                     _ _ _ _ _ _ _));
      [reflexivity|reflexivity| | |reflexivity| |].
    + right. left. reflexivity.
    + right. left. reflexivity.
    + right. exists Sample.nothing_found. split; reflexivity.
    + exists (Sample.found "/books/OL999M"). repeat split; reflexivity.
  - destruct (resolver_tries_strategies_in_order Sample.offline
                Sample.dune_both initial) as (_ & _ & _ & _ & H).
    refine (H "=9780441172719" "=0441172717" _ _ _ _ _ _ _ _);
      [reflexivity|reflexivity| | |reflexivity| |].
    + right. left. reflexivity.
    + right. left. reflexivity.
    + left. reflexivity.
    + left. reflexivity.
Defined.


(** C2. The duplicate check uses the key list built once before the loop.
    - [main] computes [used_keys] from the listed records and runs the whole
      loop with that one list; membership is equality with one of its
      string entries.
    - A row that resolves to a key in [used_keys] is reported as skipped,
      and only GET requests were sent for it.
    - A row that resolves to a key not in [used_keys] goes on to
      [create_record]; when the record can be built, the request that
      submits this key is sent.
    - Two rows of one run that resolve to the same new key are both
      reported as a success and both submitted: two requests submit the
      key. *)
Theorem duplicates_are_checked_against_pre_run_keys (env : environment)
        (did endpoint : string) (session : json) (used_keys : list json) :
  (forall records data st,
      used_keys_of records = Ok used_keys ->
      main env did endpoint session records data st
      = bind (process_rows env did endpoint session used_keys data)
             (fun _ => write_report) st)
  /\ (forall k, key_in k used_keys = true <-> In (JStr k) used_keys)
  /\ (forall r st st1 count title author k,
         row_get r "Read Count" = Ok count ->
         valid_read_count count = Ok true ->
         row_get r "Title" = Ok title ->
         row_get r "Author" = Ok author ->
         retrieve_key env r st = (Ok (Some k), st1) ->
         PyStr.is_empty k = false ->
         (key_in k used_keys = true ->
          process_row env did endpoint session used_keys r st
          = (Ok tt, reported st1 (annotate r "Skipped: Already had a record"))
          /\ exists l, sent st1 = (sent st ++ l)%list
                       /\ Forall (fun rq => meth rq = GET) l)
         /\ (key_in k used_keys = false ->
             process_row env did endpoint session used_keys r st
             = create_record env did endpoint session (annotate r "Success") k
                 (reported st1 (annotate r "Success"))
             /\ forall token record,
                 build_record (timestamp_of (utc_now_iso env (sent st1)))
                              (annotate r "Success") k = Ok record ->
                 Py.get session "accessJwt" = Ok token ->
                 exists x st2,
                   process_row env did endpoint session used_keys r st = (x, st2)
                   /\ sent st2
                      = (sent st1 ++ [create_request did endpoint token record])%list
                   /\ submits k (create_request did endpoint token record) = true))
  /\ (forall r1 r2 st st1 st2 st3 st4 count1 title1 author1
             count2 title2 author2 k,
         row_get r1 "Read Count" = Ok count1 ->
         valid_read_count count1 = Ok true ->
         row_get r1 "Title" = Ok title1 ->
         row_get r1 "Author" = Ok author1 ->
         row_get r2 "Read Count" = Ok count2 ->
         valid_read_count count2 = Ok true ->
         row_get r2 "Title" = Ok title2 ->
         row_get r2 "Author" = Ok author2 ->
         PyStr.is_empty k = false ->
         key_in k used_keys = false ->
         retrieve_key env r1 st = (Ok (Some k), st1) ->
         create_record env did endpoint session (annotate r1 "Success") k
           (reported st1 (annotate r1 "Success")) = (Ok tt, st2) ->
         retrieve_key env r2 st2 = (Ok (Some k), st3) ->
         create_record env did endpoint session (annotate r2 "Success") k
           (reported st3 (annotate r2 "Success")) = (Ok tt, st4) ->
         process_rows env did endpoint session used_keys [r1; r2] st
         = (Ok tt, st4)
         /\ results st4
            = (results st ++ [annotate r1 "Success"; annotate r2 "Success"])%list
         /\ exists l, sent st4 = (sent st ++ l)%list
                      /\ List.length (filter (submits k) l) = 2%nat).
Proof.
  split; [|split; [intros k; apply key_in_iff|split]].
  - intros records data st H. unfold main.
    rewrite (bind_lift_ok _ _ _ _ H). reflexivity.
  - intros r st st1 count title author k Hc Hv Ht Ha Hkey Hk.
    pose proof (process_row_resolved env did endpoint session used_keys
                  _ _ _ _ _ _ _ Hc Hv Ht Ha Hkey Hk) as Hrun.
    split; intros Hin; rewrite Hin in Hrun.
    + split; [exact Hrun|].
      destruct (retrieve_key_sends_gets _ _ _ _ _ Hkey) as (l & Hl & Fl & _).
      eauto.
    + split; [exact Hrun|]. intros token record Hrec Htok.
      rewrite (create_record_run env did endpoint session _ k
                 (reported st1 (annotate r "Success")) _ _ Hrec Htok) in Hrun.
      do 2 eexists. split; [exact Hrun|]. split; [reflexivity|].
      exact (submits_built_record _ _ _ _ _ _ _ Hrec).
  - intros r1 r2 st st1 st2 st3 st4 c1 t1 a1 c2 t2 a2 k
           Hc1 Hv1 Ht1 Ha1 Hc2 Hv2 Ht2 Ha2 Hk Hnew Hkey1 Hcr1 Hkey2 Hcr2.
    pose proof (process_row_resolved env did endpoint session used_keys
                  _ _ _ _ _ _ _ Hc1 Hv1 Ht1 Ha1 Hkey1 Hk) as Hrun1.
    pose proof (process_row_resolved env did endpoint session used_keys
                  _ _ _ _ _ _ _ Hc2 Hv2 Ht2 Ha2 Hkey2 Hk) as Hrun2.
    rewrite Hnew in Hrun1, Hrun2.
    rewrite Hcr1 in Hrun1. rewrite Hcr2 in Hrun2.
    split.
    { rewrite (process_rows_cons _ _ _ _ _ _ _ _ _ Hrun1).
      rewrite (process_rows_cons _ _ _ _ _ _ _ _ _ Hrun2). reflexivity. }
    destruct (retrieve_key_sends_gets _ _ _ _ _ Hkey1) as (l1 & S1 & F1 & R1 & _).
    destruct (retrieve_key_sends_gets _ _ _ _ _ Hkey2) as (l3 & S3 & F3 & R3 & _).
    destruct (create_record_ok_inv _ _ _ _ _ _ _ _ Hcr1)
      as (tok1 & rec1 & B1 & _ & ->).
    destruct (create_record_ok_inv _ _ _ _ _ _ _ _ Hcr2)
      as (tok2 & rec2 & B2 & _ & ->).
    cbn [after reported sent results] in *.
    split.
    + rewrite R3, R1, <- app_assoc. reflexivity.
    + exists (l1 ++ [create_request did endpoint tok1 rec1]
                 ++ l3 ++ [create_request did endpoint tok2 rec2])%list.
      split.
      * rewrite S3, S1, <- !app_assoc. reflexivity.
      * rewrite !filter_app, (no_submission_among_gets _ _ F1),
          (no_submission_among_gets _ _ F3).
        cbn [filter app].
        rewrite (submits_built_record _ _ _ _ _ _ _ B1),
          (submits_built_record _ _ _ _ _ _ _ B2).
        reflexivity.
Qed.

(** The duplicate check on the used keys holding OL123M: a row resolving to
    OL123M is skipped, one resolving to OL456M is submitted, and two rows
    resolving to OL456M are both submitted. *)
Lemma duplicate_check_witness :
  process_row (Sample.scripted [Body (Sample.found "/books/OL123M")])
    Sample.did Sample.endpoint Sample.session [JStr "OL123M"] Sample.dune initial
  = (Ok tt,
     reported
       (snd (retrieve_key (Sample.scripted [Body (Sample.found "/books/OL123M")])
                          Sample.dune initial))
       (annotate Sample.dune "Skipped: Already had a record"))
  /\ (exists x st2,
         process_row Sample.twice_found Sample.did Sample.endpoint Sample.session
                     [JStr "OL123M"] Sample.dune initial = (x, st2)
         /\ sent st2
            = (sent (snd (retrieve_key Sample.twice_found Sample.dune initial))
                 ++ [create_request Sample.did Sample.endpoint (JStr "token")
                       (Sample.record_of "2024-01-02T03:04:05.123Z"
                          (annotate Sample.dune "Success") "OL456M")])%list
         /\ submits "OL456M"
              (create_request Sample.did Sample.endpoint (JStr "token")
                 (Sample.record_of "2024-01-02T03:04:05.123Z"
                    (annotate Sample.dune "Success") "OL456M")) = true)
  /\ (process_rows Sample.twice_found Sample.did Sample.endpoint Sample.session
                   [JStr "OL123M"] [Sample.dune; Sample.dune] initial
      = (Ok tt,
         snd (process_rows Sample.twice_found Sample.did Sample.endpoint Sample.session
                           [JStr "OL123M"] [Sample.dune; Sample.dune] initial))
      /\ results
           (snd (process_rows Sample.twice_found Sample.did Sample.endpoint
                              Sample.session [JStr "OL123M"]
                              [Sample.dune; Sample.dune] initial))
         = (results initial
              ++ [annotate Sample.dune "Success"; annotate Sample.dune "Success"])%list
      /\ exists l,
          sent (snd (process_rows Sample.twice_found Sample.did Sample.endpoint
                                  Sample.session [JStr "OL123M"]
                                  [Sample.dune; Sample.dune] initial))
          = (sent initial ++ l)%list
          /\ List.length (filter (submits "OL456M") l) = 2%nat).
Proof.
  split; [|split].
  - destruct (duplicates_are_checked_against_pre_run_keys
                (Sample.scripted [Body (Sample.found "/books/OL123M")])
                Sample.did Sample.endpoint Sample.session [JStr "OL123M"])
      as (_ & _ & H & _).
    refine (proj1 (proj1 (H Sample.dune initial _ (Some "1")
                            (Some "Dune (Deluxe Edition)")
                            (Some "Frank Herbert") "OL123M" _ _ _ _ _ _) _));
      reflexivity.
  - destruct (duplicates_are_checked_against_pre_run_keys
                Sample.twice_found Sample.did Sample.endpoint Sample.session
                [JStr "OL123M"]) as (_ & _ & H & _).
    refine (proj2 (proj2 (H Sample.dune initial _ (Some "1")
                            (Some "Dune (Deluxe Edition)")
                            (Some "Frank Herbert") "OL456M" _ _ _ _ _ _) _)
                  (JStr "token") _ _ _);
      reflexivity.
  - destruct (duplicates_are_checked_against_pre_run_keys
                Sample.twice_found Sample.did Sample.endpoint Sample.session
                [JStr "OL123M"]) as (_ & _ & _ & H).
    refine (H Sample.dune Sample.dune initial
              (snd (retrieve_key Sample.twice_found Sample.dune initial))
              (snd (process_rows Sample.twice_found Sample.did Sample.endpoint
                                 Sample.session [JStr "OL123M"] [Sample.dune]
                                 initial))
              _ _
              (Some "1") (Some "Dune (Deluxe Edition)") (Some "Frank Herbert")
              (Some "1") (Some "Dune (Deluxe Edition)") (Some "Frank Herbert")
              "OL456M"
              _ _ _ _ _ _ _ _ _ _ _ _ _ _);
      reflexivity.
Defined.


(** C3 (amended). For every row from which a record is built, the stored
    rating is twice the integer in the My Rating cell, and 1 when that is
    below 1; the source ratings 0, 1, 2, 3, 4, 5 are stored as
    1, 2, 4, 6, 8, 10. *)
Theorem stored_rating_doubles_floored_at_one (timestamp : string) (r : row)
        (k : string) (record : json) :
  build_record timestamp r k = Ok record ->
  exists my_rating n,
    row_get r "My Rating" = Ok my_rating /\
    py_int my_rating = Ok n /\
    safe_get record [KStr "rating"; KStr "value"] = Ok (JInt (stored_rating n)) /\
    stored_rating n = Z.max 1 (2 * n) /\
    (n <= 0 -> stored_rating n = 1) /\
    (1 <= n -> stored_rating n = 2 * n) /\
    map stored_rating [0; 1; 2; 3; 4; 5] = [1; 2; 4; 6; 8; 10].
Proof.
  intros H.
  destruct (build_record_inv _ _ _ _ H)
    as (my_rating & n & date_read & finish & review & read_count & count
        & Hr & Hn & _ & _ & _ & _ & _ & ->).
  exists my_rating, n. pose proof (stored_rating_max n) as Hmax.
  repeat split; auto; try lia.
Qed.

(** The rating of the sample row, 4, is stored as 8. *)
Lemma stored_rating_witness :
  exists my_rating n,
    row_get Sample.dune "My Rating" = Ok my_rating /\
    py_int my_rating = Ok n /\
    safe_get (Sample.record_of Sample.clock Sample.dune "OL999M")
             [KStr "rating"; KStr "value"] = Ok (JInt (stored_rating n)) /\
    stored_rating n = Z.max 1 (2 * n) /\
    (n <= 0 -> stored_rating n = 1) /\
    (1 <= n -> stored_rating n = 2 * n) /\
    map stored_rating [0; 1; 2; 3; 4; 5] = [1; 2; 4; 6; 8; 10].
Proof.
  apply (stored_rating_doubles_floored_at_one Sample.clock Sample.dune "OL999M").
  reflexivity.
Defined.

(** C3 as stated lists five stored ratings, 1, 4, 6, 8, 10, for the six
    source ratings: a source rating of 1 is stored as 2, which is neither
    the second entry of that list nor any entry of it. *)
Lemma rating_table_as_stated_fails :
  build_record Sample.clock
    (Sample.book EmptyString EmptyString "Dune" "Frank Herbert" "1" "1"
                 "2021/06/15") "OL999M"
  = Ok (Sample.record_of Sample.clock
          (Sample.book EmptyString EmptyString "Dune" "Frank Herbert" "1" "1"
                       "2021/06/15") "OL999M")
  /\ safe_get (Sample.record_of Sample.clock
                 (Sample.book EmptyString EmptyString "Dune" "Frank Herbert"
                              "1" "1" "2021/06/15") "OL999M")
              [KStr "rating"; KStr "value"] = Ok (JInt 2)
  /\ nth 1 [1; 4; 6; 8; 10] 0 = 4
  /\ ~ In 2 [1; 4; 6; 8; 10].
Proof.
  repeat split; try reflexivity.
  simpl. intros [H|[H|[H|[H|[H|[]]]]]]; discriminate H.
Qed.


(** C4 (amended). For every row that passes read-count validation and from
    which a record is built, the Read Count cell parses as an integer n, and
    the finishedAt list is the finish value repeated max(n, 0) times, so
    exactly n times when n is at least 1.  Validation only rejects the empty
    cell, the cell 0 and cells that are no integer, so n is at least 1 when
    the cell starts with one of the digits 1 to 9, and not in general.  The
    finish value comes from Date Read, or from Date Added when Date Read is
    empty; when both are empty it is the creation timestamp, and a date
    YYYY/MM/DD becomes YYYY-MM-DDT00:00:00.000Z. *)
Theorem finished_at_repeats_finish_date (timestamp : string) (r : row)
        (k : string) (read_count : cell) (record : json) :
  row_get r "Read Count" = Ok read_count ->
  valid_read_count read_count = Ok true ->
  build_record timestamp r k = Ok record ->
  exists text n date_read finish,
    read_count = Some text /\
    py_int read_count = Ok n /\
    (starts_with_nonzero_digit text = true -> 1 <= n) /\
    row_get r "Date Read" = Ok date_read /\
    (if Row.truthy date_read then Ok date_read
     else row_get r "Date Added") = Ok finish /\
    safe_get record [KStr "finishedAt"]
    = Ok (JList (repeat (JStr (finish_date_of timestamp finish)) (Z.to_nat n))) /\
    (1 <= n ->
     Z.of_nat (List.length (repeat (JStr (finish_date_of timestamp finish))
                                   (Z.to_nat n))) = n) /\
    (Row.truthy finish = false -> finish_date_of timestamp finish = timestamp) /\
    (forall date,
        finish = Some date -> date_only date = true ->
        finish_date_of timestamp finish = midnight_of date).
Proof.
  intros Hcount Hvalid H.
  destruct (build_record_inv _ _ _ _ H)
    as (my_rating & m & date_read & finish & review & rc & n
        & _ & _ & Hd & Hf & _ & Hrc & Hn & ->).
  rewrite Hcount in Hrc. injection Hrc as <-.
  destruct (valid_read_count_is_text _ _ Hvalid) as [text ->].
  exists text, n, date_read, finish. repeat split; auto.
  - intros Hs. cbn [py_int] in Hn.
    destruct (PyStr.int text) as [n'|] eqn:E; [|discriminate].
    injection Hn as <-. exact (int_of_nonzero_start _ _ Hs E).
  - intros Hn1. rewrite repeat_length. lia.
  - destruct finish as [[|c date]|]; [reflexivity|discriminate|reflexivity].
  - intros date -> Hdate. apply date_only_rewritten, Hdate.
Qed.

(** A read count of 3 with the finish date 2020/05/01 gives three entries
    2020-05-01T00:00:00.000Z. *)
Lemma finished_at_witness :
  exists text n date_read finish,
    Some "3" = Some text /\
    py_int (Some "3") = Ok n /\
    (starts_with_nonzero_digit text = true -> 1 <= n) /\
    row_get Sample.dune_isbn "Date Read" = Ok date_read /\
    (if Row.truthy date_read then Ok date_read
     else row_get Sample.dune_isbn "Date Added") = Ok finish /\
    safe_get (Sample.record_of Sample.clock Sample.dune_isbn "OL1M")
             [KStr "finishedAt"]
    = Ok (JList (repeat (JStr (finish_date_of Sample.clock finish)) (Z.to_nat n))) /\
    (1 <= n ->
     Z.of_nat (List.length (repeat (JStr (finish_date_of Sample.clock finish))
                                   (Z.to_nat n))) = n) /\
    (Row.truthy finish = false -> finish_date_of Sample.clock finish = Sample.clock) /\
    (forall date,
        finish = Some date -> date_only date = true ->
        finish_date_of Sample.clock finish = midnight_of date).
Proof.
  apply (finished_at_repeats_finish_date Sample.clock Sample.dune_isbn "OL1M"
           (Some "3"));
    reflexivity.
Defined.

(** C4 as stated fails: the cells -1 and 00 pass validation and parse as -1
    and 0, and the record built for a read count of -1 has an empty
    finishedAt list. *)
Lemma negative_read_count_passes_validation :
  valid_read_count (Some "-1") = Ok true
  /\ py_int (Some "-1") = Ok (-1)
  /\ valid_read_count (Some "00") = Ok true
  /\ py_int (Some "00") = Ok 0
  /\ safe_get (Sample.record_of Sample.clock
                 (Sample.book EmptyString EmptyString "Dune" "Frank Herbert"
                              "4" "-1" "2020/05/01") "OL1M")
              [KStr "finishedAt"] = Ok (JList []).
Proof. repeat split; reflexivity. Qed.










(** C7 (amended). A transport failure is absorbed where the request is
    made, and the loop runs to the end unless a row or an answer is one on
    which the code raises.
    - A failed request, GET or POST, gives [None] from [safe_request],
      never an exception.
    - A failed lookup or search leads on to the next strategy: when the
      requests of a row's resolution fail, the two lookups and the two
      searches are all sent, in this order, and the row ends without a
      key.
    - [create_record] returns normally when its request fails.
    - Whatever requests fail and whatever the catalog finds, the loop ends
      normally with every row reported, in order, provided that every row
      is readable (it has the columns the loop reads, strings in Read
      Count, ISBN13, ISBN and Title, and an integer in My Rating if its
      read count is valid), that every answer can be digested (an answer
      is no response, a falsy body, or an object: for a GET one in which
      [safe_get] can follow the path to the edition key, for a POST one
      with a string under uri), and that the session is an object. *)
Theorem transport_failures_are_absorbed (env : environment) :
  (forall url params auth st,
      respond env (sent st) (mkRequest GET url params None auth None) = Failed ->
      safe_request env "get" url params None auth None st
      = (Ok JNull, after st (mkRequest GET url params None auth None)))
  /\ (forall url json_body auth data st,
         respond env (sent st) (mkRequest POST url None json_body auth data)
         = Failed ->
         safe_request env "post" url None json_body auth data st
         = (Ok JNull, after st (mkRequest POST url None json_body auth data)))
  /\ (forall r st isbn13 isbn strict,
         row_get r "ISBN13" = Ok (Some isbn13) ->
         row_get r "ISBN" = Ok (Some isbn) ->
         strict_params r = Ok strict ->
         (forall history rq,
             In rq (isbn_requests isbn13 ++ isbn_requests isbn
                      ++ [search_request strict;
                          search_request (loose_params strict)]) ->
             respond env history rq = Failed) ->
         retrieve_key env r st
         = (Ok None,
            after_all st (isbn_requests isbn13 ++ isbn_requests isbn
                            ++ [search_request strict;
                                search_request (loose_params strict)])))
  /\ (forall did endpoint session r k st token record,
         build_record (timestamp_of (utc_now_iso env (sent st))) r k = Ok record ->
         Py.get session "accessJwt" = Ok token ->
         respond env (sent st) (create_request did endpoint token record)
         = Failed ->
         create_record env did endpoint session r k st
         = (Ok tt, after st (create_request did endpoint token record)))
  /\ (orderly env ->
      forall did endpoint session used_keys rows st,
        Forall readable rows ->
        exists st' outcomes,
          process_rows env did endpoint (JDict session) used_keys rows st
          = (Ok tt, st')
          /\ results st' = (results st ++ annotated rows outcomes)%list
          /\ List.length outcomes = List.length rows
          /\ Forall (fun o => In o outcome_texts) outcomes).
Proof.
  split; [|split; [|split; [|split]]].
  - intros url params auth st Hfail.
    change (safe_request env "get" url params None auth None st)
      with (receive (respond env (sent st)
                       (mkRequest GET url params None auth None))
              (after st (mkRequest GET url params None auth None))).
    rewrite Hfail. reflexivity.
  - intros url json_body auth data st Hfail.
    change (safe_request env "post" url None json_body auth data st)
      with (receive (respond env (sent st)
                       (mkRequest POST url None json_body auth data))
              (after st (mkRequest POST url None json_body auth data))).
    rewrite Hfail. reflexivity.
  - intros r st isbn13 isbn strict H13 H10 Hstrict Hfail.
    assert (Hpass : forall history text,
               incl (isbn_requests text)
                    (isbn_requests isbn13 ++ isbn_requests isbn
                       ++ [search_request strict;
                           search_request (loose_params strict)]) ->
               isbn_passes env history text).
    { intros history text Hin. unfold isbn_passes.
      destruct (PyStr.is_empty (clean_isbn text)) eqn:E; [left; reflexivity|].
      right. left. apply Hfail, Hin. unfold isbn_requests. rewrite E.
      left. reflexivity. }
    apply (retrieve_key_unresolved env r isbn13 isbn strict st H13 H10).
    + apply Hpass. apply incl_appl, incl_refl.
    + apply Hpass. apply incl_appr, incl_appl, incl_refl.
    + exact Hstrict.
    + left. apply Hfail. rewrite !in_app_iff. right. right. left. reflexivity.
    + left. apply Hfail. rewrite !in_app_iff. right. right. right. left.
      reflexivity.
  - intros did endpoint session r k st token record Hrec Htok Hfail.
    rewrite (create_record_run _ _ _ _ _ _ _ _ _ Hrec Htok), Hfail.
    reflexivity.
  - intros Hanswers did endpoint session used_keys rows st Hrows.
    destruct (process_rows_never_raise env Hanswers did endpoint session
                used_keys rows Hrows st) as [st' Hrun].
    destruct (process_rows_appends_in_order _ _ _ _ _ _ _ _ _ Hrun)
      as (outcomes & R & F & _ & L & _).
    exists st', outcomes. auto.
Qed.

(** Failures and answers in one run: on a network that fails the first
    three requests and answers the later ones, the first row ends without
    a key after two failed searches, the second is resolved by the strict
    search after its lookup has failed and its record is created, and the
    third is excluded; none raises.  Without any network the resolution of
    a row with both ISBN cells sends its four requests, and a failed
    creation returns normally. *)
Lemma transport_failures_witness :
  (exists st' outcomes,
      process_rows Sample.recovering Sample.did Sample.endpoint Sample.session
                   [] [Sample.dune; Sample.dune_isbn; Sample.unread] initial
      = (Ok tt, st')
      /\ results st'
         = (results initial
              ++ annotated [Sample.dune; Sample.dune_isbn; Sample.unread]
                           outcomes)%list
      /\ List.length outcomes
         = List.length [Sample.dune; Sample.dune_isbn; Sample.unread]
      /\ Forall (fun o => In o outcome_texts) outcomes)
  /\ results
       (snd (process_rows Sample.recovering Sample.did Sample.endpoint
               Sample.session []
               [Sample.dune; Sample.dune_isbn; Sample.unread] initial))
     = [annotate Sample.dune "Failure: No open library key found";
        annotate Sample.dune_isbn "Success";
        annotate Sample.unread "Excluded: Read count invalid"]
  /\ retrieve_key Sample.offline Sample.dune_both initial
     = (Ok None,
        after_all initial
          [isbn_request "9780441172719"; isbn_request "0441172717";
           search_request
             [("title", "Dune"); ("author", "Frank Herbert");
              ("id_goodreads", "42"); ("publisher", "Ace");
              ("publish_year", "1990"); ("first_publish_year", "1965");
              ("q", "language:eng"); ("fields", "key,editions,editions.key")];
           search_request
             [("title", "Dune"); ("author", "Frank Herbert");
              ("q", "language:eng"); ("fields", "key,editions,editions.key")]])
  /\ create_record (Sample.scripted []) Sample.did Sample.endpoint
                   Sample.session Sample.dune "OL999M" initial
     = (Ok tt,
        after initial
          (create_request Sample.did Sample.endpoint (JStr "token")
             (Sample.record_of "2024-01-02T03:04:05.123Z" Sample.dune "OL999M"))).
Proof.
  split; [|split; [reflexivity|split]].
  - destruct (transport_failures_are_absorbed Sample.recovering)
      as (_ & _ & _ & _ & Hb).
    apply (Hb ltac:(
             intros history rq; unfold Sample.recovering; cbn [respond];
             destruct (List.length history <? 3)%nat;
             [split; intros _; exact I|];
             split; intros Hm; rewrite Hm;
             right; do 2 eexists; split; reflexivity)
             Sample.did Sample.endpoint [("accessJwt", JStr "token")] []
             [Sample.dune; Sample.dune_isbn; Sample.unread] initial).
    repeat constructor;
      try (intros count [= <-]; first [discriminate
                                      | intros _; do 2 eexists; split; reflexivity]).
  - destruct (transport_failures_are_absorbed Sample.offline)
      as (_ & _ & Hr & _).
    refine (Hr Sample.dune_both initial "=9780441172719" "=0441172717" _
               eq_refl eq_refl eq_refl _).
    intros history rq _. unfold Sample.offline, Sample.scripted. cbn [respond].
    destruct (List.length history); reflexivity.
  - destruct (transport_failures_are_absorbed (Sample.scripted []))
      as (_ & _ & _ & Hc & _).
    apply Hc; reflexivity.
Defined.

(** C7 as stated fails: the loop stops with an exception, and leaves the
    later rows unprocessed, on a My Rating cell that is no integer, on a
    lookup response that is a JSON list, on a response whose body is not
    JSON, and on the row of a line cut short before its Read Count. *)
Lemma batch_aborts_on_bad_rating_or_body :
  process_rows (Sample.scripted [Body (Sample.found "/books/OL1M")])
               Sample.did Sample.endpoint Sample.session []
               [Sample.unrated; Sample.dune] initial
  = (Raise ValueError,
     reported
       (after initial
          (search_request
             [("title", "Dune"); ("author", "Frank Herbert");
              ("id_goodreads", "42"); ("publisher", "Ace");
              ("publish_year", "1990"); ("first_publish_year", "1965");
              ("q", "language:eng"); ("fields", "key,editions,editions.key")]))
       (annotate Sample.unrated "Success"))
  /\ fst (process_rows (Sample.scripted [Body (JList [JInt 1])])
                       Sample.did Sample.endpoint Sample.session []
                       [Sample.dune_isbn; Sample.dune] initial)
     = Raise AttributeError
  /\ fst (process_rows (Sample.scripted [Undecodable])
                       Sample.did Sample.endpoint Sample.session []
                       [Sample.dune; Sample.dune] initial)
     = Raise JSONDecodeError
  /\ List.length
       (results (snd (process_rows (Sample.scripted [Undecodable])
                        Sample.did Sample.endpoint Sample.session []
                        [Sample.dune; Sample.dune] initial))) = 0%nat
  /\ process_rows Sample.offline Sample.did Sample.endpoint Sample.session []
                  [Sample.cut_short; Sample.dune] initial
     = (Raise TypeError, initial).
Proof. repeat split; reflexivity. Qed.


(** C8. [safe_get] is not total: an integer key below minus the length of a
    list raises IndexError, and a string key that meets a list raises
    TypeError, also along the two paths the script itself uses, where the
    exception leaves [retrieve_key] and the computation of the used
    keys. *)
Theorem safe_get_raises_on_mismatched_step :
  safe_get (JList [JInt 1; JInt 2]) [KInt (-5)] = Raise IndexError
  /\ safe_get (JList [JInt 1; JInt 2]) [KStr "key"] = Raise TypeError
  /\ safe_get (JDict [("num_found", JInt 1); ("docs", JList [JList [JStr "x"]])])
              edition_path = Raise TypeError
  /\ safe_get (JDict [("value", JList [JStr "x"])])
              [KStr "value"; KStr "item"; KStr "value"] = Raise TypeError
  /\ fst (retrieve_key
            (Sample.scripted
               [Body (JDict [("num_found", JInt 1);
                             ("docs", JList [JList [JStr "x"]])])])
            Sample.dune initial) = Raise TypeError
  /\ used_keys_of [JDict [("value", JList [JStr "x"])]] = Raise TypeError.
Proof. repeat split; reflexivity. Qed.


(** C9. With no rows, writing the report raises IndexError when it reads
    the field names off the first result, after the file has been opened
    and truncated; [main] on an empty batch ends that way whenever the
    used keys could be computed. *)
Theorem report_of_empty_batch_raises (env : environment)
        (did endpoint : string) (session : json) :
  (forall log file,
      write_report (mkState log [] file)
      = (Raise IndexError, mkState log [] (Some [])))
  /\ (forall records,
         main env did endpoint session records [] initial
         = match used_keys_of records with
           | Ok _ => (Raise IndexError, mkState [] [] (Some []))
           | Raise e => (Raise e, initial)
           end).
Proof.
  split; [reflexivity|]. intros records. unfold main, bind, lift.
  destruct (used_keys_of records); reflexivity.
Qed.


(** C10. For a row whose key is new, the row is annotated Success and
    appended to the results before [create_record] runs; whatever
    [create_record] then does, a failed request included, the results end
    with that Success row, and a failed request still lets the row finish
    normally. *)
Theorem success_is_reported_before_creation (env : environment)
        (did endpoint : string) (session : json) (used_keys : list json)
        (r : row) (st st1 : state) (count title author : cell) (k : string) :
  row_get r "Read Count" = Ok count ->
  valid_read_count count = Ok true ->
  row_get r "Title" = Ok title ->
  row_get r "Author" = Ok author ->
  retrieve_key env r st = (Ok (Some k), st1) ->
  PyStr.is_empty k = false ->
  key_in k used_keys = false ->
  process_row env did endpoint session used_keys r st
  = create_record env did endpoint session (annotate r "Success") k
      (reported st1 (annotate r "Success"))
  /\ results (reported st1 (annotate r "Success"))
     = (results st ++ [annotate r "Success"])%list
  /\ row_get (annotate r "Success") "Import Result" = Ok (Some "Success")
  /\ (forall x st2,
         process_row env did endpoint session used_keys r st = (x, st2) ->
         results st2 = (results st ++ [annotate r "Success"])%list)
  /\ (forall token record,
         build_record (timestamp_of (utc_now_iso env (sent st1)))
                      (annotate r "Success") k = Ok record ->
         Py.get session "accessJwt" = Ok token ->
         respond env (sent st1) (create_request did endpoint token record)
         = Failed ->
         process_row env did endpoint session used_keys r st
         = (Ok tt,
            after (reported st1 (annotate r "Success"))
                  (create_request did endpoint token record))).
Proof.
  intros Hc Hv Ht Ha Hkey Hk Hnew.
  pose proof (process_row_resolved env did endpoint session used_keys
                _ _ _ _ _ _ _ Hc Hv Ht Ha Hkey Hk) as Hrun.
  rewrite Hnew in Hrun.
  destruct (retrieve_key_sends_gets _ _ _ _ _ Hkey) as (l & _ & _ & R1 & _).
  split; [exact Hrun|]. split; [cbn [reported results]; rewrite R1; reflexivity|].
  split; [apply annotation_is_read_back|]. split.
  - intros x st2 H. rewrite Hrun in H.
    destruct (create_record_sends_posts _ _ _ _ _ _ _ _ _ H)
      as (l2 & _ & _ & R2 & _).
    rewrite R2. cbn [reported results]. rewrite R1. reflexivity.
  - intros token record Hrec Htok Hfail. rewrite Hrun.
    rewrite (create_record_run env did endpoint session _ k
               (reported st1 (annotate r "Success")) _ _ Hrec Htok).
    cbn [reported sent]. rewrite Hfail. reflexivity.
Qed.

(** A row with a new key whose record-creation request fails is still
    reported as a success. *)
Lemma success_reported_witness :
  process_row (Sample.scripted [Body (Sample.found "/books/OL456M")])
    Sample.did Sample.endpoint Sample.session [JStr "OL123M"] Sample.dune initial
  = (Ok tt,
     after
       (reported
          (snd (retrieve_key (Sample.scripted [Body (Sample.found "/books/OL456M")])
                             Sample.dune initial))
          (annotate Sample.dune "Success"))
       (create_request Sample.did Sample.endpoint (JStr "token")
          (Sample.record_of "2024-01-02T03:04:05.123Z"
             (annotate Sample.dune "Success") "OL456M"))).
Proof.
  refine (proj2 (proj2 (proj2 (proj2
            (success_is_reported_before_creation
               (Sample.scripted [Body (Sample.found "/books/OL456M")])
               Sample.did Sample.endpoint Sample.session [JStr "OL123M"]
               Sample.dune initial _ (Some "1") (Some "Dune (Deluxe Edition)")
               (Some "Frank Herbert") "OL456M" _ _ _ _ _ _ _))))
            (JStr "token") _ _ _ _);
    reflexivity.
Defined.


(** * Further properties of the code *)
(** ** [safe_get], further *)

Lemma safe_get_null (keys : list key) : safe_get JNull keys = Ok JNull.
Proof. destruct keys; reflexivity. Qed.

Lemma safe_get_scalar (obj : json) (k : key) (rest : list key) :
  is_scalar obj = true -> safe_get obj (k :: rest) = Ok JNull.
Proof. destruct obj; try discriminate; reflexivity. Qed.

Lemma index_in_range (l : list json) (i : Z) :
  0 <= i < Z.of_nat (List.length l) ->
  Py.index l i = Ok (nth (Z.to_nat i) l JNull).
Proof.
  intros H. unfold Py.index.
  destruct (Z.ltb_spec i 0); [lia|].
  destruct (Z.leb_spec 0 i); [|lia].
  destruct (Z.ltb_spec i (Z.of_nat (List.length l))); [|lia].
  cbn [andb].
  destruct (nth_error l (Z.to_nat i)) as [v|] eqn:E.
  - rewrite (nth_error_nth _ _ _ E). reflexivity.
  - apply nth_error_None in E. lia.
Qed.

Lemma index_from_the_end (l : list json) (i : Z) :
  - Z.of_nat (List.length l) <= i < 0 ->
  Py.index l i = Ok (nth (Z.to_nat (Z.of_nat (List.length l) + i)) l JNull).
Proof.
  intros H. unfold Py.index.
  destruct (Z.ltb_spec i 0); [|lia].
  destruct (Z.leb_spec 0 (Z.of_nat (List.length l) + i)); [|lia].
  destruct (Z.ltb_spec (Z.of_nat (List.length l) + i)
                       (Z.of_nat (List.length l))); [|lia].
  cbn [andb].
  destruct (nth_error l (Z.to_nat (Z.of_nat (List.length l) + i)))
    as [v|] eqn:E.
  - rewrite (nth_error_nth _ _ _ E). reflexivity.
  - apply nth_error_None in E. lia.
Qed.

Lemma index_raises_below (l : list json) (i : Z) (e : exn) :
  Py.index l i = Raise e -> i < Z.of_nat (List.length l) ->
  e = IndexError /\ i < - Z.of_nat (List.length l).
Proof.
  intros H Hlt.
  destruct (Z.lt_ge_cases i 0) as [Hneg|Hpos].
  - destruct (Z.lt_ge_cases i (- Z.of_nat (List.length l))) as [Hlow|Hin].
    + split; [|exact Hlow]. unfold Py.index in H.
      destruct (Z.ltb_spec i 0); [|lia].
      destruct (Z.leb_spec 0 (Z.of_nat (List.length l) + i)); [lia|].
      cbn [andb] in H. injection H as <-. reflexivity.
    + rewrite index_from_the_end in H by lia. discriminate H.
  - rewrite index_in_range in H by lia. discriminate H.
Qed.

(** X1. Following a path in two stages is following it in one: the second
    part starts from what the first part reached, and an exception of the
    first part is the exception of the whole. *)
Theorem safe_get_follows_path_in_stages (obj : json) (p q : list key) :
  safe_get obj (p ++ q)
  = match safe_get obj p with
    | Ok v => safe_get v q
    | Raise e => Raise e
    end.
Proof.
  revert obj. induction p as [|k p IH]; intros obj; [reflexivity|].
  cbn [app safe_get].
  destruct obj; try (rewrite safe_get_null; reflexivity).
  - destruct k as [s|i]; [reflexivity|].
    destruct (i <? Z.of_nat (List.length l));
      [|rewrite safe_get_null; reflexivity].
    destruct (Py.index l i); [apply IH|reflexivity].
  - apply IH.
Qed.

(** X2. What is absent is [None], whatever the rest of the path asks for:
    a key the dict does not have, an integer key on a dict, an index at or
    past the end of a list, and any key on a value that is neither a dict
    nor a list.  A key whose value is null gives the same [None]. *)
Theorem safe_get_absent_step_gives_none (rest : list key) :
  (forall d k, Py.lookup d k = None ->
               safe_get (JDict d) (KStr k :: rest) = Ok JNull)
  /\ (forall d k, Py.lookup d k = Some JNull ->
                  safe_get (JDict d) (KStr k :: rest) = Ok JNull)
  /\ (forall d i, safe_get (JDict d) (KInt i :: rest) = Ok JNull)
  /\ (forall l i, Z.of_nat (List.length l) <= i ->
                  safe_get (JList l) (KInt i :: rest) = Ok JNull)
  /\ (forall obj k, is_scalar obj = true ->
                    safe_get obj (k :: rest) = Ok JNull).
Proof.
  repeat split.
  - intros d k H. cbn [safe_get Py.dict_get]. rewrite H. apply safe_get_null.
  - intros d k H. cbn [safe_get Py.dict_get]. rewrite H. apply safe_get_null.
  - intros d i. cbn [safe_get Py.dict_get]. apply safe_get_null.
  - intros l i H. cbn [safe_get].
    destruct (Z.ltb_spec i (Z.of_nat (List.length l))); [lia|reflexivity].
  - intros obj k H. apply safe_get_scalar, H.
Qed.

Lemma safe_get_absent_witness :
  safe_get (JDict [("title", JStr "Dune")]) [KStr "docs"; KInt 0] = Ok JNull
  /\ safe_get (JList [JInt 1]) [KInt 1; KStr "key"] = Ok JNull
  /\ safe_get (JInt 3) [KStr "value"; KStr "item"] = Ok JNull.
Proof.
  split; [|split].
  - exact (proj1 (safe_get_absent_step_gives_none [KInt 0])
                 [("title", JStr "Dune")] "docs" eq_refl).
  - destruct (safe_get_absent_step_gives_none [KStr "key"])
      as (_ & _ & _ & H & _).
    apply H. simpl. lia.
  - destruct (safe_get_absent_step_gives_none [KStr "item"])
      as (_ & _ & _ & _ & H).
    apply H. reflexivity.
Defined.

(** X3. A list step with an index in range returns the element, counting
    from the end when the index is negative, and goes on from there. *)
Theorem safe_get_list_step (l : list json) (i : Z) (rest : list key) :
  (0 <= i < Z.of_nat (List.length l) ->
   safe_get (JList l) (KInt i :: rest)
   = safe_get (nth (Z.to_nat i) l JNull) rest)
  /\ (- Z.of_nat (List.length l) <= i < 0 ->
      safe_get (JList l) (KInt i :: rest)
      = safe_get (nth (Z.to_nat (Z.of_nat (List.length l) + i)) l JNull) rest).
Proof.
  split; intros H; cbn [safe_get];
    destruct (Z.ltb_spec i (Z.of_nat (List.length l))); try lia.
  - rewrite index_in_range by lia. reflexivity.
  - rewrite index_from_the_end by lia. reflexivity.
Qed.

Lemma safe_get_list_step_witness :
  safe_get (JList [JStr "a"; JStr "b"]) [KInt 0] = Ok (JStr "a")
  /\ safe_get (JList [JStr "a"; JStr "b"]) [KInt (-1)] = Ok (JStr "b").
Proof.
  split.
  - destruct (safe_get_list_step [JStr "a"; JStr "b"] 0 []) as (H & _).
    apply H. simpl. lia.
  - destruct (safe_get_list_step [JStr "a"; JStr "b"] (-1) []) as (_ & H).
    apply H. simpl. lia.
Defined.

(** X4. [safe_get] raises nothing but IndexError and TypeError: IndexError
    only when the path holds a negative index, TypeError only when it holds
    a string key.  So a path of non-negative indices never raises, and a
    path without negative indices, like the two the script uses, can only
    raise TypeError. *)
Theorem safe_get_raises_only_on_these_keys (obj : json) (keys : list key)
        (e : exn) :
  safe_get obj keys = Raise e ->
  (e = IndexError /\ Exists is_negative_index keys)
  \/ (e = TypeError /\ Exists is_string_key keys).
Proof.
  revert obj. induction keys as [|k keys IH]; intros obj H; [discriminate H|].
  cbn [safe_get] in H.
  assert (Hrest : forall v, safe_get v keys = Raise e ->
            (e = IndexError /\ Exists is_negative_index (k :: keys))
            \/ (e = TypeError /\ Exists is_string_key (k :: keys))).
  { intros v Hv. destruct (IH _ Hv) as [[? ?]|[? ?]]; [left|right];
      split; auto. }
  destruct obj; try discriminate H.
  - destruct k as [s|i].
    + injection H as <-. right. split; [reflexivity|].
      constructor. exists s. reflexivity.
    + destruct (Z.ltb_spec i (Z.of_nat (List.length l))); [|discriminate H].
      destruct (Py.index l i) as [v|e'] eqn:E; [exact (Hrest _ H)|].
      injection H as <-.
      destruct (index_raises_below _ _ _ E) as [-> Hlow]; [lia|].
      left. split; [reflexivity|]. constructor. exists i. split; [reflexivity|].
      lia.
  - exact (Hrest _ H).
Qed.

Lemma safe_get_raise_witness :
  (IndexError = IndexError /\ Exists is_negative_index [KInt (-5)])
  \/ (IndexError = TypeError /\ Exists is_string_key [KInt (-5)]).
Proof.
  apply (safe_get_raises_only_on_these_keys (JList [JInt 1; JInt 2])
           [KInt (-5)] IndexError).
  reflexivity.
Defined.

(** ** Stripping *)

Lemma rstrip_by_keeps (p : ascii -> bool) (s : string) :
  all_chars (fun c => negb (p c)) s = true -> PyStr.rstrip_by p s = s.
Proof.
  induction s as [|c s IH]; cbn [all_chars PyStr.rstrip_by]; intros H;
    [reflexivity|].
  apply andb_prop in H as [Hc Hs]. apply negb_true_iff in Hc.
  rewrite (IH Hs), Hc. destruct s; reflexivity.
Qed.

Lemma rstrip_by_drops_last (p : ascii -> bool) (s : string) (d : ascii) :
  p d = true ->
  PyStr.rstrip_by p (s ++ String d EmptyString) = PyStr.rstrip_by p s.
Proof.
  intros Hd. induction s as [|c s IH]; cbn [append PyStr.rstrip_by].
  - rewrite Hd. reflexivity.
  - rewrite IH. reflexivity.
Qed.

Lemma rstrip_by_idempotent (p : ascii -> bool) (s : string) :
  PyStr.rstrip_by p (PyStr.rstrip_by p s) = PyStr.rstrip_by p s.
Proof.
  induction s as [|c s IH]; [reflexivity|]. cbn [PyStr.rstrip_by].
  destruct (PyStr.rstrip_by p s) as [|c' s'] eqn:E.
  - destruct (p c) eqn:Hc; [reflexivity|]. cbn [PyStr.rstrip_by].
    rewrite Hc. reflexivity.
  - cbn [PyStr.rstrip_by] in *. rewrite IH. reflexivity.
Qed.

Lemma rstrip_by_is_prefix (p : ascii -> bool) (s : string) :
  exists tail, s = PyStr.rstrip_by p s ++ tail.
Proof.
  induction s as [|c s [tail IH]]; [exists EmptyString; reflexivity|].
  cbn [PyStr.rstrip_by].
  destruct (PyStr.rstrip_by p s) as [|c' s'] eqn:E.
  - destruct (p c).
    + exists (String c s). reflexivity.
    + exists tail. cbn [append] in *. f_equal. exact IH.
  - exists tail. cbn [append] in *. f_equal. exact IH.
Qed.

Lemma lstrip_by_is_suffix (p : ascii -> bool) (s : string) :
  exists head, s = head ++ PyStr.lstrip_by p s.
Proof.
  induction s as [|c s [head IH]]; [exists EmptyString; reflexivity|].
  cbn [PyStr.lstrip_by]. destruct (p c).
  - exists (String c head). cbn [append]. rewrite <- IH. reflexivity.
  - exists EmptyString. reflexivity.
Qed.

Lemma lstrip_by_starts_clean (p : ascii -> bool) (s : string) :
  match PyStr.lstrip_by p s with
  | String c _ => p c = false
  | EmptyString => True
  end.
Proof.
  induction s as [|c s IH]; [exact I|]. cbn [PyStr.lstrip_by].
  destruct (p c) eqn:E; [exact IH|exact E].
Qed.

Lemma rstrip_by_keeps_start (p : ascii -> bool) (c : ascii) (s : string) :
  p c = false -> exists s', PyStr.rstrip_by p (String c s) = String c s'.
Proof.
  intros H. cbn [PyStr.rstrip_by].
  destruct (PyStr.rstrip_by p s); rewrite ?H; eauto.
Qed.

Lemma strip_idempotent (s : string) :
  PyStr.strip (PyStr.strip s) = PyStr.strip s.
Proof.
  unfold PyStr.strip.
  pose proof (lstrip_by_starts_clean PyStr.is_space s) as H.
  destruct (PyStr.lstrip_by PyStr.is_space s) as [|c t]; [reflexivity|].
  destruct (rstrip_by_keeps_start _ _ t H) as [t' E].
  rewrite E. cbn [PyStr.lstrip_by]. rewrite H, <- E.
  apply rstrip_by_idempotent.
Qed.

Lemma all_chars_app (p : ascii -> bool) (a b : string) :
  all_chars p (a ++ b) = all_chars p a && all_chars p b.
Proof.
  induction a as [|c a IH]; [reflexivity|].
  cbn [append all_chars]. rewrite IH, andb_assoc. reflexivity.
Qed.

Lemma all_chars_strip (p : ascii -> bool) (s : string) :
  all_chars p s = true -> all_chars p (PyStr.strip s) = true.
Proof.
  intros H. unfold PyStr.strip.
  destruct (lstrip_by_is_suffix PyStr.is_space s) as [head E1].
  destruct (rstrip_by_is_prefix PyStr.is_space
              (PyStr.lstrip_by PyStr.is_space s)) as [tail E2].
  rewrite E1, all_chars_app in H. apply andb_prop in H as [_ H].
  rewrite E2, all_chars_app in H. apply andb_prop in H as [H _]. exact H.
Qed.

(** ** ISBN cells *)

(** X5. An ISBN written the spreadsheet way, an equals sign and the value
    in double quotes, is cleaned to the bare value, and so is a value
    written plainly; the empty spreadsheet cell becomes empty, so it is
    never looked up. *)
Theorem clean_isbn_unwraps_spreadsheet_cell (s : string) :
  all_chars isbn_char s = true ->
  clean_isbn (spreadsheet_cell s) = s /\ clean_isbn s = s.
Proof.
  intros H.
  assert (Hr : PyStr.rstrip_by (PyStr.mem [PyStr.dquote]) s = s).
  { apply rstrip_by_keeps. revert H. clear.
    induction s as [|c s IH]; cbn [all_chars]; intros H; [reflexivity|].
    apply andb_prop in H as [Hc Hs]. rewrite (IH Hs), andb_true_r.
    unfold isbn_char, PyStr.mem in *. cbn [existsb] in *.
    apply negb_true_iff in Hc. apply orb_false_iff in Hc as [_ Hc].
    rewrite Hc. reflexivity. }
  unfold clean_isbn, spreadsheet_cell. split.
  - assert (Hq : PyStr.mem ["="%char; PyStr.dquote] PyStr.dquote = true)
      by reflexivity.
    assert (He : PyStr.mem ["="%char; PyStr.dquote] "="%char = true)
      by reflexivity.
    cbn [PyStr.lstrip_by]. rewrite He, Hq.
    destruct s as [|c s]; [reflexivity|].
    cbn [all_chars] in H. apply andb_prop in H as [Hc _].
    unfold isbn_char in Hc. apply negb_true_iff in Hc.
    cbn [append PyStr.lstrip_by]. rewrite Hc.
    change (String c (s ++ String PyStr.dquote EmptyString))
      with (String c s ++ String PyStr.dquote EmptyString).
    rewrite rstrip_by_drops_last by reflexivity. exact Hr.
  - destruct s as [|c s]; [reflexivity|].
    cbn [all_chars] in H. apply andb_prop in H as [Hc _].
    unfold isbn_char in Hc. apply negb_true_iff in Hc.
    cbn [PyStr.lstrip_by]. rewrite Hc. exact Hr.
Qed.

Lemma clean_isbn_witness :
  clean_isbn (spreadsheet_cell "9780441172719") = "9780441172719"
  /\ clean_isbn "9780441172719" = "9780441172719".
Proof.
  apply (clean_isbn_unwraps_spreadsheet_cell "9780441172719"). reflexivity.
Defined.

(** ** Read counts written as plain decimals *)

Lemma digit_is_no_space (c : ascii) :
  PyStr.is_digit c = true -> PyStr.is_int_space c = false.
Proof.
  destruct c as [[] [] [] [] [] [] [] []]; try discriminate; reflexivity.
Qed.

Lemma digits_have_no_space (s : string) :
  all_chars PyStr.is_digit s = true ->
  all_chars (fun c => negb (PyStr.is_int_space c)) s = true.
Proof.
  induction s as [|c s IH]; cbn [all_chars]; intros H; [reflexivity|].
  apply andb_prop in H as [Hc Hs].
  rewrite (digit_is_no_space _ Hc), (IH Hs). reflexivity.
Qed.

Lemma strip_digits (s : string) :
  all_chars PyStr.is_digit s = true ->
  PyStr.rstrip_by PyStr.is_int_space (PyStr.lstrip_by PyStr.is_int_space s) = s.
Proof.
  intros H.
  assert (E : PyStr.lstrip_by PyStr.is_int_space s = s).
  { destruct s as [|c s]; [reflexivity|]. cbn [all_chars] in H.
    apply andb_prop in H as [Hc _]. cbn [PyStr.lstrip_by].
    rewrite (digit_is_no_space _ Hc). reflexivity. }
  rewrite E. apply rstrip_by_keeps, digits_have_no_space, H.
Qed.

Lemma parse_digits_of_digits (s : string) :
  all_chars PyStr.is_digit s = true ->
  forall acc count after_digit,
    s <> EmptyString \/ after_digit = true ->
    exists v,
      PyStr.parse_digits acc count after_digit s
      = Some (v, (count + String.length s)%nat).
Proof.
  induction s as [|c s IH]; cbn [all_chars]; intros H acc count after_digit Hne.
  - destruct Hne as [Hne| ->]; [contradiction|].
    exists acc. cbn [PyStr.parse_digits String.length].
    rewrite Nat.add_0_r. reflexivity.
  - apply andb_prop in H as [Hc Hs].
    cbn [PyStr.parse_digits String.length]. unfold PyStr.digit_val.
    rewrite Hc.
    destruct (IH Hs (10 * acc + Z.of_nat (nat_of_ascii c - 48)) (S count) true)
      as [v E]; [right; reflexivity|].
    exists v. rewrite E. f_equal. f_equal. lia.
Qed.

Lemma int_of_digits (s : string) :
  all_chars PyStr.is_digit s = true ->
  s <> EmptyString ->
  (String.length s <= PyStr.max_str_digits)%nat ->
  exists n, PyStr.int s = Some n.
Proof.
  intros H Hne Hlen. unfold PyStr.int. rewrite (strip_digits _ H).
  destruct (parse_digits_of_digits s H 0 0%nat false) as [v E];
    [left; exact Hne|].
  assert (Hp : PyStr.parse_nat s = Some v).
  { unfold PyStr.parse_nat. rewrite E. cbn [Nat.add].
    destruct (Nat.ltb_spec PyStr.max_str_digits (String.length s)); [lia|].
    reflexivity. }
  destruct s as [|c r]; [contradiction|].
  cbn [all_chars] in H. apply andb_prop in H as [Hc _].
  destruct c as [[] [] [] [] [] [] [] []]; try discriminate Hc; eauto.
Qed.

(** X6. A read count written as a plain decimal, digits only with a first
    digit from 1 to 9 and at most 4300 digits, passes validation and is an
    integer of at least 1. *)
Theorem plain_positive_count_is_valid (s : string) :
  all_chars PyStr.is_digit s = true ->
  starts_with_nonzero_digit s = true ->
  (String.length s <= PyStr.max_str_digits)%nat ->
  valid_read_count (Some s) = Ok true
  /\ exists n, py_int (Some s) = Ok n /\ 1 <= n.
Proof.
  intros H Hs Hlen.
  assert (Hne : s <> EmptyString) by (destruct s; [discriminate Hs|discriminate]).
  destruct (int_of_digits s H Hne Hlen) as [n E].
  assert (Hint : py_int (Some s) = Ok n)
    by (cbn [py_int]; rewrite E; reflexivity).
  split.
  - unfold valid_read_count. rewrite Hint.
    destruct s as [|c r]; [contradiction|]. cbn [cell_in existsb orb].
    cbn [starts_with_nonzero_digit] in Hs. apply andb_prop in Hs as [_ Hz].
    apply negb_true_iff in Hz.
    cbn [String.eqb]. rewrite Hz. reflexivity.
  - exists n. split; [exact Hint|]. exact (int_of_nonzero_start _ _ Hs E).
Qed.

Lemma plain_positive_count_witness :
  valid_read_count (Some "12") = Ok true
  /\ exists n, py_int (Some "12") = Ok n /\ 1 <= n.
Proof.
  apply (plain_positive_count_is_valid "12"); [reflexivity|reflexivity|].
  unfold PyStr.max_str_digits. simpl. lia.
Defined.

(** ** The last path segment *)

Lemma split_segments_have_no_sep (sep : ascii) (s : string) :
  Forall (fun seg => all_chars (fun c => negb (Ascii.eqb c sep)) seg = true)
         (PyStr.split sep s).
Proof.
  induction s as [|c s IH]; cbn [PyStr.split].
  - constructor; [reflexivity|constructor].
  - destruct (Ascii.eqb c sep) eqn:E.
    + constructor; [reflexivity|exact IH].
    + destruct (PyStr.split sep s) as [|h t]; inversion IH; subst;
        constructor; auto.
      * cbn [all_chars]. rewrite E. reflexivity.
      * cbn [all_chars]. rewrite E. cbn [negb andb]. assumption.
Qed.

Lemma last_segment_has_no_slash (s : string) :
  no_slash (PyStr.last_segment s) = true.
Proof.
  unfold no_slash, PyStr.last_segment.
  pose proof (split_segments_have_no_sep "/" s) as H.
  pose proof (split_not_nil "/" s) as Hne.
  induction (PyStr.split "/" s) as [|h t IH]; [contradiction|].
  inversion H; subst. destruct t as [|h' t']; [assumption|].
  apply IH; [assumption|discriminate].
Qed.

Lemma split_app_sep (sep : ascii) (a b : string) :
  PyStr.split sep (a ++ String sep b)
  = (PyStr.split sep a ++ PyStr.split sep b)%list.
Proof.
  induction a as [|c a IH]; cbn [append PyStr.split].
  - rewrite Ascii.eqb_refl. reflexivity.
  - rewrite IH. destruct (Ascii.eqb c sep); [reflexivity|].
    pose proof (split_not_nil sep a).
    destruct (PyStr.split sep a); [contradiction|reflexivity].
Qed.

Lemma last_of_app {A : Type} (l1 l2 : list A) (d : A) :
  l2 <> [] -> last (l1 ++ l2) d = last l2 d.
Proof.
  intros H. induction l1 as [|x l1 IH]; [reflexivity|].
  cbn [app last]. rewrite IH.
  destruct (l1 ++ l2)%list eqn:E; [|reflexivity].
  apply app_eq_nil in E as [_ E]. contradiction.
Qed.

Lemma last_segment_after_slash (a b : string) :
  PyStr.last_segment (a ++ String "/" b) = PyStr.last_segment b.
Proof.
  unfold PyStr.last_segment. rewrite split_app_sep.
  apply last_of_app, split_not_nil.
Qed.

Lemma last_segment_plain (b : string) :
  no_slash b = true -> PyStr.last_segment b = b.
Proof.
  intros H. unfold PyStr.last_segment.
  rewrite (split_without_sep _ _ H). reflexivity.
Qed.

(** ** What a computation returns *)

Lemma yields_ret {A : Type} (Q : A -> Prop) (a : A) : Q a -> yields Q (ret a).
Proof. intros H st x st' [= <- <-]. exact H. Qed.

Lemma yields_lift {A : Type} (Q : A -> Prop) (r : result A) :
  (forall a, r = Ok a -> Q a) -> yields Q (lift r).
Proof. intros H st x st' [= -> <-]. apply H. reflexivity. Qed.

Lemma yields_bind {A B : Type} (P : A -> Prop) (Q : B -> Prop) (m : M A)
      (k : A -> M B) :
  yields P m -> (forall a, P a -> yields Q (k a)) -> yields Q (bind m k).
Proof.
  intros Hm Hk st x st'. unfold bind.
  destruct (m st) as [[a|e] st1] eqn:E; [|discriminate].
  apply Hk. exact (Hm _ _ _ E).
Qed.

Lemma yields_anything {A : Type} (m : M A) : yields (fun _ => True) m.
Proof. intros st x st' _. exact I. Qed.

Lemma yields_after {A B : Type} (Q : B -> Prop) (m : M A) (k : A -> M B) :
  (forall a, yields Q (k a)) -> yields Q (bind m k).
Proof.
  intros H. apply (yields_bind (fun _ => True)); [apply yields_anything|].
  intros a _. apply H.
Qed.

Lemma edition_key_is_bare (key : json) : bare_key (edition_key key).
Proof.
  destruct key; cbn [edition_key bare_key]; try exact I.
  apply last_segment_has_no_slash.
Qed.

Lemma first_edition_yields_bare_key (res : json) :
  yields bare_key (lift (first_edition res)).
Proof.
  apply yields_lift. unfold first_edition, rbind. intros a Ha.
  destruct (safe_get res edition_path); [|discriminate Ha].
  injection Ha as <-. apply edition_key_is_bare.
Qed.

Lemma search_yields_bare_key (env : environment) (r : row) :
  yields bare_key (search env r).
Proof.
  unfold search.
  apply yields_after. intros strict.
  apply yields_after. intros res1.
  apply yields_after. intros none1.
  destruct none1; [|apply first_edition_yields_bare_key].
  apply yields_after. intros res2.
  apply yields_after. intros none2.
  destruct none2; [apply yields_ret; exact I|].
  apply first_edition_yields_bare_key.
Qed.

Lemma isbn_lookup_yields_bare_return (env : environment) (r : row)
      (isbn_key : string) :
  yields bare_return (isbn_lookup env r isbn_key).
Proof.
  unfold isbn_lookup.
  apply yields_after. intros cell.
  apply yields_after. intros text.
  destruct (PyStr.is_empty (clean_isbn text)); [apply yields_ret; exact I|].
  apply yields_after. intros res.
  destruct (negb (Py.truthy res)); [apply yields_ret; exact I|].
  apply yields_after. intros key.
  destruct (negb (Py.truthy key)); apply yields_ret;
    [exact I|apply edition_key_is_bare].
Qed.

Lemma isbn_loop_yields_bare_return (env : environment) (r : row)
      (isbn_keys : list string) :
  yields bare_return (isbn_loop env r isbn_keys).
Proof.
  induction isbn_keys as [|k ks IH]; cbn [isbn_loop];
    [apply yields_ret; exact I|].
  apply (yields_bind bare_return); [apply isbn_lookup_yields_bare_return|].
  intros [|v] Hv; [exact IH|apply yields_ret; exact Hv].
Qed.

(** X7. A key that [retrieve_key] returns holds no slash: it is the part
    after the last slash of the key the catalog sent, so a catalog key
    /books/ID resolves to ID. *)
Theorem resolved_key_is_last_path_segment (env : environment) (r : row)
        (st st' : state) (k : string) :
  retrieve_key env r st = (Ok (Some k), st') ->
  no_slash k = true
  /\ (forall a b, no_slash b = true ->
                  edition_key (JStr (a ++ "/" ++ b)) = Some b)
  /\ (forall b, no_slash b = true -> edition_key (JStr b) = Some b).
Proof.
  intros H. split; [|split].
  - assert (Hy : yields bare_key (retrieve_key env r)).
    { unfold retrieve_key.
      apply (yields_bind bare_return); [apply isbn_loop_yields_bare_return|].
      intros [|v] Hv; [apply search_yields_bare_key|apply yields_ret; exact Hv]. }
    exact (Hy _ _ _ H).
  - intros a b Hb. cbn [edition_key append].
    rewrite last_segment_after_slash, (last_segment_plain _ Hb). reflexivity.
  - intros b Hb. cbn [edition_key]. rewrite (last_segment_plain _ Hb).
    reflexivity.
Qed.

Lemma resolved_key_witness :
  no_slash "OL999M" = true
  /\ (forall a b, no_slash b = true ->
                  edition_key (JStr (a ++ "/" ++ b)) = Some b)
  /\ (forall b, no_slash b = true -> edition_key (JStr b) = Some b).
Proof.
  apply (resolved_key_is_last_path_segment
           (Sample.scripted [Body (Sample.found "/books/OL999M")])
           Sample.dune initial
           (snd (retrieve_key
                   (Sample.scripted [Body (Sample.found "/books/OL999M")])
                   Sample.dune initial))).
  reflexivity.
Defined.

(** ** The parameters of a search *)

Lemma lookup_in {A : Type} (d : list (string * A)) (k : string) (v : A) :
  Py.lookup d k = Some v -> In (k, v) d.
Proof.
  induction d as [|[k' v'] d IH]; cbn [Py.lookup]; [discriminate|].
  destruct (String.eqb_spec k' k) as [->|_].
  - intros [= ->]. left. reflexivity.
  - intros H. right. exact (IH H).
Qed.

Lemma truthy_params_nonempty (params : list (string * cell)) :
  forallb (fun kv => negb (PyStr.is_empty (snd kv))) (truthy_params params)
  = true.
Proof.
  unfold truthy_params.
  induction params as [|[name [v|]] params IH]; cbn [flat_map snd fst];
    [reflexivity| |exact IH].
  destruct (PyStr.is_empty v) eqn:E; cbn [app forallb snd]; [exact IH|].
  rewrite E, IH. reflexivity.
Qed.

Lemma strict_params_nonempty (r : row) (strict : list (string * string)) :
  strict_params r = Ok strict ->
  forallb (fun kv => negb (PyStr.is_empty (snd kv))) strict = true.
Proof.
  unfold strict_params, rbind.
  destruct (row_get r "Title") as [title|]; [|discriminate].
  destruct (Row.subject title); [|discriminate].
  repeat match goal with
         | |- context [row_get r ?c] => destruct (row_get r c); [|discriminate]
         end.
  intros H.
  match type of H with
  | Ok ?l = Ok _ => assert (E : l = strict) by congruence
  end.
  rewrite <- E. apply truthy_params_nonempty.
Qed.

Lemma strict_params_fixed_entries (r : row) (strict : list (string * string)) :
  strict_params r = Ok strict ->
  Py.lookup strict "q" = Some "language:eng"
  /\ Py.lookup strict "fields" = Some "key,editions,editions.key".
Proof.
  unfold strict_params, rbind.
  destruct (row_get r "Title") as [title|]; [|discriminate].
  destruct (Row.subject title); [|discriminate].
  repeat match goal with
         | |- context [row_get r ?c] =>
             destruct (row_get r c) as [[?|]|]; [| |discriminate]
         end;
    intros [= <-]; cbn [truthy_params flat_map snd fst];
    repeat match goal with
           | |- context [PyStr.is_empty ?s] =>
               destruct (PyStr.is_empty s); cbn [app]
           end;
    split; reflexivity.
Qed.

Lemma loose_params_nonempty (strict : list (string * string)) :
  forallb (fun kv => negb (PyStr.is_empty (snd kv))) strict = true ->
  forallb (fun kv => negb (PyStr.is_empty (snd kv))) (loose_params strict)
  = true.
Proof.
  intros H. rewrite forallb_forall in *. intros [name value] Hin.
  destruct (loose_params_are_title_author _ _ _ Hin) as [_ Hl].
  exact (H _ (lookup_in _ _ _ Hl)).
Qed.

Lemma sends_only_bind_lift {A B : Type} (P : request -> Prop) (r : result A)
      (k : A -> M B) :
  (forall a, r = Ok a -> sends_only P (k a)) ->
  sends_only P (bind (lift r) k).
Proof.
  intros H. destruct r as [a|e].
  - intros st x st' E. exact (H a eq_refl st x st' E).
  - intros st x st' [= <- <-]. exists []. rewrite app_nil_r. auto.
Qed.

Lemma query_sends_nonempty (env : environment) (cat : string)
      (val : option string) (query : option (list (string * string))) :
  params_nonempty (mkRequest GET (open_lib_url cat val) query None None None) ->
  sends_only params_nonempty (query_open_lib env cat val query).
Proof.
  intros H. eapply sends_only_weaken; [|apply query_open_lib_sends_get].
  intros rq ->. exact H.
Qed.

Lemma search_sends_nonempty (env : environment) (r : row) :
  sends_only params_nonempty (search env r).
Proof.
  unfold search. apply sends_only_bind_lift. intros strict Hs.
  pose proof (strict_params_nonempty _ _ Hs) as Hne.
  apply sends_only_bind; [apply query_sends_nonempty; exact Hne|intros res1].
  apply sends_only_bind; [apply sends_only_lift|intros none1].
  destruct none1; [|apply sends_only_lift].
  apply sends_only_bind;
    [apply query_sends_nonempty; exact (loose_params_nonempty _ Hne)|].
  intros res2. repeat frame_step.
Qed.

Lemma isbn_loop_sends_nonempty (env : environment) (r : row)
      (isbn_keys : list string) :
  sends_only params_nonempty (isbn_loop env r isbn_keys).
Proof.
  induction isbn_keys as [|k ks IH]; cbn [isbn_loop]; [apply sends_only_ret|].
  apply sends_only_bind.
  - unfold isbn_lookup.
    apply sends_only_bind; [apply sends_only_lift|intros cell].
    apply sends_only_bind; [apply sends_only_lift|intros text].
    destruct (PyStr.is_empty (clean_isbn text)); [apply sends_only_ret|].
    apply sends_only_bind; [apply query_sends_nonempty; exact I|].
    intros res. repeat frame_step.
  - intros [|v]; [exact IH|apply sends_only_ret].
Qed.

(** X8. No empty value is ever sent as a query parameter: every request
    [retrieve_key] makes either has no parameters (an ISBN lookup) or has
    only non-empty ones.  The strict query always holds the language
    constraint and the field selection. *)
Theorem empty_fields_are_never_sent (env : environment) (r : row)
        (st st' : state) (x : result (option string)) :
  retrieve_key env r st = (x, st') ->
  (exists l, sent st' = (sent st ++ l)%list /\ Forall params_nonempty l)
  /\ (forall strict,
         strict_params r = Ok strict ->
         Py.lookup strict "q" = Some "language:eng"
         /\ Py.lookup strict "fields" = Some "key,editions,editions.key").
Proof.
  intros H. split; [|apply strict_params_fixed_entries].
  assert (Hs : sends_only params_nonempty (retrieve_key env r)).
  { unfold retrieve_key.
    apply sends_only_bind; [apply isbn_loop_sends_nonempty|].
    intros [|v]; [apply search_sends_nonempty|apply sends_only_ret]. }
  destruct (Hs _ _ _ H) as (l & Hl & Fl & _). eauto.
Qed.

Lemma empty_fields_witness :
  (exists l,
      sent (snd (retrieve_key Sample.offline Sample.unread initial))
      = (sent initial ++ l)%list /\ Forall params_nonempty l)
  /\ (forall strict,
         strict_params Sample.unread = Ok strict ->
         Py.lookup strict "q" = Some "language:eng"
         /\ Py.lookup strict "fields" = Some "key,editions,editions.key").
Proof.
  apply (empty_fields_are_never_sent Sample.offline Sample.unread initial
           (snd (retrieve_key Sample.offline Sample.unread initial))
           (fst (retrieve_key Sample.offline Sample.unread initial))).
  reflexivity.
Defined.

(** ** How many requests a computation makes *)

Lemma sends_at_most_quiet {A : Type} (m : M A) (n : nat) :
  sends_only (fun _ => False) m -> sends_at_most n m.
Proof.
  intros H st x st' E. destruct (H _ _ _ E) as (l & Hl & Fl & _).
  exists l. split; [exact Hl|]. destruct l; [cbn; lia|].
  inversion Fl; contradiction.
Qed.

Lemma sends_at_most_bind {A B : Type} (n1 n2 : nat) (m : M A) (k : A -> M B) :
  sends_at_most n1 m -> (forall a, sends_at_most n2 (k a)) ->
  sends_at_most (n1 + n2) (bind m k).
Proof.
  intros Hm Hk st x st'. unfold bind.
  destruct (m st) as [[a|e] st1] eqn:E; intros H.
  - destruct (Hm _ _ _ E) as (l1 & S1 & L1).
    destruct (Hk a _ _ _ H) as (l2 & S2 & L2).
    exists (l1 ++ l2)%list. rewrite S2, S1, app_assoc, length_app.
    split; [reflexivity|lia].
  - injection H as <- <-. destruct (Hm _ _ _ E) as (l1 & S1 & L1).
    exists l1. split; [exact S1|lia].
Qed.

Lemma sends_at_most_more {A : Type} (n n' : nat) (m : M A) :
  (n <= n')%nat -> sends_at_most n m -> sends_at_most n' m.
Proof.
  intros Hn H st x st' E. destruct (H _ _ _ E) as (l & Hl & Ll).
  exists l. split; [exact Hl|lia].
Qed.

Lemma safe_request_sends_one (env : environment) (mode url : string)
      (params : option (list (string * string)))
      (json_body auth data : option json) :
  sends_at_most 1 (safe_request env mode url params json_body auth data).
Proof.
  assert (Hsend : forall rq, sends_at_most 1
                               (bind (send env rq) (fun rs => receive rs))).
  { intros rq st x st' H. unfold bind, send in H.
    exists [rq]. split; [|cbn; lia].
    destruct (respond env (sent st) rq); cbn in H; injection H as _ <-;
      reflexivity. }
  unfold safe_request.
  destruct (String.eqb (PyStr.upper mode) "GET"); [apply Hsend|].
  destruct (String.eqb (PyStr.upper mode) "POST"); [apply Hsend|].
  apply (sends_at_most_quiet _ 1), sends_only_ret.
Qed.

Ltac quiet := apply sends_at_most_quiet; repeat frame_step.

Lemma isbn_lookup_sends_one (env : environment) (r : row) (isbn_key : string) :
  sends_at_most 1 (isbn_lookup env r isbn_key).
Proof.
  unfold isbn_lookup.
  apply (sends_at_most_bind 0 1); [quiet|intros cell].
  apply (sends_at_most_bind 0 1); [quiet|intros text].
  destruct (PyStr.is_empty (clean_isbn text)); [quiet|].
  apply (sends_at_most_bind 1 0); [apply safe_request_sends_one|intros res].
  quiet.
Qed.

Lemma search_sends_two (env : environment) (r : row) :
  sends_at_most 2 (search env r).
Proof.
  unfold search.
  apply (sends_at_most_bind 0 2); [quiet|intros strict].
  apply (sends_at_most_bind 1 1); [apply safe_request_sends_one|intros res1].
  apply (sends_at_most_bind 0 1); [quiet|intros none1].
  destruct none1; [|quiet].
  apply (sends_at_most_bind 1 0); [apply safe_request_sends_one|intros res2].
  quiet.
Qed.

Lemma retrieve_key_sends_four (env : environment) (r : row) :
  sends_at_most 4 (retrieve_key env r).
Proof.
  unfold retrieve_key. apply (sends_at_most_bind 2 2).
  - cbn [isbn_loop].
    apply (sends_at_most_bind 1 1); [apply isbn_lookup_sends_one|].
    intros [|v]; [|quiet].
    apply (sends_at_most_bind 1 0); [apply isbn_lookup_sends_one|].
    intros [|v]; quiet.
  - intros [|v]; [apply search_sends_two|quiet].
Qed.

Lemma create_record_sends_one (env : environment) (did endpoint : string)
      (session : json) (r : row) (k : string) :
  sends_at_most 1 (create_record env did endpoint session r k).
Proof.
  unfold create_record.
  apply (sends_at_most_bind 0 1); [quiet|intros iso].
  apply (sends_at_most_bind 0 1); [quiet|intros record].
  apply (sends_at_most_bind 0 1); [quiet|intros token].
  apply (sends_at_most_bind 1 0); [apply safe_request_sends_one|intros res].
  quiet.
Qed.

Lemma append_result_is_quiet (r : row) :
  sends_at_most 0 (append_result r).
Proof.
  intros st x st' [= <- <-]. exists []. rewrite app_nil_r. split; [reflexivity|].
  cbn. lia.
Qed.

Lemma process_row_sends_five (env : environment) (did endpoint : string)
      (session : json) (used_keys : list json) (r : row) :
  sends_at_most 5 (process_row env did endpoint session used_keys r).
Proof.
  assert (Hp : forall n, sends_at_most n (print_row r))
    by (intros n; apply sends_at_most_quiet, sends_only_print_row).
  assert (Ha : forall n o, sends_at_most n
                             (bind (print_row r)
                                   (fun _ => append_result (annotate r o)))).
  { intros n o. apply (sends_at_most_more 0); [lia|].
    apply (sends_at_most_bind 0 0); [apply Hp|intros _].
    apply append_result_is_quiet. }
  unfold process_row.
  apply (sends_at_most_bind 0 5); [quiet|intros count].
  apply (sends_at_most_bind 0 5); [quiet|intros valid].
  destruct (negb valid); [apply Ha|].
  apply (sends_at_most_bind 4 1); [apply retrieve_key_sends_four|].
  intros [k|]; [|apply Ha].
  destruct (PyStr.is_empty k); [apply Ha|].
  destruct (key_in k used_keys); [apply Ha|].
  apply (sends_at_most_bind 0 1); [apply Hp|intros _].
  apply (sends_at_most_bind 0 1);
    [apply append_result_is_quiet|intros _].
  apply create_record_sends_one.
Qed.

Lemma process_rows_sends_five_each (env : environment) (did endpoint : string)
      (session : json) (used_keys : list json) (rows : list row) :
  sends_at_most (5 * List.length rows)
                (process_rows env did endpoint session used_keys rows).
Proof.
  induction rows as [|r rows IH]; cbn [process_rows].
  - apply sends_at_most_quiet, sends_only_ret.
  - apply (sends_at_most_more (5 + 5 * List.length rows));
      [cbn [List.length]; lia|].
    apply sends_at_most_bind; [apply process_row_sends_five|intros _; exact IH].
Qed.

(** X9. The number of requests is bounded: [retrieve_key] makes at most
    four (two ISBN lookups and two searches), a row of the loop at most
    five, and a batch at most five per row, however it ends. *)
Theorem requests_per_row_are_bounded (env : environment)
        (did endpoint : string) (session : json) (used_keys : list json) :
  (forall r, sends_at_most 4 (retrieve_key env r))
  /\ (forall r,
         sends_at_most 5 (process_row env did endpoint session used_keys r))
  /\ (forall rows st x st',
         process_rows env did endpoint session used_keys rows st = (x, st') ->
         exists l, sent st' = (sent st ++ l)%list
                   /\ (List.length l <= 5 * List.length rows)%nat).
Proof.
  split; [intros r; apply retrieve_key_sends_four|].
  split; [intros r; apply process_row_sends_five|].
  intros rows st x st' H.
  exact (process_rows_sends_five_each env did endpoint session used_keys rows
           _ _ _ H).
Qed.

(** ** Cleaning a cleaned title *)

Lemma sub_from_shrinks (s : string) :
  forall n, (String.length (PyStr.sub_from n s) <= String.length s)%nat.
Proof.
  induction s as [|c s IH]; intros n; cbn [PyStr.sub_from String.length];
    [lia|].
  destruct n as [|n]; [|specialize (IH n); lia].
  destruct (PyStr.is_open c);
    [destruct (PyStr.match_len s) as [m|]|];
    cbn [String.length]; try (specialize (IH 0%nat); lia).
  specialize (IH m). lia.
Qed.

Lemma bracket_free_cons (c : ascii) (s : string) :
  bracket_free (String c s)
  <-> (PyStr.is_open c = true -> PyStr.match_len s = None) /\ bracket_free s.
Proof.
  unfold bracket_free, PyStr.remove_brackets. cbn [PyStr.sub_from]. split.
  - intros H. destruct (PyStr.is_open c).
    + destruct (PyStr.match_len s) as [m|].
      * pose proof (sub_from_shrinks s m) as L. rewrite H in L.
        cbn [String.length] in L. lia.
      * injection H as H. auto.
    + injection H as H. split; [discriminate|exact H].
  - intros [Ho Hs]. destruct (PyStr.is_open c).
    + rewrite (Ho eq_refl), Hs. reflexivity.
    + rewrite Hs. reflexivity.
Qed.

Lemma match_len_none_prefix (a b : string) :
  PyStr.match_len (a ++ b) = None -> PyStr.match_len a = None.
Proof.
  induction a as [|c a IH]; cbn [append PyStr.match_len]; [reflexivity|].
  destruct (PyStr.is_close c); [discriminate|].
  destruct (Ascii.eqb c PyStr.newline); [reflexivity|].
  destruct (PyStr.match_len (a ++ b)); [discriminate|].
  intros _. rewrite IH; reflexivity.
Qed.

Lemma bracket_free_prefix (a b : string) :
  bracket_free (a ++ b) -> bracket_free a.
Proof.
  induction a as [|c a IH]; [reflexivity|]. cbn [append].
  rewrite !bracket_free_cons. intros [Ho Hs]. split; [|exact (IH Hs)].
  intros Hc. exact (match_len_none_prefix _ _ (Ho Hc)).
Qed.

Lemma bracket_free_suffix (a b : string) :
  bracket_free (a ++ b) -> bracket_free b.
Proof.
  induction a as [|c a IH]; [trivial|]. cbn [append].
  rewrite bracket_free_cons. intros [_ Hs]. exact (IH Hs).
Qed.

Lemma match_len_none_after_removal (s : string) :
  PyStr.match_len s = None -> PyStr.match_len (PyStr.sub_from 0 s) = None.
Proof.
  induction s as [|c s IH]; cbn [PyStr.match_len PyStr.sub_from];
    [reflexivity|].
  destruct (PyStr.is_close c) eqn:Hc; [discriminate|].
  destruct (Ascii.eqb c PyStr.newline) eqn:Hn.
  - intros _.
    assert (Ho : PyStr.is_open c = false).
    { apply Ascii.eqb_eq in Hn. subst c. reflexivity. }
    rewrite Ho. cbn [PyStr.match_len]. rewrite Hc, Hn. reflexivity.
  - destruct (PyStr.match_len s) as [m|] eqn:E; [discriminate|]. intros _.
    destruct (PyStr.is_open c); cbn [PyStr.match_len];
      rewrite Hc, Hn, (IH eq_refl); reflexivity.
Qed.

Lemma sub_from_is_bracket_free (s : string) :
  forall n, bracket_free (PyStr.sub_from n s).
Proof.
  induction s as [|c s IH]; intros n; cbn [PyStr.sub_from]; [reflexivity|].
  destruct n as [|n]; [|apply IH].
  destruct (PyStr.is_open c) eqn:Ho.
  - destruct (PyStr.match_len s) as [m|] eqn:E; [apply IH|].
    apply bracket_free_cons. split; [|apply IH].
    intros _. apply match_len_none_after_removal, E.
  - apply bracket_free_cons. split; [|apply IH].
    intros H. rewrite Ho in H. discriminate H.
Qed.

Lemma split_head_is_prefix (sep : ascii) (s : string) :
  exists rest, s = nth 0 (PyStr.split sep s) EmptyString ++ rest.
Proof.
  induction s as [|c s [rest IH]]; [exists EmptyString; reflexivity|].
  cbn [PyStr.split]. destruct (Ascii.eqb c sep).
  - exists (String c s). reflexivity.
  - pose proof (split_not_nil sep s) as Hne.
    destruct (PyStr.split sep s) as [|h t]; [contradiction|].
    exists rest. cbn [nth append] in *. f_equal. exact IH.
Qed.

Lemma split_head_has_no_sep (sep : ascii) (s : string) :
  all_chars (fun c => negb (Ascii.eqb c sep))
            (nth 0 (PyStr.split sep s) EmptyString) = true.
Proof.
  pose proof (split_segments_have_no_sep sep s) as H.
  destruct (PyStr.split sep s); [reflexivity|].
  inversion H; assumption.
Qed.

Lemma bracket_free_strip (s : string) :
  bracket_free s -> bracket_free (PyStr.strip s).
Proof.
  intros H. unfold PyStr.strip.
  destruct (lstrip_by_is_suffix PyStr.is_space s) as [head E1].
  destruct (rstrip_by_is_prefix PyStr.is_space
              (PyStr.lstrip_by PyStr.is_space s)) as [tail E2].
  rewrite E1 in H. apply bracket_free_suffix in H.
  rewrite E2 in H. apply bracket_free_prefix in H. exact H.
Qed.

Lemma query_title_is_clean (title : string) :
  bracket_free (query_title title) /\ no_colon (query_title title) = true.
Proof.
  unfold query_title, title_segments. split.
  - apply bracket_free_strip.
    destruct (split_head_is_prefix ":" (PyStr.remove_brackets title))
      as [rest E].
    pose proof (sub_from_is_bracket_free title 0) as H.
    change (bracket_free (PyStr.remove_brackets title)) in H.
    rewrite E in H. exact (bracket_free_prefix _ _ H).
  - apply all_chars_strip, split_head_has_no_sep.
Qed.

(** X10. Cleaning is idempotent on titles: removing the bracketed spans
    from a title leaves nothing more to remove, and the query title of a
    query title is that title again, with an empty subtitle. *)
Theorem title_cleaning_is_idempotent (title : string) :
  PyStr.remove_brackets (PyStr.remove_brackets title)
  = PyStr.remove_brackets title
  /\ query_title (query_title title) = query_title title
  /\ query_subtitle (query_title title) = EmptyString.
Proof.
  split; [exact (sub_from_is_bracket_free title 0)|].
  destruct (query_title_is_clean title) as [Hb Hc].
  unfold query_title at 1, query_subtitle, title_segments.
  rewrite Hb, (split_without_sep _ _ Hc). cbn [nth List.length Nat.ltb Nat.leb].
  split; [|reflexivity].
  unfold query_title. apply strip_idempotent.
Qed.

(** ** Annotating a row *)

Lemma same_key_spec (a b : option string) :
  same_key a b = true <-> a = b.
Proof.
  destruct a as [x|], b as [y|]; cbn [same_key]; split;
    try discriminate; try reflexivity.
  - intros H. apply String.eqb_eq in H. congruence.
  - intros [= ->]. apply String.eqb_refl.
Qed.

Lemma same_key_other (a b : option string) :
  a <> b -> same_key a b = false.
Proof.
  intros H. destruct (same_key a b) eqn:E; [|reflexivity].
  apply same_key_spec in E. contradiction.
Qed.

Lemma value_at_set_other (r : row) (k : string) (v : cell)
      (fieldname : option string) :
  fieldname <> Some k ->
  value_at (Row.set r k v) fieldname = value_at r fieldname.
Proof.
  intros Hf.
  assert (Hk : same_key (Some k) fieldname = false)
    by (apply same_key_other; congruence).
  induction r as [|[column value|fields] r IH];
    cbn [Row.set value_at Row.key_of].
  - rewrite Hk. reflexivity.
  - destruct (String.eqb_spec column k) as [->|Hc];
      cbn [value_at Row.key_of].
    + rewrite Hk. reflexivity.
    + destruct (same_key (Some column) fieldname); [reflexivity|exact IH].
  - destruct (same_key None fieldname); [reflexivity|exact IH].
Qed.

(** X11. Annotating a row keeps every other column with its value and its
    place, and the surplus fields of a long line with them; the Import
    Result column holds the annotation afterwards, and is added at the end
    when the row had none. *)
Theorem annotation_keeps_the_row (r : row) (outcome : string) :
  row_get (annotate r outcome) "Import Result" = Ok (Some outcome)
  /\ (forall c, c <> "Import Result" ->
                row_get (annotate r outcome) c = row_get r c)
  /\ (forall key, key <> Some "Import Result" ->
                  value_at (annotate r outcome) key = value_at r key)
  /\ columns (annotate r outcome) = report_columns (columns r).
Proof.
  split; [apply annotation_is_read_back|]. split; [|split].
  - intros c Hc. apply annotation_keeps_columns, Hc.
  - intros key Hkey. apply value_at_set_other, Hkey.
  - apply row_set_keys.
Qed.

Lemma annotation_witness :
  row_get (annotate Sample.overlong "Success") "Import Result"
  = Ok (Some "Success")
  /\ row_get (annotate Sample.overlong "Success") "Title"
     = row_get Sample.overlong "Title"
  /\ value_at (annotate Sample.overlong "Success") None
     = value_at Sample.overlong None
  /\ columns (annotate Sample.overlong "Success")
     = report_columns (columns Sample.overlong).
Proof.
  destruct (annotation_keeps_the_row Sample.overlong "Success")
    as (A & B & C & D).
  split; [exact A|]. split; [|split; [|exact D]].
  - apply B. discriminate.
  - apply C. discriminate.
Defined.

(** ** What the loop appends to the results, further *)

(** X12. The results grow by one annotated row per input row, in input
    order: however the loop ends, the results are the earlier ones followed
    by a first part of the batch, each row with one of the four
    annotations; all of the batch when the loop ends normally.  The report
    file is not touched while the loop runs. *)
Theorem loop_reports_each_row_in_order (env : environment)
        (did endpoint : string) (session : json) (used_keys : list json)
        (rows : list row) (st st' : state) (x : result unit) :
  process_rows env did endpoint session used_keys rows st = (x, st') ->
  exists outcomes,
    results st' = (results st ++ annotated rows outcomes)%list
    /\ Forall (fun o => In o outcome_texts) outcomes
    /\ (List.length outcomes <= List.length rows)%nat
    /\ (x = Ok tt -> List.length outcomes = List.length rows)
    /\ report_file st' = report_file st.
Proof.
  apply process_rows_appends_in_order.
Qed.

Lemma loop_reports_witness :
  exists outcomes,
    results (snd (process_rows Sample.twice_found Sample.did Sample.endpoint
                    Sample.session [] [Sample.dune; Sample.unread] initial))
    = (results initial ++ annotated [Sample.dune; Sample.unread] outcomes)%list
    /\ Forall (fun o => In o outcome_texts) outcomes
    /\ (List.length outcomes <= List.length [Sample.dune; Sample.unread])%nat
    /\ (fst (process_rows Sample.twice_found Sample.did Sample.endpoint
               Sample.session [] [Sample.dune; Sample.unread] initial) = Ok tt ->
        List.length outcomes = List.length [Sample.dune; Sample.unread])
    /\ report_file
         (snd (process_rows Sample.twice_found Sample.did Sample.endpoint
                 Sample.session [] [Sample.dune; Sample.unread] initial))
       = report_file initial.
Proof.
  apply (loop_reports_each_row_in_order Sample.twice_found Sample.did
           Sample.endpoint Sample.session [] [Sample.dune; Sample.unread]
           initial).
  reflexivity.
Defined.

(** ** Writing the report *)

Lemma value_at_own_entry (r : row) (e : entry) :
  NoDup (columns r) -> In e r -> value_at r (Row.key_of e) = entry_value e.
Proof.
  unfold columns, Row.keys. induction r as [|e' r IH]; [contradiction|].
  cbn [map value_at]. intros Hnd [->|Hin].
  - rewrite (proj2 (same_key_spec _ _) eq_refl). reflexivity.
  - inversion Hnd as [|? ? Hk Hr]; subst.
    destruct (same_key (Row.key_of e') (Row.key_of e)) eqn:E;
      [|exact (IH Hr Hin)].
    apply same_key_spec in E. exfalso. apply Hk. rewrite E.
    apply in_map, Hin.
Qed.

Lemma dict_to_list_own_columns (r : row) :
  NoDup (columns r) -> dict_to_list (columns r) r = Ok (cells r).
Proof.
  intros Hnd. unfold dict_to_list.
  assert (Hall : forallb (fun k => existsb (same_key k) (columns r))
                         (Row.keys r) = true).
  { apply forallb_forall. intros k Hin. apply existsb_exists.
    exists k. split; [exact Hin|apply same_key_spec; reflexivity]. }
  rewrite Hall. f_equal. unfold columns, Row.keys, cells. rewrite map_map.
  apply map_ext_in. intros e Hin.
  apply (value_at_own_entry _ _ Hnd Hin).
Qed.

Lemma writerows_same_columns (header : list (option string))
      (rows : list row) :
  NoDup header ->
  Forall (fun r => columns r = header) rows ->
  forall log rs lines,
    writerows header rows (mkState log rs (Some lines))
    = (Ok tt, mkState log rs (Some (lines ++ map cells rows)%list)).
Proof.
  intros Hnd. induction 1 as [|r rows Hr _ IH]; intros log rs lines.
  - cbn [writerows map]. rewrite app_nil_r. reflexivity.
  - cbn [writerows]. rewrite <- Hr at 1.
    rewrite <- Hr in Hnd at 1.
    rewrite (bind_lift_ok _ _ _ _ (dict_to_list_own_columns r Hnd)).
    unfold bind at 1, write_line at 1.
    cbn [sent results report_file]. rewrite IH, <- app_assoc. reflexivity.
Qed.

Lemma write_report_same_columns (st : state) (first : row) (rest : list row) :
  results st = first :: rest ->
  NoDup (columns first) ->
  Forall (fun r => columns r = columns first) rest ->
  write_report st
  = (Ok tt,
     written st (header_line (columns first) :: map cells (results st))).
Proof.
  intros Hres Hnd Hrest. destruct st as [log rs file]. cbn [results] in Hres.
  subst rs. unfold write_report, bind, open_report, first_keys, write_line.
  cbn [sent results report_file].
  fold (columns first).
  rewrite (writerows_same_columns (columns first) (first :: rest) Hnd);
    [reflexivity|].
  constructor; [reflexivity|exact Hrest].
Qed.

(** X13. When the results are not empty and every row has the keys of
    the first one, each once, the report is written in full: a header with
    those keys, then the values of each row in the order of the results.
    A cell that is None is handed to the writer as None, and the surplus
    fields of a long line as a list under the key None. *)
Theorem report_is_header_then_rows (st : state) (first : row)
        (rest : list row) :
  results st = first :: rest ->
  NoDup (columns first) ->
  Forall (fun r => columns r = columns first) rest ->
  write_report st
  = (Ok tt,
     written st (header_line (columns first) :: map cells (results st))).
Proof. apply write_report_same_columns. Qed.

Lemma report_written_witness :
  write_report (mkState [] [annotate Sample.dune "Success";
                            annotate Sample.unread "Excluded: Read count invalid"]
                        None)
  = (Ok tt,
     written (mkState [] [annotate Sample.dune "Success";
                          annotate Sample.unread "Excluded: Read count invalid"]
                      None)
       (header_line (columns (annotate Sample.dune "Success"))
        :: map cells [annotate Sample.dune "Success";
                      annotate Sample.unread "Excluded: Read count invalid"])).
Proof.
  apply (report_is_header_then_rows
           (mkState [] [annotate Sample.dune "Success";
                        annotate Sample.unread "Excluded: Read count invalid"]
                    None)
           (annotate Sample.dune "Success")
           [annotate Sample.unread "Excluded: Read count invalid"]).
  - reflexivity.
  - repeat constructor; cbn; intuition discriminate.
  - repeat constructor.
Defined.

Lemma report_columns_nodup (header : list (option string)) :
  NoDup header -> NoDup (report_columns header).
Proof.
  intros H. unfold report_columns.
  destruct (existsb (same_key (Some "Import Result")) header) eqn:E;
    [exact H|].
  apply NoDup_app; [exact H|repeat constructor; intros []|].
  intros c Hc [<-|[]].
  assert (Hex : existsb (same_key (Some "Import Result")) header = true).
  { apply existsb_exists. exists (Some "Import Result").
    split; [exact Hc|reflexivity]. }
  rewrite Hex in E. discriminate E.
Qed.

Lemma annotate_columns (r : row) (o : string) :
  columns (annotate r o) = report_columns (columns r).
Proof. apply row_set_keys. Qed.

Lemma annotated_columns (header : list (option string)) (rows : list row) :
  Forall (fun r => columns r = header) rows ->
  forall outcomes,
    Forall (fun r => columns r = report_columns header)
           (annotated rows outcomes).
Proof.
  unfold annotated. induction 1 as [|r rows Hr _ IH]; intros outcomes;
    [constructor|].
  destruct outcomes as [|o os]; [constructor|].
  cbn [combine map fst snd]. constructor; [|apply IH].
  rewrite annotate_columns, Hr. reflexivity.
Qed.

(** X14. For a batch whose rows all have the keys of the first one, each
    once, and whose loop ends normally, the script writes the whole
    report: a header with the input keys and Import Result, then one
    line per input row, in input order, holding the values of the row and
    its annotation. *)
Theorem batch_report_has_one_line_per_row (env : environment)
        (did endpoint : string) (session : json) (records used_keys : list json)
        (first : row) (rest : list row) (st1 : state) :
  used_keys_of records = Ok used_keys ->
  NoDup (columns first) ->
  Forall (fun r => columns r = columns first) rest ->
  process_rows env did endpoint session used_keys (first :: rest) initial
  = (Ok tt, st1) ->
  exists outcomes,
    List.length outcomes = List.length (first :: rest)
    /\ Forall (fun o => In o outcome_texts) outcomes
    /\ results st1 = annotated (first :: rest) outcomes
    /\ main env did endpoint session records (first :: rest) initial
       = (Ok tt,
          written st1
            (header_line (report_columns (columns first))
             :: map cells (annotated (first :: rest) outcomes))).
Proof.
  intros Hused Hnd Hrest Hrun.
  destruct (process_rows_appends_in_order _ _ _ _ _ _ _ _ _ Hrun)
    as (outcomes & R & F & _ & L & _).
  specialize (L eq_refl). cbn [initial results app] in R.
  exists outcomes. split; [exact L|]. split; [exact F|]. split; [exact R|].
  unfold main. rewrite (bind_lift_ok _ _ _ _ Hused), (bind_ok _ _ _ _ _ Hrun).
  assert (Hall : Forall (fun r => columns r = report_columns (columns first))
                        (annotated (first :: rest) outcomes)).
  { apply annotated_columns. constructor; [reflexivity|exact Hrest]. }
  destruct outcomes as [|o os]; [discriminate L|].
  unfold annotated in *. cbn [combine map fst snd] in *.
  inversion Hall as [|? ? Hfirst Hothers]; subst.
  rewrite (write_report_same_columns st1 _ _ R).
  - rewrite R, Hfirst. reflexivity.
  - rewrite Hfirst. apply report_columns_nodup, Hnd.
  - rewrite Hfirst. exact Hothers.
Qed.

Lemma batch_report_witness :
  exists outcomes,
    List.length outcomes = List.length [Sample.dune; Sample.unread]
    /\ Forall (fun o => In o outcome_texts) outcomes
    /\ results (snd (process_rows Sample.twice_found Sample.did Sample.endpoint
                       Sample.session [] [Sample.dune; Sample.unread] initial))
       = annotated [Sample.dune; Sample.unread] outcomes
    /\ main Sample.twice_found Sample.did Sample.endpoint Sample.session []
            [Sample.dune; Sample.unread] initial
       = (Ok tt,
          written
            (snd (process_rows Sample.twice_found Sample.did Sample.endpoint
                    Sample.session [] [Sample.dune; Sample.unread] initial))
            (header_line (report_columns (columns Sample.dune))
             :: map cells (annotated [Sample.dune; Sample.unread] outcomes))).
Proof.
  apply (batch_report_has_one_line_per_row Sample.twice_found Sample.did
           Sample.endpoint Sample.session [] [] Sample.dune [Sample.unread]).
  - reflexivity.
  - repeat constructor; cbn; intuition discriminate.
  - repeat constructor.
  - reflexivity.
Defined.

(** X15. Nothing of the report is written when a row raises: the script
    ends with that exception, and the report file is as it was before the
    loop. *)
Theorem no_report_when_a_row_raises (env : environment)
        (did endpoint : string) (session : json) (records used_keys : list json)
        (data : list row) (st st1 : state) (e : exn) :
  used_keys_of records = Ok used_keys ->
  process_rows env did endpoint session used_keys data st = (Raise e, st1) ->
  main env did endpoint session records data st = (Raise e, st1)
  /\ report_file st1 = report_file st.
Proof.
  intros Hused Hrun. split.
  - unfold main.
    rewrite (bind_lift_ok _ _ _ _ Hused), (bind_raise _ _ _ _ _ Hrun).
    reflexivity.
  - destruct (process_rows_appends_in_order _ _ _ _ _ _ _ _ _ Hrun)
      as (outcomes & _ & _ & _ & _ & T). exact T.
Qed.

Lemma no_report_witness :
  main (Sample.scripted [Body (Sample.found "/books/OL1M")]) Sample.did
       Sample.endpoint Sample.session [] [Sample.unrated; Sample.dune] initial
  = (Raise ValueError,
     snd (process_rows (Sample.scripted [Body (Sample.found "/books/OL1M")])
            Sample.did Sample.endpoint Sample.session []
            [Sample.unrated; Sample.dune] initial))
  /\ report_file
       (snd (process_rows (Sample.scripted [Body (Sample.found "/books/OL1M")])
               Sample.did Sample.endpoint Sample.session []
               [Sample.unrated; Sample.dune] initial))
     = report_file initial.
Proof.
  apply (no_report_when_a_row_raises
           (Sample.scripted [Body (Sample.found "/books/OL1M")]) Sample.did
           Sample.endpoint Sample.session [] []
           [Sample.unrated; Sample.dune] initial); reflexivity.
Defined.

(** ** Record creation, further *)

(** X16. [create_record] sends its request only once the record is built
    and the session has given its token: a My Rating cell that is no
    integer, or a session that is no dict, raises with nothing sent.  When
    the store answers with a truthy body that has no string under uri, the
    request has been sent and AttributeError is raised. *)
Theorem create_record_edges (env : environment) (did endpoint : string)
        (session : json) (r : row) (k : string) (st : state) :
  (forall e,
      build_record (timestamp_of (utc_now_iso env (sent st))) r k = Raise e ->
      create_record env did endpoint session r k st = (Raise e, st))
  /\ (forall record,
         build_record (timestamp_of (utc_now_iso env (sent st))) r k = Ok record ->
         (forall d, session <> JDict d) ->
         create_record env did endpoint session r k st
         = (Raise AttributeError, st))
  /\ (forall record token res uri,
         build_record (timestamp_of (utc_now_iso env (sent st))) r k = Ok record ->
         Py.get session "accessJwt" = Ok token ->
         respond env (sent st) (create_request did endpoint token record)
         = Body res ->
         Py.truthy res = true ->
         Py.get res "uri" = Ok uri ->
         (forall s, uri <> JStr s) ->
         create_record env did endpoint session r k st
         = (Raise AttributeError,
            after st (create_request did endpoint token record))).
Proof.
  split; [|split].
  - intros e He. unfold create_record. unfold bind at 1. cbn [now].
    unfold bind, lift. rewrite He. reflexivity.
  - intros record Hrec Hs. unfold create_record. unfold bind at 1. cbn [now].
    rewrite (bind_lift_ok _ _ _ _ Hrec). unfold bind, lift.
    destruct session; try reflexivity. exfalso. exact (Hs d eq_refl).
  - intros record token res uri Hrec Htok Hres Ht Huri Hns.
    rewrite (create_record_run _ _ _ _ _ _ _ _ _ Hrec Htok), Hres.
    cbn [creation_outcome]. rewrite Ht, Huri. cbn [negb].
    destruct uri; try reflexivity. exfalso. exact (Hns s eq_refl).
Qed.

Lemma create_record_edges_witness :
  create_record (Sample.scripted [Body (JDict [("ok", JBool true)])])
                Sample.did Sample.endpoint Sample.session Sample.dune "OL1M"
                initial
  = (Raise AttributeError,
     after initial
       (create_request Sample.did Sample.endpoint (JStr "token")
          (Sample.record_of "2024-01-02T03:04:05.123Z" Sample.dune "OL1M")))
  /\ create_record Sample.offline Sample.did Sample.endpoint Sample.session
                   Sample.unrated "OL1M" initial
     = (Raise ValueError, initial)
  /\ create_record Sample.offline Sample.did Sample.endpoint (JStr "token")
                   Sample.dune "OL1M" initial
     = (Raise AttributeError, initial).
Proof.
  split; [|split].
  - destruct (create_record_edges
                (Sample.scripted [Body (JDict [("ok", JBool true)])])
                Sample.did Sample.endpoint Sample.session Sample.dune "OL1M"
                initial) as (_ & _ & H).
    apply (H _ (JStr "token") (JDict [("ok", JBool true)]) JNull);
      try reflexivity.
    intros s. discriminate.
  - destruct (create_record_edges Sample.offline Sample.did Sample.endpoint
                Sample.session Sample.unrated "OL1M" initial) as (H & _).
    apply H. reflexivity.
  - destruct (create_record_edges Sample.offline Sample.did Sample.endpoint
                (JStr "token") Sample.dune "OL1M" initial) as (_ & H & _).
    apply (H (Sample.record_of "2024-01-02T03:04:05.123Z" Sample.dune "OL1M"));
      [reflexivity|]. intros d. discriminate.
Defined.

(** ** The timestamp *)

Lemma substring_prefix (p t : string) :
  substring 0 (String.length p) (p ++ t) = p.
Proof.
  induction p as [|c p IH]; cbn [String.length append substring].
  - destruct t; reflexivity.
  - rewrite IH. reflexivity.
Qed.

Lemma length_append (a b : string) :
  String.length (a ++ b) = (String.length a + String.length b)%nat.
Proof.
  induction a as [|c a IH]; [reflexivity|].
  cbn [append String.length]. rewrite IH. reflexivity.
Qed.

(** X17. The timestamp is the clock's ISO string without its last nine
    characters, followed by Z: of a string with microseconds and the UTC
    offset it keeps the milliseconds, and of a string without a fraction
    (the clock at a whole second) it cuts the seconds away. *)
Theorem timestamp_cuts_nine_characters (p t : string) :
  String.length t = 9%nat ->
  timestamp_of (p ++ t) = p ++ "Z".
Proof.
  intros Ht. unfold timestamp_of, PyStr.drop_last.
  rewrite length_append, Ht.
  replace (String.length p + 9 - 9)%nat with (String.length p) by lia.
  rewrite substring_prefix. reflexivity.
Qed.

Lemma timestamp_witness :
  timestamp_of ("2024-01-02T03:04:05.123" ++ "456+00:00")
  = "2024-01-02T03:04:05.123" ++ "Z"
  /\ timestamp_of ("2024-01-02T03:04" ++ ":05+00:00")
     = "2024-01-02T03:04" ++ "Z".
Proof.
  split.
  - apply (timestamp_cuts_nine_characters "2024-01-02T03:04:05.123" "456+00:00").
    reflexivity.
  - apply (timestamp_cuts_nine_characters "2024-01-02T03:04" ":05+00:00").
    reflexivity.
Defined.


(** ** Identity: handles, DID documents and service endpoints *)

Lemma handle_query_run (env : environment) (url : string) (st : state) :
  safe_request env "get" url None None None None st
  = receive (respond env (sent st) (mkRequest GET url None None None None))
            (after st (mkRequest GET url None None None None)).
Proof. reflexivity. Qed.

Lemma resolve_handle_asks (env : environment) (handle : string) (st : state) :
  starts_with handle "did:" = false -> starts_with handle "@" = false ->
  PyStr.is_empty handle = false ->
  resolve_handle env handle st
  = bind (receive (respond env (sent st) (handle_request handle)))
         (fun res => lift (Py.get res "did"))
         (after st (handle_request handle)).
Proof.
  intros Hd Ha He. unfold resolve_handle. rewrite Hd, Ha, He. reflexivity.
Qed.

Lemma resolve_handle_drops_one_at (env : environment) (handle : string)
      (st : state) :
  PyStr.is_empty handle = false ->
  resolve_handle env (String "@" handle) st
  = bind (receive (respond env (sent st) (handle_request handle)))
         (fun res => lift (Py.get res "did"))
         (after st (handle_request handle)).
Proof.
  intros He. unfold resolve_handle.
  change (starts_with (String "@" handle) "did:") with false.
  change (starts_with (String "@" handle) "@") with true.
  cbv iota. cbn [drop_first]. rewrite He. reflexivity.
Qed.

(** X18. [resolve_handle] passes a DID through untouched and without a
    request.  Of a handle that starts with [@], exactly that one character
    is dropped and what follows is looked up as it stands, whatever it
    starts with: a second [@] stays in the lookup, and a DID after the [@]
    is looked up as a handle instead of being passed through.  A handle
    that starts with neither is looked up as it stands, so that a leading
    [@] before it changes nothing.  A handle that is empty once the [@] is
    gone gives [None], again without a request. *)
Theorem handle_is_normalised_before_lookup (env : environment)
        (handle : string) (st : state) :
  (starts_with handle "did:" = true ->
   resolve_handle env handle st = (Ok (JStr handle), st))
  /\ (PyStr.is_empty handle = false ->
      resolve_handle env (String "@" handle) st
      = bind (receive (respond env (sent st) (handle_request handle)))
             (fun res => lift (Py.get res "did"))
             (after st (handle_request handle)))
  /\ (starts_with handle "did:" = false -> starts_with handle "@" = false ->
      PyStr.is_empty handle = false ->
      resolve_handle env handle st
      = bind (receive (respond env (sent st) (handle_request handle)))
             (fun res => lift (Py.get res "did"))
             (after st (handle_request handle)))
  /\ (starts_with handle "did:" = false -> starts_with handle "@" = false ->
      resolve_handle env (String "@" handle) st = resolve_handle env handle st)
  /\ (PyStr.is_empty handle = true ->
      resolve_handle env handle st = (Ok JNull, st)
      /\ resolve_handle env (String "@" handle) st = (Ok JNull, st)).
Proof.
  split; [|split; [|split; [|split]]].
  - intros H. unfold resolve_handle. rewrite H. reflexivity.
  - apply resolve_handle_drops_one_at.
  - apply resolve_handle_asks.
  - intros Hd Ha.
    assert (E1 : starts_with (String "@" handle) "did:" = false)
      by reflexivity.
    assert (E2 : starts_with (String "@" handle) "@" = true) by reflexivity.
    unfold resolve_handle. rewrite E1, E2, Hd, Ha. reflexivity.
  - intros He. destruct handle; [|discriminate]. split; reflexivity.
Qed.

Lemma handle_is_normalised_witness :
  resolve_handle Sample.offline "did:plc:abc" initial
  = (Ok (JStr "did:plc:abc"), initial)
  /\ resolve_handle (Sample.scripted [Body Identity.resolved]) "@@alice" initial
     = (Ok (JStr Sample.did), after initial (handle_request "@alice"))
  /\ resolve_handle (Sample.scripted [Body Identity.resolved]) "@did:plc:abc"
       initial
     = (Ok (JStr Sample.did), after initial (handle_request "did:plc:abc"))
  /\ resolve_handle (Sample.scripted [Body Identity.resolved]) "alice.example"
       initial
     = (Ok (JStr Sample.did), after initial (handle_request "alice.example"))
  /\ resolve_handle Sample.offline "@alice.example" initial
     = resolve_handle Sample.offline "alice.example" initial
  /\ resolve_handle Sample.offline "@" initial = (Ok JNull, initial).
Proof.
  split; [|split; [|split; [|split; [|split]]]].
  - apply (handle_is_normalised_before_lookup Sample.offline "did:plc:abc").
    reflexivity.
  - exact (proj1 (proj2 (handle_is_normalised_before_lookup
                           (Sample.scripted [Body Identity.resolved])
                           "@alice" initial)) eq_refl).
  - exact (proj1 (proj2 (handle_is_normalised_before_lookup
                           (Sample.scripted [Body Identity.resolved])
                           "did:plc:abc" initial)) eq_refl).
  - exact (proj1 (proj2 (proj2 (handle_is_normalised_before_lookup
                                  (Sample.scripted [Body Identity.resolved])
                                  "alice.example" initial)))
             eq_refl eq_refl eq_refl).
  - exact (proj1 (proj2 (proj2 (proj2 (handle_is_normalised_before_lookup
                                         Sample.offline "alice.example"
                                         initial))))
             eq_refl eq_refl).
  - apply (handle_is_normalised_before_lookup Sample.offline EmptyString).
    reflexivity.
Defined.

(** X19. A handle that has to be looked up costs exactly one request.  The
    DID is the [did] field of the answer ([None] when the field is absent);
    when the request fails, [resolve_handle] does not return [None] but
    raises AttributeError, and so does an answer that is not an object. *)
Theorem handle_lookup_outcomes (env : environment) (handle : string)
        (st : state) :
  starts_with handle "did:" = false -> starts_with handle "@" = false ->
  PyStr.is_empty handle = false ->
  (forall d,
      respond env (sent st) (handle_request handle) = Body (JDict d) ->
      resolve_handle env handle st
      = (Ok (Py.dict_get d (KStr "did")), after st (handle_request handle)))
  /\ (respond env (sent st) (handle_request handle) = Failed ->
      resolve_handle env handle st
      = (Raise AttributeError, after st (handle_request handle)))
  /\ (forall j,
         respond env (sent st) (handle_request handle) = Body j ->
         (forall d, j <> JDict d) ->
         resolve_handle env handle st
         = (Raise AttributeError, after st (handle_request handle))).
Proof.
  intros Hd Ha He. rewrite (resolve_handle_asks _ _ _ Hd Ha He).
  split; [|split].
  - intros d ->. reflexivity.
  - intros ->. reflexivity.
  - intros j -> Hj. destruct j; try reflexivity. elim (Hj d). reflexivity.
Qed.

Lemma handle_lookup_witness :
  resolve_handle (Sample.scripted [Body Identity.resolved]) "alice.example"
    initial
  = (Ok (JStr Sample.did), after initial (handle_request "alice.example"))
  /\ resolve_handle Sample.offline "alice.example" initial
     = (Raise AttributeError, after initial (handle_request "alice.example")).
Proof.
  split.
  - exact (proj1 (handle_lookup_outcomes
                    (Sample.scripted [Body Identity.resolved])
                    "alice.example" initial eq_refl eq_refl eq_refl)
                 _ eq_refl).
  - exact (proj1 (proj2 (handle_lookup_outcomes Sample.offline
                           "alice.example" initial eq_refl eq_refl eq_refl))
                 eq_refl).
Defined.

Lemma no_colon_is_no_sep (s : string) :
  no_colon s = all_chars (fun c => negb (Ascii.eqb c ":")) s.
Proof. reflexivity. Qed.

Lemma last_colon_segment (a b : string) :
  no_colon b = true ->
  List.last (PyStr.split ":" (a ++ String ":" b)) EmptyString = b.
Proof.
  intros H. rewrite split_app_sep, last_of_app by apply split_not_nil.
  rewrite (split_without_sep _ _ H). reflexivity.
Qed.

Lemma get_did_doc_of_did (env : environment) (did : string) (st : state) :
  starts_with did "did:" = true ->
  get_did_doc env (JStr did) st
  = receive (respond env (sent st) (did_doc_request did))
            (after st (did_doc_request did)).
Proof.
  intros H. unfold get_did_doc. rewrite H. reflexivity.
Qed.

(** X20. [get_did_doc] fetches the document of a DID with one request.  For
    a [did:web] identifier the host is the text after the LAST colon, so a
    path or port written with colons replaces the domain; every other DID
    is looked up in the PLC directory under its full text.  A [did] that is
    not a string raises AttributeError before any request. *)
Theorem did_document_location (env : environment) (st : state) :
  (forall did,
      starts_with did "did:" = true ->
      get_did_doc env (JStr did) st
      = receive (respond env (sent st) (did_doc_request did))
                (after st (did_doc_request did)))
  /\ (forall host,
         no_colon host = true ->
         did_doc_url ("did:web:" ++ host)
         = "https://" ++ host ++ "/.well-known/did.json")
  /\ (forall domain last,
         no_colon last = true ->
         did_doc_url ("did:web:" ++ domain ++ String ":" last)
         = "https://" ++ last ++ "/.well-known/did.json")
  /\ (forall did,
         starts_with did "did:web:" = false ->
         did_doc_url did = "https://plc.directory/" ++ did)
  /\ (forall did,
         (forall s, did <> JStr s) ->
         get_did_doc env did st = (Raise AttributeError, st)).
Proof.
  split; [|split; [|split; [|split]]].
  - intros did. apply get_did_doc_of_did.
  - intros host H. unfold did_doc_url.
    change (starts_with ("did:web:" ++ host) "did:web:") with true.
    change ("did:web:" ++ host) with ("did:web" ++ String ":" host).
    rewrite (last_colon_segment _ _ H). reflexivity.
  - intros domain last H. unfold did_doc_url.
    change (starts_with ("did:web:" ++ domain ++ String ":" last) "did:web:")
      with true.
    change ("did:web:" ++ domain ++ String ":" last)
      with (("did:web:" ++ domain) ++ String ":" last).
    rewrite (last_colon_segment _ _ H). reflexivity.
  - intros did H. unfold did_doc_url. rewrite H. reflexivity.
  - intros did H. destruct did; try reflexivity. elim (H s). reflexivity.
Qed.

Lemma did_document_witness :
  get_did_doc Sample.offline (JStr "did:web:example.com") initial
  = (Ok JNull,
     after initial
       (mkRequest GET "https://example.com/.well-known/did.json"
                  None None None None))
  /\ did_doc_url "did:web:example.com:user:alice"
     = "https://alice/.well-known/did.json"
  /\ did_doc_url "did:plc:abc" = "https://plc.directory/did:plc:abc"
  /\ get_did_doc Sample.offline JNull initial = (Raise AttributeError, initial).
Proof.
  destruct (did_document_location Sample.offline initial)
    as (Hdoc & _ & Hweb & Hplc & Hno).
  split; [|split; [|split]].
  - rewrite (Hdoc "did:web:example.com" eq_refl). reflexivity.
  - exact (Hweb "example.com:user" "alice" eq_refl).
  - exact (Hplc "did:plc:abc" eq_refl).
  - apply Hno. intros s. discriminate.
Defined.

(** ** The service endpoint *)

Lemma find_endpoint_skips (pre : list json) (rest : list json) :
  forallb other_service pre = true ->
  find_endpoint (pre ++ rest) = find_endpoint rest.
Proof.
  induction pre as [|s pre IH]; [reflexivity|].
  cbn [forallb app find_endpoint]. intros H.
  apply andb_prop in H. destruct H as [Hs Hpre].
  destruct s; try discriminate. cbn [other_service] in Hs.
  cbn [Py.get rbind].
  apply negb_true_iff in Hs. rewrite Hs. exact (IH Hpre).
Qed.

Lemma find_endpoint_takes (s : json) (rest : list json) :
  is_pds s = true ->
  find_endpoint (s :: rest) = Py.get s "serviceEndpoint".
Proof.
  intros H. destruct s; try discriminate. cbn [is_pds] in H.
  cbn [find_endpoint Py.get rbind]. rewrite H. reflexivity.
Qed.

Lemma get_service_endpoint_run (env : environment) (did : json)
      (doc : list (string * json)) (st st' : state) :
  get_did_doc env did st = (Ok (JDict doc), st') ->
  get_service_endpoint env did st
  = bind (lift (iterate (if Py.truthy (Py.dict_get doc (KStr "service"))
                         then Py.dict_get doc (KStr "service")
                         else JList [])))
         (fun services => lift (find_endpoint services)) st'.
Proof.
  intros H. unfold get_service_endpoint. rewrite (bind_ok _ _ _ _ _ H).
  reflexivity.
Qed.

(** X21. Given the DID document, [get_service_endpoint] returns the
    [serviceEndpoint] of the FIRST service whose type is
    AtprotoPersonalDataServer, whatever follows it; when the document lists
    only services of other types, lists none, or has no [service] entry, it
    returns https://bsky.social.  It sends nothing beyond what fetching the
    document sent. *)
Theorem service_endpoint_is_first_pds_or_default (env : environment)
        (did : json) (doc : list (string * json)) (st st' : state) :
  get_did_doc env did st = (Ok (JDict doc), st') ->
  (forall pre s post,
      Py.dict_get doc (KStr "service") = JList (pre ++ s :: post) ->
      forallb other_service pre = true -> is_pds s = true ->
      get_service_endpoint env did st = (Py.get s "serviceEndpoint", st'))
  /\ (forall services,
         Py.dict_get doc (KStr "service") = JList services ->
         forallb other_service services = true ->
         get_service_endpoint env did st
         = (Ok (JStr "https://bsky.social"), st'))
  /\ (Py.truthy (Py.dict_get doc (KStr "service")) = false ->
      get_service_endpoint env did st
      = (Ok (JStr "https://bsky.social"), st')).
Proof.
  intros Hdoc. rewrite (get_service_endpoint_run _ _ _ _ _ Hdoc).
  split; [|split].
  - intros pre s post -> Hpre Hs.
    replace (if Py.truthy (JList (pre ++ s :: post))
             then JList (pre ++ s :: post) else JList [])
      with (JList (pre ++ s :: post))
      by (destruct pre; reflexivity).
    cbn [iterate]. unfold bind, lift.
    rewrite (find_endpoint_skips _ _ Hpre), (find_endpoint_takes _ _ Hs).
    reflexivity.
  - intros services -> Hall.
    replace (if Py.truthy (JList services) then JList services else JList [])
      with (JList services) by (destruct services; reflexivity).
    cbn [iterate]. unfold bind, lift.
    rewrite <- (app_nil_r services), (find_endpoint_skips _ _ Hall).
    reflexivity.
  - intros ->. reflexivity.
Qed.

Lemma service_endpoint_witness :
  get_service_endpoint (Sample.scripted [Body Identity.did_doc])
    (JStr Sample.did) initial
  = (Ok (JStr Sample.endpoint), after initial (did_doc_request Sample.did))
  /\ get_service_endpoint (Sample.scripted [Body (JDict [])])
       (JStr Sample.did) initial
     = (Ok (JStr "https://bsky.social"),
        after initial (did_doc_request Sample.did)).
Proof.
  split.
  - exact (proj1 (service_endpoint_is_first_pds_or_default
                    (Sample.scripted [Body Identity.did_doc])
                    (JStr Sample.did) _ initial _ eq_refl)
                 [JDict [("id", JStr "#labeler");
                         ("type", JStr "AtprotoLabeler");
                         ("serviceEndpoint", JStr "https://labels.example")]]
                 _ [] eq_refl eq_refl eq_refl).
  - exact (proj2 (proj2 (service_endpoint_is_first_pds_or_default
                           (Sample.scripted [Body (JDict [])])
                           (JStr Sample.did) _ initial _ eq_refl))
                 eq_refl).
Defined.

(** X22. Fetching the DID document is not guarded: when that request
    fails, or is answered by something that is not an object,
    [get_service_endpoint] raises AttributeError instead of falling back to
    the default endpoint; when the [service] entry is a number or [true]
    it raises TypeError. *)
Theorem service_endpoint_needs_the_document (env : environment)
        (did : string) (st : state) :
  starts_with did "did:" = true ->
  (respond env (sent st) (did_doc_request did) = Failed ->
   get_service_endpoint env (JStr did) st
   = (Raise AttributeError, after st (did_doc_request did)))
  /\ (forall j,
         respond env (sent st) (did_doc_request did) = Body j ->
         (forall d, j <> JDict d) ->
         get_service_endpoint env (JStr did) st
         = (Raise AttributeError, after st (did_doc_request did)))
  /\ (forall doc services,
         respond env (sent st) (did_doc_request did) = Body (JDict doc) ->
         Py.dict_get doc (KStr "service") = services ->
         Py.truthy services = true -> is_scalar services = true ->
         (forall s, services <> JStr s) ->
         get_service_endpoint env (JStr did) st
         = (Raise TypeError, after st (did_doc_request did))).
Proof.
  intros Hd. unfold get_service_endpoint.
  split; [|split].
  - intros Hr. unfold bind at 1 2. rewrite (get_did_doc_of_did _ _ _ Hd), Hr.
    reflexivity.
  - intros j Hr Hj. unfold bind at 1 2.
    rewrite (get_did_doc_of_did _ _ _ Hd), Hr.
    destruct j; try reflexivity. elim (Hj d). reflexivity.
  - intros doc services Hr Hs Ht Hsc Hno. unfold bind at 1.
    rewrite (get_did_doc_of_did _ _ _ Hd), Hr. cbn [receive ret].
    unfold bind, lift. cbn [Py.get]. rewrite Hs, Ht.
    destruct services; try discriminate; try reflexivity.
    elim (Hno s). reflexivity.
Qed.

Lemma service_endpoint_needs_witness :
  get_service_endpoint Sample.offline (JStr Sample.did) initial
  = (Raise AttributeError, after initial (did_doc_request Sample.did))
  /\ get_service_endpoint
       (Sample.scripted [Body (JDict [("service", JInt 1)])])
       (JStr Sample.did) initial
     = (Raise TypeError, after initial (did_doc_request Sample.did)).
Proof.
  split.
  - exact (proj1 (service_endpoint_needs_the_document Sample.offline
                    Sample.did initial eq_refl) eq_refl).
  - exact (proj2 (proj2 (service_endpoint_needs_the_document
                           (Sample.scripted
                              [Body (JDict [("service", JInt 1)])])
                           Sample.did initial eq_refl))
                 _ _ eq_refl eq_refl eq_refl eq_refl
                 ltac:(intros s; discriminate)).
Defined.


(** ** Logging in and listing the existing records *)

Lemma get_session_run (env : environment) (actor password endpoint : string)
      (st : state) :
  get_session env actor password endpoint st
  = receive (respond env (sent st) (session_request actor password endpoint))
            (after st (session_request actor password endpoint)).
Proof. reflexivity. Qed.

Lemma list_records_loop_done (env : environment) (param_text : json -> string)
      (fuel : nat) (api : string) (params : list (string * string))
      (res output cursor : json) (st : state) :
  Py.get res "cursor" = Ok cursor -> Py.truthy cursor = false ->
  list_records_loop env param_text fuel api params res output st
  = (Ok (Some output), st).
Proof.
  intros Hc Ht. destruct fuel; cbn [list_records_loop];
    rewrite (bind_lift_ok _ _ _ _ Hc), Ht; reflexivity.
Qed.

Lemma list_records_loop_turn (env : environment) (param_text : json -> string)
      (fuel : nat) (did endpoint nsid : string) (res output cursor : json)
      (st : state) :
  Py.get res "cursor" = Ok cursor -> Py.truthy cursor = true ->
  list_records_loop env param_text (S fuel)
    (endpoint ++ "/xrpc/com.atproto.repo.listRecords")
    [("repo", did); ("collection", nsid); ("limit", "100")] res output st
  = bind (receive (respond env (sent st)
                     (records_request did endpoint nsid
                        (Some (param_text cursor)))))
         (fun res' =>
            more <- lift (Py.get res' "records") ;;
            output' <- lift (extend output more) ;;
            list_records_loop env param_text fuel
              (endpoint ++ "/xrpc/com.atproto.repo.listRecords")
              [("repo", did); ("collection", nsid); ("limit", "100")]
              res' output')
         (after st (records_request did endpoint nsid
                      (Some (param_text cursor)))).
Proof.
  intros Hc Ht. cbn [list_records_loop].
  rewrite (bind_lift_ok _ _ _ _ Hc), Ht. reflexivity.
Qed.

Lemma list_records_loop_collects (env : environment)
      (param_text : json -> string) (did endpoint nsid : string)
      (history : list request) (res : json) (pages : list (list json)) :
  serves env param_text did endpoint nsid history res pages ->
  forall (fuel : nat) (acc : list json) (st : state),
    sent st = history -> (List.length pages <= fuel)%nat ->
    exists l,
      list_records_loop env param_text fuel
        (endpoint ++ "/xrpc/com.atproto.repo.listRecords")
        [("repo", did); ("collection", nsid); ("limit", "100")]
        res (JList acc) st
      = (Ok (Some (JList (acc ++ concat pages))), after_all st l)
      /\ List.length l = List.length pages.
Proof.
  induction 1 as [history res cursor Hc Ht
                 |history res cursor res' records pages Hc Ht Hr Hrec Hs IH];
    intros fuel acc st Hst Hfuel.
  - exists []. rewrite (list_records_loop_done _ _ _ _ _ _ _ _ _ Hc Ht).
    cbn [concat]. rewrite app_nil_r, after_all_nil. auto.
  - destruct fuel as [|fuel]; [cbn in Hfuel; lia|].
    rewrite (list_records_loop_turn _ _ _ _ _ _ _ _ _ _ Hc Ht).
    rewrite Hst, Hr. cbn [receive].
    unfold bind at 1. cbn [ret].
    rewrite (bind_lift_ok _ _ _ _ Hrec).
    cbn [extend iterate rbind]. rewrite (bind_lift_ok _ _ _ _ eq_refl).
    destruct (IH fuel (acc ++ records)%list
                 (after st (records_request did endpoint nsid
                              (Some (param_text cursor)))))
      as (l & Hl & Hlen).
    + cbn. rewrite Hst. reflexivity.
    + cbn in Hfuel. lia.
    + exists (records_request did endpoint nsid (Some (param_text cursor))
                :: l).
      rewrite Hl, after_all_cons. cbn [concat List.length].
      rewrite app_assoc. auto.
Qed.

(** X23. [list_records] follows the cursors to the end: when the first
    answer holds a list of records and the store then serves further pages,
    each for the cursor of the answer before it, the function returns the
    records of all pages in the order served, having sent one request per
    page and nothing else. *)
Theorem listing_collects_every_page (env : environment)
        (param_text : json -> string) (fuel : nat)
        (did endpoint nsid : string) (res : json) (first : list json)
        (pages : list (list json)) (st : state) :
  respond env (sent st) (records_request did endpoint nsid None) = Body res ->
  Py.get res "records" = Ok (JList first) ->
  serves env param_text did endpoint nsid
    (sent st ++ [records_request did endpoint nsid None])%list res pages ->
  (List.length pages <= fuel)%nat ->
  exists l,
    list_records env param_text fuel did endpoint nsid st
    = (Ok (Some (JList (first ++ concat pages))),
       after_all st (records_request did endpoint nsid None :: l))
    /\ List.length l = List.length pages.
Proof.
  intros Hr Hrec Hs Hfuel. unfold list_records.
  change (safe_request env "get"
            (endpoint ++ "/xrpc/com.atproto.repo.listRecords")
            (Some [("repo", did); ("collection", nsid); ("limit", "100")])
            None None None)
    with (bind (send env (records_request did endpoint nsid None))
               (fun rs => receive rs)).
  unfold bind at 1 2. unfold send. rewrite Hr. cbn [receive ret].
  rewrite (bind_lift_ok _ _ _ _ Hrec).
  destruct (list_records_loop_collects _ _ _ _ _ _ _ _ Hs fuel first
              (after st (records_request did endpoint nsid None))
              eq_refl Hfuel)
    as (l & Hl & Hlen).
  exists l. unfold after in *. rewrite Hl, <- after_all_cons. auto.
Qed.

Lemma listing_witness :
  exists l,
    list_records
      (Sample.scripted [Body Identity.first_page; Body Identity.last_page])
      Identity.text 3 Sample.did Sample.endpoint "my.skylights.rel" initial
    = (Ok (Some (JList ([Identity.record "OL1M"; Identity.record "OL2M"]
                          ++ concat [[Identity.record "OL3M"]]))),
       after_all initial
         (records_request Sample.did Sample.endpoint "my.skylights.rel" None
            :: l))
    /\ List.length l = 1%nat.
Proof.
  apply (listing_collects_every_page
           (Sample.scripted [Body Identity.first_page; Body Identity.last_page])
           Identity.text 3 Sample.did Sample.endpoint "my.skylights.rel"
           Identity.first_page
           [Identity.record "OL1M"; Identity.record "OL2M"]
           [[Identity.record "OL3M"]] initial).
  - reflexivity.
  - reflexivity.
  - apply (serves_page _ _ _ _ _ _ Identity.first_page (JStr "c1")
             Identity.last_page).
    + reflexivity.
    + reflexivity.
    + reflexivity.
    + reflexivity.
    + apply (serves_end _ _ _ _ _ _ Identity.last_page JNull); reflexivity.
  - simpl. lia.
Defined.

(** X24. The listing is not guarded against a failed request: when the
    first request fails, [list_records] raises AttributeError rather than
    returning an empty list; and when a later page fails, the records
    gathered so far are lost to the same exception. *)
Theorem listing_fails_on_a_failed_page (env : environment)
        (param_text : json -> string) (fuel : nat)
        (did endpoint nsid : string) (st : state) :
  (respond env (sent st) (records_request did endpoint nsid None) = Failed ->
   list_records env param_text fuel did endpoint nsid st
   = (Raise AttributeError,
      after st (records_request did endpoint nsid None)))
  /\ (forall res first cursor,
         respond env (sent st) (records_request did endpoint nsid None)
         = Body res ->
         Py.get res "records" = Ok (JList first) ->
         Py.get res "cursor" = Ok cursor -> Py.truthy cursor = true ->
         respond env (sent st ++ [records_request did endpoint nsid None])
           (records_request did endpoint nsid (Some (param_text cursor)))
         = Failed ->
         list_records env param_text (S fuel) did endpoint nsid st
         = (Raise AttributeError,
            after_all st
              [records_request did endpoint nsid None;
               records_request did endpoint nsid
                 (Some (param_text cursor))])).
Proof.
  split.
  - intros Hr. unfold list_records.
    change (safe_request env "get"
              (endpoint ++ "/xrpc/com.atproto.repo.listRecords")
              (Some [("repo", did); ("collection", nsid); ("limit", "100")])
              None None None)
      with (bind (send env (records_request did endpoint nsid None))
                 (fun rs => receive rs)).
    unfold bind at 1 2. unfold send. rewrite Hr. reflexivity.
  - intros res first cursor Hr Hrec Hc Ht Hf. unfold list_records.
    change (safe_request env "get"
              (endpoint ++ "/xrpc/com.atproto.repo.listRecords")
              (Some [("repo", did); ("collection", nsid); ("limit", "100")])
              None None None)
      with (bind (send env (records_request did endpoint nsid None))
                 (fun rs => receive rs)).
    unfold bind at 1 2. unfold send. rewrite Hr. cbn [receive ret].
    rewrite (bind_lift_ok _ _ _ _ Hrec).
    rewrite (list_records_loop_turn _ _ _ _ _ _ _ _ _ _ Hc Ht).
    cbn [sent]. rewrite Hf. unfold bind at 1. cbn [receive ret].
    unfold bind at 1. cbn [lift Py.get].
    unfold after, after_all. cbn [sent results report_file].
    rewrite <- app_assoc. reflexivity.
Qed.

Lemma listing_fails_witness :
  list_records Sample.offline Identity.text 3 Sample.did Sample.endpoint
    "my.skylights.rel" initial
  = (Raise AttributeError,
     after initial
       (records_request Sample.did Sample.endpoint "my.skylights.rel" None))
  /\ list_records (Sample.scripted [Body Identity.first_page]) Identity.text 3
       Sample.did Sample.endpoint "my.skylights.rel" initial
     = (Raise AttributeError,
        after_all initial
          [records_request Sample.did Sample.endpoint "my.skylights.rel" None;
           records_request Sample.did Sample.endpoint "my.skylights.rel"
             (Some "c1")]).
Proof.
  split.
  - exact (proj1 (listing_fails_on_a_failed_page Sample.offline Identity.text
                    3 Sample.did Sample.endpoint "my.skylights.rel" initial)
                 eq_refl).
  - exact (proj2 (listing_fails_on_a_failed_page
                    (Sample.scripted [Body Identity.first_page]) Identity.text
                    2 Sample.did Sample.endpoint "my.skylights.rel" initial)
                 Identity.first_page _ (JStr "c1")
                 eq_refl eq_refl eq_refl eq_refl eq_refl).
Defined.


(** ** The script as a whole *)

Lemma bind_ok_inv {A B : Type} (m : M A) (k : A -> M B) (st st' : state)
      (b : B) :
  bind m k st = (Ok b, st') ->
  exists a st1, m st = (Ok a, st1) /\ k a st1 = (Ok b, st').
Proof.
  unfold bind. destruct (m st) as [[a|e] st1]; [|discriminate].
  intros H. exists a, st1. auto.
Qed.

Lemma get_creates_nothing (env : environment) (url : string)
      (params : option (list (string * string))) :
  sends_only creates_nothing (safe_request env "get" url params None None None).
Proof.
  change (safe_request env "get" url params None None None)
    with (bind (send env (mkRequest GET url params None None None))
               (fun rs => receive rs)).
  apply sends_only_bind; [|intros rs; apply sends_only_receive].
  apply sends_only_send. left. reflexivity.
Qed.

Lemma resolve_handle_creates_nothing (env : environment) (handle : string) :
  sends_only creates_nothing (resolve_handle env handle).
Proof.
  unfold resolve_handle.
  destruct (starts_with handle "did:"); [apply sends_only_ret|].
  destruct (PyStr.is_empty _); [apply sends_only_ret|].
  apply sends_only_bind; [apply get_creates_nothing|intros res].
  apply sends_only_lift.
Qed.

Lemma get_did_doc_creates_nothing (env : environment) (did : json) :
  sends_only creates_nothing (get_did_doc env did).
Proof.
  unfold get_did_doc. destruct did; try apply sends_only_raise.
  apply sends_only_bind.
  - destruct (negb _); [apply resolve_handle_creates_nothing
                       |apply sends_only_ret].
  - intros did. destruct did; try apply sends_only_raise.
    apply get_creates_nothing.
Qed.

Lemma get_service_endpoint_creates_nothing (env : environment) (did : json) :
  sends_only creates_nothing (get_service_endpoint env did).
Proof.
  unfold get_service_endpoint.
  apply sends_only_bind; [apply get_did_doc_creates_nothing|intros doc].
  repeat frame_step.
Qed.

Lemma get_session_creates_nothing (env : environment)
      (actor password endpoint : string) :
  sends_only creates_nothing (get_session env actor password endpoint).
Proof.
  change (get_session env actor password endpoint)
    with (bind (send env (session_request actor password endpoint))
               (fun rs => receive rs)).
  apply sends_only_bind; [|intros rs; apply sends_only_receive].
  apply sends_only_send. right. exists actor, password, endpoint. reflexivity.
Qed.

Lemma exits_without_trace_ret (x : option ending) :
  exits_without_trace (ret x).
Proof.
  intros st message st' [= _ <-]. exists []. rewrite app_nil_r. auto.
Qed.

Lemma exits_without_trace_bind {A : Type} (m : M A)
      (k : A -> M (option ending)) :
  sends_only creates_nothing m -> (forall a, exits_without_trace (k a)) ->
  exits_without_trace (bind m k).
Proof.
  intros Hm Hk st message st' H.
  apply bind_ok_inv in H. destruct H as (a & st1 & H1 & H2).
  destruct (Hm _ _ _ H1) as (l1 & S1 & F1 & R1 & T1).
  destruct (Hk a _ _ _ H2) as (l2 & S2 & F2 & R2 & T2).
  exists (l1 ++ l2)%list. rewrite S2, S1, app_assoc, R2, R1, T2, T1.
  repeat split; auto. apply Forall_app; auto.
Qed.

Lemma exits_without_trace_never (m : M (option ending)) :
  (forall st message st', m st <> (Ok (Some (Exited message)), st')) ->
  exits_without_trace m.
Proof. intros H st message st' E. elim (H _ _ _ E). Qed.

Lemma script_exits_without_trace (env : environment)
      (param_text str_of : json -> string) (fuel : nat)
      (handle password : string) (data : list row) :
  exits_without_trace (script env param_text str_of fuel handle password data).
Proof.
  unfold script.
  apply exits_without_trace_bind;
    [apply resolve_handle_creates_nothing|intros did].
  destruct (negb (Py.truthy did)); [apply exits_without_trace_ret|].
  apply exits_without_trace_bind;
    [apply get_service_endpoint_creates_nothing|intros endpoint].
  destruct (negb (Py.truthy endpoint)); [apply exits_without_trace_ret|].
  apply exits_without_trace_bind; [apply sends_only_lift|intros d].
  apply exits_without_trace_bind;
    [apply get_session_creates_nothing|intros session].
  destruct (negb (Py.truthy session)); [apply exits_without_trace_ret|].
  apply exits_without_trace_never. intros st message st' H.
  apply bind_ok_inv in H. destruct H as ([records|] & st1 & _ & H);
    [|discriminate].
  apply bind_ok_inv in H. destruct H as (items & st2 & _ & H).
  apply bind_ok_inv in H. destruct H as (u & st3 & _ & H).
  discriminate.
Qed.

(** X25. Whenever the script stops with one of its three messages (no DID,
    no service endpoint, login unsuccessful), it has created nothing: every
    request it sent is a GET or the login itself, no row has been processed
    and the report file has not been touched. *)
Theorem exit_leaves_nothing_behind (env : environment)
        (param_text str_of : json -> string) (fuel : nat)
        (handle password : string) (data : list row)
        (st st' : state) (message : string) :
  script env param_text str_of fuel handle password data st
  = (Ok (Some (Exited message)), st') ->
  exists l, sent st' = (sent st ++ l)%list /\ Forall creates_nothing l /\
            results st' = results st /\ report_file st' = report_file st.
Proof. apply script_exits_without_trace. Qed.

Lemma exit_witness :
  script (Sample.scripted [Body Identity.resolved; Body Identity.did_doc])
    Identity.text Identity.text 3 "alice.example" "secret" [Sample.dune]
    initial
  = (Ok (Some (Exited "Session creation unsuccessful.")),
     after_all initial
       [handle_request "alice.example"; did_doc_request Sample.did;
        session_request "alice.example" "secret" Sample.endpoint])
  /\ exists l,
      [handle_request "alice.example"; did_doc_request Sample.did;
       session_request "alice.example" "secret" Sample.endpoint]
      = ([] ++ l)%list
      /\ Forall creates_nothing l
      /\ @nil row = [] /\ @None (list (list value)) = None.
Proof.
  split; [reflexivity|].
  apply (exit_leaves_nothing_behind
           (Sample.scripted [Body Identity.resolved; Body Identity.did_doc])
           Identity.text Identity.text 3 "alice.example" "secret"
           [Sample.dune] initial
           (after_all initial
              [handle_request "alice.example"; did_doc_request Sample.did;
               session_request "alice.example" "secret" Sample.endpoint])
           "Session creation unsuccessful.").
  reflexivity.
Defined.

(** X26. Once the handle has resolved to a DID and the endpoint has been
    found, everything hinges on the login.  A failed login ends the script
    with its message after that one request.  A login that is answered
    hands over to the row loop: the script lists the records of the
    resolved DID at that endpoint and then runs the batch with that DID,
    that endpoint, the session object as answered and the records listed,
    ending normally exactly when the batch does. *)
Theorem login_decides_the_run (env : environment)
        (param_text str_of : json -> string) (fuel : nat)
        (handle password did endpoint : string) (data : list row)
        (st st0 st1 : state) :
  resolve_handle env handle st = (Ok (JStr did), st0) ->
  PyStr.is_empty did = false ->
  get_service_endpoint env (JStr did) st0 = (Ok (JStr endpoint), st1) ->
  PyStr.is_empty endpoint = false ->
  str_of (JStr endpoint) = endpoint ->
  (respond env (sent st1) (session_request handle password endpoint) = Failed ->
   script env param_text str_of fuel handle password data st
   = (Ok (Some (Exited "Session creation unsuccessful.")),
      after st1 (session_request handle password endpoint)))
  /\ (forall session records st3,
         respond env (sent st1) (session_request handle password endpoint)
         = Body session ->
         Py.truthy session = true ->
         list_records env param_text fuel did endpoint "my.skylights.rel"
           (after st1 (session_request handle password endpoint))
         = (Ok (Some (JList records)), st3) ->
         script env param_text str_of fuel handle password data st
         = bind (main env did endpoint session records data)
                (fun _ => ret (Some Finished)) st3).
Proof.
  intros Hres Hdid Hep Hend Hstr.
  assert (Hstart :
            script env param_text str_of fuel handle password data st
            = bind (get_session env handle password endpoint)
                   (fun session =>
                      if negb (Py.truthy session)
                      then ret (Some (Exited "Session creation unsuccessful."))
                      else
                        listed <- list_records env param_text fuel did
                                    endpoint "my.skylights.rel" ;;
                        match listed with
                        | None => ret None
                        | Some records =>
                            records <- lift (iterate records) ;;
                            main env did endpoint session records data ;;
                            ret (Some Finished)
                        end) st1).
  { unfold script. rewrite (bind_ok _ _ _ _ _ Hres).
    cbn [Py.truthy]. rewrite Hdid. cbn [negb].
    rewrite (bind_ok _ _ _ _ _ Hep).
    cbn [Py.truthy]. rewrite Hend. cbn [negb].
    rewrite (bind_lift_ok _ _ _ _ eq_refl), Hstr. reflexivity. }
  rewrite Hstart. split.
  - intros Hr.
    assert (Hs : get_session env handle password endpoint st1
                 = (Ok JNull,
                    after st1 (session_request handle password endpoint)))
      by (rewrite get_session_run, Hr; reflexivity).
    rewrite (bind_ok _ _ _ _ _ Hs). reflexivity.
  - intros session records st3 Hr Ht Hlist.
    assert (Hs : get_session env handle password endpoint st1
                 = (Ok session,
                    after st1 (session_request handle password endpoint)))
      by (rewrite get_session_run, Hr; reflexivity).
    rewrite (bind_ok _ _ _ _ _ Hs), Ht. cbn [negb].
    rewrite (bind_ok _ _ _ _ _ Hlist). reflexivity.
Qed.

Lemma login_witness :
  script (Sample.scripted [Body Identity.resolved; Body Identity.did_doc])
    Identity.text Identity.text 3 "alice.example" "secret" [Sample.unread]
    initial
  = (Ok (Some (Exited "Session creation unsuccessful.")),
     after (after_all initial
              [handle_request "alice.example"; did_doc_request Sample.did])
       (session_request "alice.example" "secret" Sample.endpoint))
  /\ script (Sample.scripted [Body Identity.resolved; Body Identity.did_doc;
                              Body Sample.session; Body Identity.last_page])
       Identity.text Identity.text 3 "alice.example" "secret" [Sample.unread]
       initial
     = bind (main (Sample.scripted
                     [Body Identity.resolved; Body Identity.did_doc;
                      Body Sample.session; Body Identity.last_page])
               Sample.did Sample.endpoint Sample.session
               [Identity.record "OL3M"] [Sample.unread])
            (fun _ => ret (Some Finished))
            (after_all initial
               [handle_request "alice.example"; did_doc_request Sample.did;
                session_request "alice.example" "secret" Sample.endpoint;
                records_request Sample.did Sample.endpoint "my.skylights.rel"
                  None]).
Proof.
  split.
  - exact (proj1 (login_decides_the_run
                    (Sample.scripted
                       [Body Identity.resolved; Body Identity.did_doc])
                    Identity.text Identity.text 3 "alice.example" "secret"
                    Sample.did Sample.endpoint [Sample.unread] initial
                    (after_all initial [handle_request "alice.example"])
                    (after_all initial
                       [handle_request "alice.example";
                        did_doc_request Sample.did])
                    eq_refl eq_refl eq_refl eq_refl eq_refl)
                 eq_refl).
  - exact (proj2 (login_decides_the_run
                    (Sample.scripted
                       [Body Identity.resolved; Body Identity.did_doc;
                        Body Sample.session; Body Identity.last_page])
                    Identity.text Identity.text 3 "alice.example" "secret"
                    Sample.did Sample.endpoint [Sample.unread] initial
                    (after_all initial [handle_request "alice.example"])
                    (after_all initial
                       [handle_request "alice.example";
                        did_doc_request Sample.did])
                    eq_refl eq_refl eq_refl eq_refl eq_refl)
                 Sample.session [Identity.record "OL3M"] _
                 eq_refl eq_refl eq_refl).
Defined.
